(** * statlas-content-service: spatial resolver, coastline classifier, bulk catalog

    A shallow embedding of the request handlers of the content service
    (the Go program in [main.go]) and the properties its specification
    states about them.

    Go data is modelled as the program has it: [float64] is Rocq's
    primitive binary64 float, [int] and [int64] are [Z], [string] is
    [string], a Go [map[string]T] is a [gmap string T], a slice is a
    [list], [interface{}] is the tagged union [Value], and a Go [error]
    is an [option string] ([None] for [nil]).  The handlers do no
    arithmetic on integers beyond [len].  The document store is modelled
    by the documents of its collections; the functions of the packages
    the handlers call (strconv, strings, math, orb, encoding/json,
    Firestore's struct decoder) are an interface the development is
    parametric in. *)

From Stdlib Require Import Floats ZArith Ascii String.
From stdpp Require Import gmap strings list.

Local Set Warnings "-register-all,-inexact-float".
Local Open Scope string_scope.
Local Open Scope list_scope.

(* ================================================================== *)
(** ** Go values *)

(** [interface{}] as the handlers meet it: what Firestore's [Data] and
    [DataTo(&map)] put in a [map[string]interface{}], and what the
    handlers put in the maps they encode as JSON. *)
Inductive Value : Type :=
| VNull
| VBool (b : bool)
| VInt (n : Z)
| VDouble (f : float)
| VString (s : string)
| VArray (vs : list Value)
| VMap (m : gmap string Value).

(** Go's [error]: [None] is [nil]. *)
Definition error : Type := option string.

(** A type assertion with the comma-ok form, [v, ok := x.(T)], on the
    result of indexing a map: a missing key indexes to the nil interface,
    on which every assertion fails. *)
Definition assert_string (x : option Value) : option string :=
  match x with Some (VString s) => Some s | _ => None end.

Definition assert_float64 (x : option Value) : option float :=
  match x with Some (VDouble f) => Some f | _ => None end.

Definition assert_map (x : option Value) : option (gmap string Value) :=
  match x with Some (VMap m) => Some m | _ => None end.

(** [v, _ := x.(float64)]: the zero value when the assertion fails. *)
Definition float64_or_zero (x : option Value) : float :=
  default 0%float (assert_float64 x).

(** What a Go call does besides returning: it may panic (the one-result
    assertion [x.(T)] does, when [x] holds no [T]). *)
Inductive Outcome (A : Type) : Type :=
| Returned (a : A)
| Panicked (msg : string).
Arguments Returned {A} a.
Arguments Panicked {A} msg.

(* ================================================================== *)
(** ** The document store

    The store is outside the service.  Its queries are modelled by what
    the handlers rely on (the adapter contract of the specification): a
    query on a collection returns the documents of the collection that
    satisfy every [Where] clause, a clause on a field a document lacks
    rejects the document, and a query may fail as a whole. *)

Module firestore.

(** A document snapshot: its path in the store and its fields. *)
Record DocumentSnapshot : Type := {
  Ref : string;
  Data : gmap string Value
}.

(** The comparison operators the handlers pass to [Where]. *)
Inductive Op : Type := OpEq | OpLe | OpGe.

Record Filter : Type := { Path : string; Operator : Op; Operand : Value }.

(** [Collection(c).Where(...).Where(...).Limit(n)]. *)
Record Query : Type := { From : string; Filters : list Filter; MaxResults : option Z }.

Definition Collection (c : string) : Query :=
  {| From := c; Filters := []; MaxResults := None |}.

Definition Where (q : Query) (path : string) (op : Op) (v : Value) : Query :=
  {| From := From q;
     Filters := Filters q ++ [ {| Path := path; Operator := op; Operand := v |} ];
     MaxResults := MaxResults q |}.

Definition Limit (q : Query) (n : Z) : Query :=
  {| From := From q; Filters := Filters q; MaxResults := Some n |}.

(** The store: the documents of every collection, and the collections
    whose queries currently fail, each with the error it answers. *)
Record Client : Type := {
  Documents : gmap string (list DocumentSnapshot);
  Faults : gmap string string
}.

(** A dotted field path, ["bounds.min_lat"], as its components. *)
Fixpoint split_path_aux (s : string) (cur : string) : list string :=
  match s with
  | EmptyString => [String.rev cur]
  | String c rest =>
      if Ascii.eqb c "."%char
      then String.rev cur :: split_path_aux rest EmptyString
      else split_path_aux rest (String c cur)
  end.

Definition split_path (s : string) : list string := split_path_aux s EmptyString.

Fixpoint lookup_path (p : list string) (m : gmap string Value) : option Value :=
  match p with
  | [] => None
  | [k] => m !! k
  | k :: p' =>
      match m !! k with
      | Some (VMap m') => lookup_path p' m'
      | _ => None
      end
  end.

(** The integer [n] as the nearest binary64. *)
Definition double_of_Z (n : Z) : float :=
  SF2Prim (binary_normalize prec emax n 0 false).

(** The number a stored value holds, if it holds one: the store orders
    its integer and its double values together. *)
Definition number (v : Value) : option float :=
  match v with
  | VDouble f => Some f
  | VInt n => Some (double_of_Z n)
  | _ => None
  end.

(** Does the stored value [field] satisfy [field op operand]? *)
Definition satisfies (op : Op) (field operand : Value) : bool :=
  match op with
  | OpEq =>
      match field, operand with
      | VBool a, VBool b => Bool.eqb a b
      | VString a, VString b => String.eqb a b
      | _, _ => false
      end
  | OpLe =>
      match number field, number operand with
      | Some x, Some y => (x <=? y)%float
      | _, _ => false
      end
  | OpGe =>
      match number field, number operand with
      | Some x, Some y => (y <=? x)%float
      | _, _ => false
      end
  end.

(** A document matches a filter when it has the field and the field's
    value satisfies the comparison; a document without the field matches
    no filter on it. *)
Definition matches (d : DocumentSnapshot) (f : Filter) : bool :=
  match lookup_path (split_path (Path f)) (Data d) with
  | Some v => satisfies (Operator f) v (Operand f)
  | None => false
  end.

Definition selects (q : Query) (d : DocumentSnapshot) : bool :=
  forallb (matches d) (Filters q).

(** A filter the client refuses before any request is made: an
    inequality whose operand is NaN (the client allows NaN under [==]
    only). *)
Definition refused (f : Filter) : bool :=
  match Operator f, Operand f with
  | OpEq, _ => false
  | _, VDouble x => PrimFloat.is_nan x
  | _, _ => false
  end.

(** [q.Documents(ctx).GetAll()]: the error of a query the client refuses,
    the error of a failing collection, or the documents of the collection
    that match every filter, up to the limit; a collection the store does
    not have is empty, and a negative limit is refused. *)
Definition GetAll (c : Client) (q : Query) : list DocumentSnapshot * error :=
  if existsb refused (Filters q)
  then ([], Some "firestore: must use '==' when comparing NaN")
  else
    match Faults c !! From q with
    | Some e => ([], Some e)
    | None =>
        let docs :=
          filter (fun d => selects q d = true) (default [] (Documents c !! From q)) in
        match MaxResults q with
        | None => (docs, None)
        | Some n =>
            if (n <? 0)%Z then ([], Some "limit is negative")
            else (take (Z.to_nat n) docs, None)
        end
    end.

End firestore.

(* ================================================================== *)
(** ** Handler code as computations over the store *)

(** A piece of handler code runs against the store client, may panic,
    and leaves the list of the queries it ran, in order: its calls of
    [GetAll] and [Get].  A query the client refuses (a negative limit, an
    inequality on NaN) is in the list too, though it does not reach the
    store. *)
Definition Go (A : Type) : Type :=
  firestore.Client -> Outcome A * list firestore.Query.

Definition ret {A : Type} (a : A) : Go A := fun _ => (Returned a, []).

Definition bind {A B : Type} (m : Go A) (k : A -> Go B) : Go B :=
  fun c =>
    match m c with
    | (Returned a, t1) => let '(r, t2) := k a c in (r, t1 ++ t2)
    | (Panicked msg, t1) => (Panicked msg, t1)
    end.

Notation "x <- m ;; k" := (bind m (fun x => k))
  (at level 100, m at next level, right associativity).

(** A pure step that may panic. *)
Definition lift {A : Type} (o : Outcome A) : Go A := fun _ => (o, []).

(** [query.Documents(ctx).GetAll()] on the global [firestoreClient]. *)
Definition Documents_GetAll (q : firestore.Query) : Go (list firestore.DocumentSnapshot * error) :=
  fun c => (Returned (firestore.GetAll c q), [q]).

(** What a computation returned, and the queries it ran. *)
Definition result {A : Type} (m : Go A) (c : firestore.Client) : Outcome A := fst (m c).
Definition queries {A : Type} (m : Go A) (c : firestore.Client) : list firestore.Query := snd (m c).

(* ================================================================== *)
(** ** net/http *)

Module http.

(** What the handlers read of a request: the parsed query string
    ([url.Values], every key with the values given for it) and the body. *)
Record Request : Type := {
  Query : gmap string (list string);
  Body : string
}.

(** [r.URL.Query().Get(key)]: the first value of the key, [""] when the
    key has none. *)
Definition Get (r : Request) (key : string) : string :=
  match Query r !! key with
  | Some (v :: _) => v
  | _ => ""
  end.

Definition StatusOK : Z := 200.
Definition StatusBadRequest : Z := 400.
Definition StatusInternalServerError : Z := 500.

(** What a handler did at its end: [http.Error(w, msg, code)] and
    return, or [json.NewEncoder(w).Encode(body)], whose error no handler
    looks at.  [JSON body] is that call, with the value handed to the
    encoder, under the status 200 that the first write implies.  The
    encoder writes the value when it can encode it and writes nothing
    when it cannot ([unencodable] below): the response is then a 200
    without a body. *)
Inductive Response (A : Type) : Type :=
| Error (msg : string) (code : Z)
| JSON (body : A).
Arguments Error {A} msg code.
Arguments JSON {A} body.

Definition StatusCode {A : Type} (r : Response A) : Z :=
  match r with
  | Error _ code => code
  | JSON _ => StatusOK
  end.

End http.

(** *** encoding/json *)

(** A value the encoder refuses ("json: unsupported value"): it holds a
    NaN or an infinity somewhere. *)
Inductive unencodable : Value -> Prop :=
| unencodable_double (f : float) :
    PrimFloat.is_finite f = false -> unencodable (VDouble f)
| unencodable_array (vs : list Value) (v : Value) :
    v ∈ vs -> unencodable v -> unencodable (VArray vs)
| unencodable_map (m : gmap string Value) (k : string) (v : Value) :
    m !! k = Some v -> unencodable v -> unencodable (VMap m).

(** A value the encoder writes. *)
Definition encodable (v : Value) : Prop := ~ unencodable v.

(** A test for it, to the given depth of nesting. *)
Fixpoint finite_within (depth : nat) (v : Value) : bool :=
  match depth with
  | O => false
  | S depth' =>
      match v with
      | VDouble f => PrimFloat.is_finite f
      | VArray vs => forallb (finite_within depth') vs
      | VMap m => forallb (finite_within depth') (snd <$> map_to_list m)
      | _ => true
      end
  end.

(* ================================================================== *)
(** ** The data types of main.go *)

Record Bounds : Type := {
  MinLat : float; MaxLat : float; MinLon : float; MaxLon : float
}.

(** The fields of [SovereignState] the bulk catalog reads. *)
Record SovereignState : Type := {
  ss_ID : string;
  ss_Name : string;
  ss_OfficialName : string;
  ss_ISOAlpha2 : string;
  ss_ISOAlpha3 : string;
  ss_FlagEmoji : string;
  ss_Continent : string;
  ss_Bounds : Bounds;
  ss_Capital : string;
  ss_Population : Z;
  ss_AreaKM2 : float
}.

(** The fields of [Country] the bulk catalog reads. *)
Record Country : Type := {
  co_ID : string;
  co_SovereignStateID : string;
  co_Name : string;
  co_OfficialName : string;
  co_ISOAlpha2 : string;
  co_ISOAlpha3 : string;
  co_Continent : string;
  co_Bounds : Bounds;
  co_Capital : string;
  co_Population : Z;
  co_AreaKM2 : float
}.

Record PointLookup : Type := { Lat : float; Lon : float; SquareID : string }.

Record BatchLookupRequest : Type := { Points : list PointLookup }.

Record SquareEnrichment : Type := {
  se_SquareID : string;
  BoundaryTags : list string;
  Resolution : string;
  LandmarksNearby : list string
}.

Record BatchLookupResponse : Type := { Results : list SquareEnrichment }.

(** The anonymous request struct of [batchClassifyHandler]. *)
Record ClassifyPoint : Type := { cp_Lat : float; cp_Lon : float }.
Record BatchClassifyRequest : Type := { cp_Points : list ClassifyPoint }.

(* ================================================================== *)
(** ** The packages main.go imports *)

Module orb.

(** [orb.Point{lon, lat}]. *)
Definition Point : Type := (float * float)%type.
Definition Ring : Type := list Point.
Definition Polygon : Type := list Ring.

(** The dynamic type of [geom.Geometry()], as the type switch of
    [isPointInGeometry] tells them apart. *)
Inductive Geometry : Type :=
| IsPolygon (g : Polygon)
| IsMultiPolygon (g : list Polygon)
| IsOther (type : string).

End orb.

(** The functions of imported packages that the handlers call and whose
    code is not part of the service.  A call that returns [(v, err)] is
    an [option]: [None] when [err] is not nil. *)
Class Packages : Type := {
  (** strconv.Atoi *)
  strconv_Atoi : string -> option Z;
  (** strconv.ParseFloat(s, 64) *)
  strconv_ParseFloat : string -> option float;
  (** strings.ToLower *)
  strings_ToLower : string -> string;
  (** math.Sin, math.Cos, math.Atan2 *)
  math_Sin : float -> float;
  math_Cos : float -> float;
  math_Atan2 : float -> float -> float;
  (** geojson.UnmarshalGeometry followed by [Geometry()] *)
  geojson_UnmarshalGeometry : string -> option orb.Geometry;
  (** planar.PolygonContains *)
  planar_PolygonContains : orb.Polygon -> orb.Point -> bool;
  (** doc.DataTo(&sovereign), doc.DataTo(&country) *)
  DataTo_SovereignState : firestore.DocumentSnapshot -> option SovereignState;
  DataTo_Country : firestore.DocumentSnapshot -> option Country;
  (** json.NewDecoder(r.Body).Decode(&request) *)
  json_Decode_BatchLookupRequest : string -> option BatchLookupRequest;
  json_Decode_BatchClassifyRequest : string -> option BatchClassifyRequest
}.

(** math.Pi as a float64. *)
Definition math_Pi : float := 0x1.921fb54442d18p+1%float.

(** math.Sqrt is the IEEE 754 square root. *)
Definition math_Sqrt (x : float) : float := PrimFloat.sqrt x.

(** The one-result assertion [x.(float64)] and [x.(string)]: a panic
    when [x] holds another type or is nil. *)
Definition must_float64 (x : option Value) : Outcome float :=
  match x with
  | Some (VDouble f) => Returned f
  | _ => Panicked "interface conversion: interface {} is not float64"
  end.

Definition must_string (x : option Value) : Outcome string :=
  match x with
  | Some (VString s) => Returned s
  | _ => Panicked "interface conversion: interface {} is not string"
  end.

Definition obind {A B : Type} (o : Outcome A) (k : A -> Outcome B) : Outcome B :=
  match o with
  | Returned a => k a
  | Panicked msg => Panicked msg
  end.

(** A struct [Bounds] held in an [interface{}], as the JSON encoder
    writes it. *)
Definition Bounds_Value (b : Bounds) : Value :=
  VMap (<["min_lat" := VDouble (MinLat b)]>
       (<["max_lat" := VDouble (MaxLat b)]>
       (<["min_lon" := VDouble (MinLon b)]>
       (<["max_lon" := VDouble (MaxLon b)]> ∅)))).

(* ================================================================== *)
(** ** main.go *)

Section Service.
Context `{Packages}.
Import firestore.

(** *** Utility functions *)

Definition getIntQueryParam (r : http.Request) (param : string) (defaultValue : Z) : Z :=
  let value := http.Get r param in
  if String.eqb value "" then defaultValue
  else match strconv_Atoi value with
       | None => defaultValue
       | Some intValue => intValue
       end.

Definition getFloatQueryParam (r : http.Request) (param : string) (defaultValue : float) : float :=
  let value := http.Get r param in
  if String.eqb value "" then defaultValue
  else match strconv_ParseFloat value with
       | None => defaultValue
       | Some floatValue => floatValue
       end.

(** *** A list endpoint *)

(** The body of the response of [getSovereignStatesHandler]. *)
Record SovereignStatesBody : Type := {
  sovereign_states : list SovereignState;
  count : Z
}.

Definition getSovereignStatesHandler (r : http.Request)
    : Go (http.Response SovereignStatesBody) :=
  let limit := getIntQueryParam r "limit" 50 in
  let query :=
    Limit (Where (Collection "sovereign_states") "is_active" OpEq (VBool true)) limit in
  g <- Documents_GetAll query ;;
  match g with
  | (_, Some _) =>
      ret (http.Error "Failed to get sovereign states" http.StatusInternalServerError)
  | (docs, None) =>
      let sovereignStates := omap DataTo_SovereignState docs in
      ret (http.JSON {| sovereign_states := sovereignStates;
                        count := Z.of_nat (length sovereignStates) |})
  end.

(** *** Geometry *)

Definition isPointInGeometry (lat lon : float) (geometryJSON : string) : bool :=
  if String.eqb geometryJSON "" then false
  else match geojson_UnmarshalGeometry geometryJSON with
       | None => false
       | Some geom =>
           let point : orb.Point := (lon, lat) in
           match geom with
           | orb.IsPolygon g => planar_PolygonContains g point
           | orb.IsMultiPolygon g =>
               existsb (fun poly => planar_PolygonContains poly point) g
           | orb.IsOther _ => false
           end
       end.

(** Stage 1 of [findContainingEntities]: the bounding-box query. *)
Definition boundsQuery (collection : string) (lat lon : float) : Query :=
  Where (Where (Where (Where (Where (Collection collection)
    "is_active" OpEq (VBool true))
    "bounds.min_lat" OpLe (VDouble lat))
    "bounds.max_lat" OpGe (VDouble lat))
    "bounds.min_lon" OpLe (VDouble lon))
    "bounds.max_lon" OpGe (VDouble lon).

(** Stage 2: the loop over the candidates.  [doc.DataTo(&entity)] into a
    map gives the fields of a snapshot that a query returned. *)
Fixpoint pointInPolygonLoop (lat lon : float) (docs : list DocumentSnapshot)
    (results : list (gmap string Value)) : list (gmap string Value) :=
  match docs with
  | [] => results
  | doc :: docs' =>
      let entity := Data doc in
      match assert_string (entity !! "geometry") with
      | Some geometryJSON =>
          if negb (String.eqb geometryJSON "") && isPointInGeometry lat lon geometryJSON
          then pointInPolygonLoop lat lon docs' (results ++ [entity])
          else pointInPolygonLoop lat lon docs' results
      | None => pointInPolygonLoop lat lon docs' results
      end
  end.

Definition findContainingEntities (collection : string) (lat lon : float)
    : Go (list (gmap string Value)) :=
  r <- Documents_GetAll (boundsQuery collection lat lon) ;;
  match r with
  | (_, Some _) => ret []
  | (docs, None) => ret (pointInPolygonLoop lat lon docs [])
  end.

(** *** Coastline classification *)

Definition activeQuery (collection : string) : Query :=
  Where (Collection collection) "is_active" OpEq (VBool true).

(** The loop of [isPointOnLand]: [true] at the first document that has a
    string geometry and whose bounds rectangle holds the point. *)
Fixpoint onLandLoop (lat lon : float) (docs : list DocumentSnapshot) : bool :=
  match docs with
  | [] => false
  | doc :: docs' =>
      let data := Data doc in
      match assert_string (data !! "geometry") with
      | None => onLandLoop lat lon docs'
      | Some _ =>
          match assert_map (data !! "bounds") with
          | Some bounds =>
              let minLat := float64_or_zero (bounds !! "min_lat") in
              let maxLat := float64_or_zero (bounds !! "max_lat") in
              let minLon := float64_or_zero (bounds !! "min_lon") in
              let maxLon := float64_or_zero (bounds !! "max_lon") in
              if (minLat <=? lat)%float && (lat <=? maxLat)%float
                 && (minLon <=? lon)%float && (lon <=? maxLon)%float
              then true
              else onLandLoop lat lon docs'
          | None => onLandLoop lat lon docs'
          end
      end
  end.

Definition isPointOnLand (lat lon : float) : Go (bool * error) :=
  r <- Documents_GetAll (activeQuery "land_polygons") ;;
  match r with
  | (_, Some err) => ret (false, Some err)
  | (docs, None) => ret (onLandLoop lat lon docs, None)
  end.

Definition haversineDistance (lat1 lon1 lat2 lon2 : float) : float :=
  let R := 6371%float in
  let dLat := ((lat2 - lat1) * math_Pi / 180)%float in
  let dLon := ((lon2 - lon1) * math_Pi / 180)%float in
  let a := (math_Sin (dLat / 2) * math_Sin (dLat / 2) +
            math_Cos (lat1 * math_Pi / 180) * math_Cos (lat2 * math_Pi / 180) *
            math_Sin (dLon / 2) * math_Sin (dLon / 2))%float in
  let c := (2 * math_Atan2 (math_Sqrt a) (math_Sqrt (1 - a)))%float in
  (R * c)%float.

(** The loop of [calculateDistanceToCoast], with its two variables
    [minDistance] and [closestPoint] ([None] is the nil map). *)
Fixpoint coastLoop (lat lon : float) (docs : list DocumentSnapshot)
    (minDistance : float) (closestPoint : option (gmap string float))
    : Outcome (float * option (gmap string float)) :=
  match docs with
  | [] => Returned (minDistance, closestPoint)
  | doc :: docs' =>
      let data := Data doc in
      let far :=
        match assert_map (data !! "bounds") with
        | Some bounds =>
            let minLat := float64_or_zero (bounds !! "min_lat") in
            let maxLat := float64_or_zero (bounds !! "max_lat") in
            let minLon := float64_or_zero (bounds !! "min_lon") in
            let maxLon := float64_or_zero (bounds !! "max_lon") in
            (lat <? minLat - 2)%float || (maxLat + 2 <? lat)%float
            || (lon <? minLon - 2)%float || (maxLon + 2 <? lon)%float
        | None => false
        end in
      if far then coastLoop lat lon docs' minDistance closestPoint
      else
        match assert_map (data !! "bounds") with
        | Some bounds =>
            obind (must_float64 (bounds !! "min_lat")) (fun minLat =>
            obind (must_float64 (bounds !! "max_lat")) (fun maxLat =>
            let centerLat := ((minLat + maxLat) / 2)%float in
            obind (must_float64 (bounds !! "min_lon")) (fun minLon =>
            obind (must_float64 (bounds !! "max_lon")) (fun maxLon =>
            let centerLon := ((minLon + maxLon) / 2)%float in
            let dist := haversineDistance lat lon centerLat centerLon in
            if (dist <? minDistance)%float
            then coastLoop lat lon docs' dist
                   (Some (<["lat" := centerLat]> (<["lon" := centerLon]> ∅)))
            else coastLoop lat lon docs' minDistance closestPoint))))
        | None => coastLoop lat lon docs' minDistance closestPoint
        end
  end.

Definition calculateDistanceToCoast (lat lon : float)
    : Go (float * option (gmap string float) * error) :=
  r <- Documents_GetAll (activeQuery "coastlines") ;;
  match r with
  | (_, Some err) => ret (0%float, None, Some err)
  | (docs, None) =>
      s <- lift (coastLoop lat lon docs 99999999%float None) ;;
      match s with
      | (_, None) => ret (0%float, None, Some "no coastlines found")
      | (minDistance, Some closestPoint) => ret (minDistance, Some closestPoint, None)
      end
  end.

Definition classifyPoint (lat lon : float) : Go (bool * float * error) :=
  l <- isPointOnLand lat lon ;;
  match l with
  | (_, Some _) =>
      d <- calculateDistanceToCoast lat lon ;;
      match d with
      | (_, _, Some err) => ret (false, 0%float, Some err)
      | (distanceToCoast, _, None) =>
          ret ((distanceToCoast <? 1.0)%float, distanceToCoast, None)
      end
  | (isLand, None) =>
      d <- calculateDistanceToCoast lat lon ;;
      match d with
      | (_, _, Some _) => ret (isLand, 10.0%float, None)
      | (distanceToCoast, _, None) => ret (isLand, distanceToCoast, None)
      end
  end.

Definition determineGridResolution (isLand : bool) (distanceToCoast : float) : string :=
  if isLand then "1x1km"
  else if (1000 <? distanceToCoast)%float then "100x100km"
  else "10x10km".

(** *** Coastline handlers *)

(** The range check both coastline handlers make. *)
Definition outOfRange (lat lon : float) : bool :=
  (lat <? -90)%float || (90 <? lat)%float || (lon <? -180)%float || (180 <? lon)%float.

Definition classifyPointHandler (r : http.Request) : Go (http.Response Value) :=
  let latStr := http.Get r "lat" in
  let lonStr := http.Get r "lon" in
  if String.eqb latStr "" || String.eqb lonStr ""
  then ret (http.Error "Missing lat or lon parameters" http.StatusBadRequest)
  else
    match strconv_ParseFloat latStr with
    | None => ret (http.Error "Invalid lat parameter" http.StatusBadRequest)
    | Some lat =>
        match strconv_ParseFloat lonStr with
        | None => ret (http.Error "Invalid lon parameter" http.StatusBadRequest)
        | Some lon =>
            if outOfRange lat lon
            then ret (http.Error "Coordinates out of valid range" http.StatusBadRequest)
            else
              c <- classifyPoint lat lon ;;
              match c with
              | (_, _, Some _) =>
                  ret (http.Error "Failed to classify point" http.StatusInternalServerError)
              | (isLand, distanceToCoast, None) =>
                  let gridResolution := determineGridResolution isLand distanceToCoast in
                  ret (http.JSON (VMap
                    (<["lat" := VDouble lat]>
                    (<["lon" := VDouble lon]>
                    (<["result" := VMap
                        (<["type" := VString (if isLand then "land" else "ocean")]>
                        (<["distance_to_coast_km" := VDouble distanceToCoast]>
                        (<["grid_resolution" := VString gridResolution]> ∅)))]> ∅)))))
              end
        end
    end.

(** The two kinds of entry [batchClassifyHandler] appends to [results]. *)
Definition errorEntry (msg : string) : Value :=
  VMap (<["error" := VString msg]> ∅).

Definition classifiedEntry (isLand : bool) (distanceToCoast : float) : Value :=
  VMap (<["type" := VString (if isLand then "land" else "ocean")]>
       (<["distance_to_coast_km" := VDouble distanceToCoast]>
       (<["grid_resolution" := VString (determineGridResolution isLand distanceToCoast)]> ∅))).

(** The body of the loop of [batchClassifyHandler]: the entry of one
    point. *)
Definition classifyEntry (point : ClassifyPoint) : Go Value :=
  if outOfRange (cp_Lat point) (cp_Lon point)
  then ret (errorEntry "Invalid coordinates")
  else
    c <- classifyPoint (cp_Lat point) (cp_Lon point) ;;
    match c with
    | (_, _, Some _) => ret (errorEntry "Classification failed")
    | (isLand, distanceToCoast, None) => ret (classifiedEntry isLand distanceToCoast)
    end.

Fixpoint batchClassifyLoop (points : list ClassifyPoint) (results : list Value)
    : Go (list Value) :=
  match points with
  | [] => ret results
  | point :: points' =>
      e <- classifyEntry point ;;
      batchClassifyLoop points' (results ++ [e])
  end.

Definition batchClassifyHandler (r : http.Request) : Go (http.Response Value) :=
  match json_Decode_BatchClassifyRequest (http.Body r) with
  | None => ret (http.Error "Invalid JSON body" http.StatusBadRequest)
  | Some request =>
      if (length (cp_Points request) =? 0)%nat
      then ret (http.Error "No points provided" http.StatusBadRequest)
      else if (1000 <? length (cp_Points request))%nat
      then ret (http.Error "Too many points (max 1000)" http.StatusBadRequest)
      else
        results <- batchClassifyLoop (cp_Points request) [] ;;
        ret (http.JSON (VMap
          (<["results" := VArray results]>
          (<["count" := VInt (Z.of_nat (length results))]> ∅))))
  end.

(** *** Boundaries handlers *)

(** One tier of [getBoundariesContainingHandler]: the group is appended
    when the tier has a match. *)
Definition appendTier (boundaries : list Value) (type : string)
    (entities : list (gmap string Value)) : list Value :=
  if (0 <? length entities)%nat
  then boundaries ++ [VMap (<["type" := VString type]>
                           (<["entities" := VArray (VMap <$> entities)]> ∅))]
  else boundaries.

Definition getBoundariesContainingHandler (r : http.Request) : Go (http.Response Value) :=
  match strconv_ParseFloat (http.Get r "lat") with
  | None => ret (http.Error "Invalid lat parameter" http.StatusBadRequest)
  | Some lat =>
      match strconv_ParseFloat (http.Get r "lon") with
      | None => ret (http.Error "Invalid lon parameter" http.StatusBadRequest)
      | Some lon =>
          let boundaries := [] in
          states <- findContainingEntities "sovereign_states" lat lon ;;
          let boundaries := appendTier boundaries "sovereign_state" states in
          countries <- findContainingEntities "countries" lat lon ;;
          let boundaries := appendTier boundaries "country" countries in
          units <- findContainingEntities "map_units" lat lon ;;
          let boundaries := appendTier boundaries "map_unit" units in
          subunits <- findContainingEntities "map_subunits" lat lon ;;
          let boundaries := appendTier boundaries "map_subunit" subunits in
          ret (http.JSON (VMap
            (<["lat" := VDouble lat]>
            (<["lon" := VDouble lon]>
            (<["boundaries" := VArray boundaries]>
            (<["count" := VInt (Z.of_nat (length boundaries))]> ∅))))))
      end
  end.

Definition mockBoundary (id name type : string) (level : Z) (resolution : string)
    : gmap string Value :=
  <["id" := VString id]>
  (<["name" := VString name]>
  (<["type" := VString type]>
  (<["level" := VInt level]>
  (<["resolution_requirement" := VString resolution]> ∅)))).

Definition getMockBoundariesForPoint (lat lon : float) : list (gmap string Value) :=
  let boundaries := [] in
  if (25.0 <=? lat)%float && (lat <=? 49.0)%float
     && (-125.0 <=? lon)%float && (lon <=? -66.0)%float
  then
    let boundaries := boundaries ++ [mockBoundary "usa" "United States" "country" 0 "1km"] in
    if (40.4 <=? lat)%float && (lat <=? 45.0)%float
       && (-79.8 <=? lon)%float && (lon <=? -71.8)%float
    then
      let boundaries := boundaries ++ [mockBoundary "ny_usa" "New York" "state" 1 "100m"] in
      if (40.4 <=? lat)%float && (lat <=? 40.9)%float
         && (-74.3 <=? lon)%float && (lon <=? -73.7)%float
      then
        let boundaries :=
          boundaries ++ [mockBoundary "nyc_ny_usa" "New York City" "city" 2 "100m"] in
        if (40.68 <=? lat)%float && (lat <=? 40.88)%float
           && (-74.05 <=? lon)%float && (lon <=? -73.90)%float
        then boundaries ++ [mockBoundary "manhattan_core" "Manhattan" "borough" 3 "100m"]
        else boundaries
      else boundaries
    else boundaries
  else boundaries.

Definition getMockLandmarksForPoint (lat lon : float) : list string :=
  let landmarks := [] in
  if (40.4 <=? lat)%float && (lat <=? 40.9)%float
     && (-74.3 <=? lon)%float && (lon <=? -73.7)%float
  then landmarks ++ ["statue_of_liberty"; "empire_state_building"; "central_park"]
  else landmarks.

(** The inner loop of [batchLookupBoundariesHandler] over the boundaries
    of one point. *)
Fixpoint tagsLoop (boundaries : list (gmap string Value))
    (boundaryTags : list string) (resolution : string)
    : Outcome (list string * string) :=
  match boundaries with
  | [] => Returned (boundaryTags, resolution)
  | boundary :: boundaries' =>
      obind (must_string (boundary !! "name")) (fun name =>
      let boundaryTags := boundaryTags ++ [strings_ToLower name] in
      match boundary !! "resolution_requirement" with
      | None | Some VNull => tagsLoop boundaries' boundaryTags resolution
      | requirement =>
          obind (must_string requirement) (fun resolution =>
          tagsLoop boundaries' boundaryTags resolution)
      end)
  end.

Definition enrichPoint (point : PointLookup) : Outcome SquareEnrichment :=
  let boundaries := getMockBoundariesForPoint (Lat point) (Lon point) in
  obind (tagsLoop boundaries [] "1km") (fun '(boundaryTags, resolution) =>
  let landmarksNearby := getMockLandmarksForPoint (Lat point) (Lon point) in
  Returned {| se_SquareID := SquareID point;
              BoundaryTags := boundaryTags;
              Resolution := resolution;
              LandmarksNearby := landmarksNearby |}).

Fixpoint batchLookupLoop (points : list PointLookup) (results : list SquareEnrichment)
    : Outcome (list SquareEnrichment) :=
  match points with
  | [] => Returned results
  | point :: points' =>
      obind (enrichPoint point) (fun result =>
      batchLookupLoop points' (results ++ [result]))
  end.

Definition batchLookupBoundariesHandler (r : http.Request)
    : Go (http.Response BatchLookupResponse) :=
  match json_Decode_BatchLookupRequest (http.Body r) with
  | None => ret (http.Error "Invalid request body" http.StatusBadRequest)
  | Some request =>
      results <- lift (batchLookupLoop (Points request) []) ;;
      ret (http.JSON {| Results := results |})
  end.

(** *** Bulk countries catalog *)

(** The first loop of [getBulkCountriesHandler]: [sovereignMap]. *)
Fixpoint sovereignMapLoop (docs : list DocumentSnapshot)
    (sovereignMap : gmap string SovereignState) : gmap string SovereignState :=
  match docs with
  | [] => sovereignMap
  | doc :: docs' =>
      match DataTo_SovereignState doc with
      | None => sovereignMapLoop docs' sovereignMap
      | Some sovereign =>
          sovereignMapLoop docs' (<[ss_ID sovereign := sovereign]> sovereignMap)
      end
  end.

Definition sovereignEntry (sovereign : SovereignState) : gmap string Value :=
  <["code" := VString (ss_ISOAlpha2 sovereign)]>
  (<["name" := VString (ss_Name sovereign)]>
  (<["continent" := VString (ss_Continent sovereign)]>
  (<["sovereign_state_name" := VNull]>
  (<["is_territory" := VBool false]>
  (<["id" := VString (ss_ID sovereign)]>
  (<["official_name" := VString (ss_OfficialName sovereign)]>
  (<["type" := VString "sovereign_state"]>
  (<["iso_alpha2" := VString (ss_ISOAlpha2 sovereign)]>
  (<["iso_alpha3" := VString (ss_ISOAlpha3 sovereign)]>
  (<["flag_emoji" := VString (ss_FlagEmoji sovereign)]>
  (<["capital" := VString (ss_Capital sovereign)]>
  (<["population" := VInt (ss_Population sovereign)]>
  (<["area_km2" := VDouble (ss_AreaKM2 sovereign)]>
  (<["bounds" := Bounds_Value (ss_Bounds sovereign)]> ∅)))))))))))))).

(** The second loop: every sovereign state is marked and emitted. *)
Fixpoint sovereignLoop (docs : list DocumentSnapshot)
    (processedEntities : gmap string bool) (result : list (gmap string Value))
    : gmap string bool * list (gmap string Value) :=
  match docs with
  | [] => (processedEntities, result)
  | doc :: docs' =>
      match DataTo_SovereignState doc with
      | None => sovereignLoop docs' processedEntities result
      | Some sovereign =>
          sovereignLoop docs'
            (<[ss_ID sovereign := true]> processedEntities)
            (result ++ [sovereignEntry sovereign])
      end
  end.

Definition isTerritory (country : Country) : bool :=
  negb (String.eqb (co_SovereignStateID country) (co_ID country))
  && negb (String.eqb (co_SovereignStateID country) "").

Definition sovereignStateName (sovereignMap : gmap string SovereignState)
    (country : Country) : Value :=
  if isTerritory country
  then match sovereignMap !! co_SovereignStateID country with
       | Some sovereignState => VString (ss_Name sovereignState)
       | None => VNull
       end
  else VNull.

Definition countryEntry (sovereignMap : gmap string SovereignState)
    (country : Country) : gmap string Value :=
  <["code" := VString (co_ISOAlpha2 country)]>
  (<["name" := VString (co_Name country)]>
  (<["continent" := VString (co_Continent country)]>
  (<["sovereign_state_name" := sovereignStateName sovereignMap country]>
  (<["is_territory" := VBool (isTerritory country)]>
  (<["id" := VString (co_ID country)]>
  (<["official_name" := VString (co_OfficialName country)]>
  (<["type" := VString "country"]>
  (<["iso_alpha2" := VString (co_ISOAlpha2 country)]>
  (<["iso_alpha3" := VString (co_ISOAlpha3 country)]>
  (<["capital" := VString (co_Capital country)]>
  (<["population" := VInt (co_Population country)]>
  (<["area_km2" := VDouble (co_AreaKM2 country)]>
  (<["bounds" := Bounds_Value (co_Bounds country)]> ∅))))))))))))).

(** [processedEntities[id]]: [false] for a key the map does not have. *)
Definition processed (processedEntities : gmap string bool) (id : string) : bool :=
  default false (processedEntities !! id).

(** The third loop: the countries not yet processed. *)
Fixpoint countryLoop (sovereignMap : gmap string SovereignState)
    (docs : list DocumentSnapshot)
    (processedEntities : gmap string bool) (result : list (gmap string Value))
    : gmap string bool * list (gmap string Value) :=
  match docs with
  | [] => (processedEntities, result)
  | doc :: docs' =>
      match DataTo_Country doc with
      | None => countryLoop sovereignMap docs' processedEntities result
      | Some country =>
          if processed processedEntities (co_ID country)
          then countryLoop sovereignMap docs' processedEntities result
          else countryLoop sovereignMap docs'
                 (<[co_ID country := true]> processedEntities)
                 (result ++ [countryEntry sovereignMap country])
      end
  end.

(** The [countries] list of the response, from the two query results. *)
Definition bulkCountries (sovereignDocs countryDocs : list DocumentSnapshot)
    : list (gmap string Value) :=
  let sovereignMap := sovereignMapLoop sovereignDocs ∅ in
  let '(processedEntities, result) := sovereignLoop sovereignDocs ∅ [] in
  let '(_, result) := countryLoop sovereignMap countryDocs processedEntities result in
  result.

Definition getBulkCountriesHandler (r : http.Request) : Go (http.Response Value) :=
  s <- Documents_GetAll (activeQuery "sovereign_states") ;;
  match s with
  | (_, Some _) =>
      ret (http.Error "Failed to get sovereign states" http.StatusInternalServerError)
  | (sovereignDocs, None) =>
      c <- Documents_GetAll (activeQuery "countries") ;;
      match c with
      | (_, Some _) =>
          ret (http.Error "Failed to get countries" http.StatusInternalServerError)
      | (countryDocs, None) =>
          let result := bulkCountries sovereignDocs countryDocs in
          let userID := http.Get r "user_id" in
          let userID := if String.eqb userID "" then "unknown" else userID in
          ret (http.JSON (VMap
            (<["countries" := VArray (VMap <$> result)]>
            (<["user_id" := VString userID]>
            (<["visited_count" := VInt 0]>
            (<["total_count" := VInt (Z.of_nat (length result))]> ∅))))))
      end
  end.

End Service.

(* ================================================================== *)
(** ** main.go, continued: transport, polygons, landmarks, lookups

    Three conventions hold throughout.  A slice is the list of its
    elements: the nil slice of [var xs []T] and the empty slice are both
    the empty list (the encoder writes the first as null and the second
    as an empty array, so no statement here equates the one with the
    other where they are empty).  [doc.DataTo(&data)] into a
    [map[string]interface{}] does not fail on a document a query or a
    [Get] returned, so the branches on its error are not taken; only the
    struct decoders can fail.  An [int] is an integer without bounds: the
    arithmetic of the handlers on [limit] is exact for the limits below
    2^30, which is where the theorems on it are stated. *)

Definition StatusUnauthorized : Z := 401.
Definition StatusNotFound : Z := 404.

Record Coordinates : Type := {
  crd_Lat : float;
  crd_Lon : float;
  Altitude : option float
}.

Record Achievement : Type := {
  ach_ID : string;
  ach_Title : string;
  ach_Description : string;
  ach_Points : Z;
  ach_Rarity : string;
  ach_Category : string;
  ach_UnlockMessage : string
}.

Record VisitingInfo : Type := {
  Hours : option (gmap string Value);
  Admission : option (gmap string Value);
  Accessibility : option (gmap string Value)
}.

(** The fields of [Landmark] the handlers read. *)
Record Landmark : Type := {
  lm_ID : string;
  lm_Name : string;
  lm_Type : string;
  lm_Coordinates : Coordinates;
  lm_PrecisionRadiusMeters : Z;
  lm_ShortDescription : string;
  lm_VisitingInfo : VisitingInfo;
  lm_Achievement : Achievement
}.

(** The fields of [Restaurant] the handlers read. *)
Record Restaurant : Type := {
  rs_ID : string;
  rs_PrecisionRadiusMeters : Z;
  rs_Achievement : Achievement
}.

Record AdminLevel1 : Type := {
  al_ID : string;
  al_Name : string;
  al_CountryGID : string;
  al_CountryName : string;
  al_AdminType : string;
  al_AdminTypeEN : string;
  al_Bounds : Bounds;
  al_Geometry : string
}.


(** More of the imported packages: the struct decoders of the landmark,
    restaurant and administrative collections, and the conversion
    [int(x)] of a float64. *)
Class Decoders : Type := {
  DataTo_Landmark : firestore.DocumentSnapshot -> option Landmark;
  DataTo_Restaurant : firestore.DocumentSnapshot -> option Restaurant;
  DataTo_AdminLevel1 : firestore.DocumentSnapshot -> option AdminLevel1;
  int_of_float64 : float -> Z
}.

(** Structs held in an [interface{}], as the JSON encoder writes them;
    [Altitude] is left out when nil. *)
Definition Coordinates_Value (c : Coordinates) : Value :=
  VMap (<["lat" := VDouble (crd_Lat c)]>
       (<["lon" := VDouble (crd_Lon c)]>
       match Altitude c with
       | Some a => <["altitude" := VDouble a]> ∅
       | None => ∅
       end)).

Definition Achievement_Value (a : Achievement) : Value :=
  VMap (<["id" := VString (ach_ID a)]>
       (<["title" := VString (ach_Title a)]>
       (<["description" := VString (ach_Description a)]>
       (<["points" := VInt (ach_Points a)]>
       (<["rarity" := VString (ach_Rarity a)]>
       (<["category" := VString (ach_Category a)]>
       (<["unlock_message" := VString (ach_UnlockMessage a)]> ∅))))))).

(** A [map[string]interface{}] held in a struct: the nil map, which the
    decoder leaves where the document has no such field, is written
    null. *)
Definition nilable_map (m : option (gmap string Value)) : Value :=
  match m with
  | Some m => VMap m
  | None => VNull
  end.

Definition VisitingInfo_Value (v : VisitingInfo) : Value :=
  VMap (<["hours" := nilable_map (Hours v)]>
       (<["admission" := nilable_map (Admission v)]>
       (<["accessibility" := nilable_map (Accessibility v)]> ∅))).

(** *** The gate in front of the handlers *)

Module transport.

(** What the middleware reads of a request, around what the handler
    reads: the method and the headers, under their canonical names. *)
Record Incoming : Type := {
  Method : string;
  Header : gmap string (list string);
  Inner : http.Request
}.

(** [r.Header.Get(key)] for a canonical key. *)
Definition Header_Get (r : Incoming) (key : string) : string :=
  match Header r !! key with
  | Some (v :: _) => v
  | _ => ""
  end.

(** What was written for a request: a bare status
    ([w.WriteHeader(code)] and return), or what the wrapped handler or
    [http.Error] wrote. *)
Inductive Written (A : Type) : Type :=
| Bare (code : Z)
| Handled (response : http.Response A).
Arguments Bare {A} code.
Arguments Handled {A} response.

(** [subtle.ConstantTimeCompare] on the bytes of two strings: 1 when they
    are equal, 0 otherwise. *)
Definition ConstantTimeCompare (x y : string) : Z :=
  if String.eqb x y then 1 else 0.

(** [os.Getenv]: the empty string for a variable that is not set. *)
Definition Getenv (env : gmap string string) (key : string) : string :=
  default "" (env !! key).

(** [requireServiceAuth(next)], with the global [serviceSecret]. *)
Definition requireServiceAuth {A : Type} (serviceSecret : string)
    (next : http.Request -> Go (http.Response A)) (r : Incoming) : Go (Written A) :=
  if String.eqb (Method r) "OPTIONS" then ret (Bare http.StatusOK)
  else if String.eqb serviceSecret ""
  then x <- next (Inner r) ;; ret (Handled x)
  else
    let authHeader := Header_Get r "X-Service-Auth" in
    if String.eqb authHeader ""
    then ret (Handled (http.Error "Missing X-Service-Auth header" StatusUnauthorized))
    else if negb (ConstantTimeCompare authHeader serviceSecret =? 1)%Z
    then ret (Handled (http.Error "Invalid service authentication" StatusUnauthorized))
    else x <- next (Inner r) ;; ret (Handled x).

(** [corsMiddleware(next)]: the headers it sets on the response, and what
    was written. *)
Definition corsMiddleware {A : Type} (env : gmap string string)
    (next : Incoming -> Go (Written A)) (r : Incoming)
    : Go (gmap string string * Written A) :=
  let allowedOrigin := Getenv env "CORS_ALLOWED_ORIGIN" in
  let allowedOrigin :=
    if String.eqb allowedOrigin ""
    then "https://statlas-web-app-aleilqeyua-uc.a.run.app"
    else allowedOrigin in
  let header : gmap string string :=
    <["Access-Control-Max-Age" := "3600"]>
    (<["Access-Control-Allow-Headers" := "Content-Type, Authorization, X-Service-Auth"]>
    (<["Access-Control-Allow-Methods" := "GET, POST, PUT, DELETE, OPTIONS"]>
    (<["Access-Control-Allow-Origin" := allowedOrigin]> ∅))) in
  if String.eqb (Method r) "OPTIONS" then ret (header, Bare http.StatusOK)
  else x <- next r ;; ret (header, x).

End transport.

(** [firestoreClient.Collection(c).Doc(id).Get(ctx)]: the document of the
    collection under that id; an error when the collection cannot be read
    or has no such document.  The read is recorded as the query on the
    document name. *)
Definition documentQuery (collection id : string) : firestore.Query :=
  firestore.Where (firestore.Collection collection) "__name__" firestore.OpEq (VString id).

Definition Doc_Get (collection id : string)
    : Go (option firestore.DocumentSnapshot * error) :=
  fun c =>
    (Returned
       match firestore.Faults c !! collection with
       | Some e => (None, Some e)
       | None =>
           match List.find (fun d => String.eqb (firestore.Ref d) id)
                   (default [] (firestore.Documents c !! collection)) with
           | Some doc => (Some doc, None)
           | None => (None, Some "document not found")
           end
       end,
     [documentQuery collection id]).

Section ServiceContinued.
Context `{Packages} `{Decoders}.
Import firestore.

(** *** Polygon endpoints *)

(** [data[key]] put in a map that is encoded: the nil interface is
    JSON null. *)
Definition fieldOrNull (data : gmap string Value) (key : string) : Value :=
  default VNull (data !! key).

(** [countryID] is the path variable [mux.Vars(r)["id"]]. *)
Definition getCountryPolygonHandler (countryID : string) : Go (http.Response Value) :=
  g <- Doc_Get "countries" countryID ;;
  match g with
  | (Some doc, None) =>
      let data := Data doc in
      match data !! "is_active" with
      | Some (VBool true) =>
          match assert_string (data !! "geometry") with
          | Some geometry =>
              if String.eqb geometry ""
              then ret (http.Error "Country geometry not available" StatusNotFound)
              else ret (http.JSON (VMap
                     (<["id" := VString countryID]>
                     (<["name" := fieldOrNull data "name"]>
                     (<["type" := VString "country"]>
                     (<["geometry" := VString geometry]>
                     (<["bounds" := fieldOrNull data "bounds"]> ∅)))))))
          | None => ret (http.Error "Country geometry not available" StatusNotFound)
          end
      | _ => ret (http.Error "Country not active" StatusNotFound)
      end
  | _ => ret (http.Error "Country not found" StatusNotFound)
  end.

Definition continentPolygon (data : gmap string Value) (geometry : string)
    : gmap string Value :=
  <["id" := fieldOrNull data "id"]>
  (<["name" := fieldOrNull data "name"]>
  (<["type" := VString "country"]>
  (<["geometry" := VString geometry]>
  (<["bounds" := fieldOrNull data "bounds"]> ∅)))).

Definition worldPolygon (data : gmap string Value) (geometry : string)
    : gmap string Value :=
  <["id" := fieldOrNull data "id"]>
  (<["name" := fieldOrNull data "name"]>
  (<["type" := VString "country"]>
  (<["continent" := fieldOrNull data "continent"]>
  (<["geometry" := VString geometry]>
  (<["bounds" := fieldOrNull data "bounds"]> ∅))))).

(** The loop of the two list endpoints, over the polygon each builds. *)
Fixpoint polygonsLoop (polygon : gmap string Value -> string -> gmap string Value)
    (docs : list DocumentSnapshot) (allPolygons : list (gmap string Value))
    : list (gmap string Value) :=
  match docs with
  | [] => allPolygons
  | doc :: docs' =>
      let data := Data doc in
      match assert_string (data !! "geometry") with
      | Some geometry =>
          if String.eqb geometry ""
          then polygonsLoop polygon docs' allPolygons
          else polygonsLoop polygon docs' (allPolygons ++ [polygon data geometry])
      | None => polygonsLoop polygon docs' allPolygons
      end
  end.

(** [continent] is the path variable [mux.Vars(r)["continent"]]. *)
Definition getContinentPolygonsHandler (continent : string) : Go (http.Response Value) :=
  let query :=
    Where (Where (Collection "countries") "is_active" OpEq (VBool true))
      "continent" OpEq (VString continent) in
  g <- Documents_GetAll query ;;
  match g with
  | (_, Some _) =>
      ret (http.Error "Failed to fetch continent data" http.StatusInternalServerError)
  | (docs, None) =>
      let allPolygons := polygonsLoop continentPolygon docs [] in
      ret (http.JSON (VMap
        (<["continent" := VString continent]>
        (<["count" := VInt (Z.of_nat (length allPolygons))]>
        (<["polygons" := VArray (VMap <$> allPolygons)]> ∅)))))
  end.

Definition getWorldPolygonsHandler : Go (http.Response Value) :=
  g <- Documents_GetAll (Where (Collection "countries") "is_active" OpEq (VBool true)) ;;
  match g with
  | (_, Some _) =>
      ret (http.Error "Failed to fetch world data" http.StatusInternalServerError)
  | (docs, None) =>
      let allPolygons := polygonsLoop worldPolygon docs [] in
      ret (http.JSON (VMap
        (<["world" := VBool true]>
        (<["count" := VInt (Z.of_nat (length allPolygons))]>
        (<["polygons" := VArray (VMap <$> allPolygons)]> ∅)))))
  end.

(** *** Distance to the coast *)

Definition distanceToCoastHandler (r : http.Request) : Go (http.Response Value) :=
  let latStr := http.Get r "lat" in
  let lonStr := http.Get r "lon" in
  if String.eqb latStr "" || String.eqb lonStr ""
  then ret (http.Error "Missing lat or lon parameters" http.StatusBadRequest)
  else
    match strconv_ParseFloat latStr with
    | None => ret (http.Error "Invalid lat parameter" http.StatusBadRequest)
    | Some lat =>
        match strconv_ParseFloat lonStr with
        | None => ret (http.Error "Invalid lon parameter" http.StatusBadRequest)
        | Some lon =>
            d <- calculateDistanceToCoast lat lon ;;
            match d with
            | (_, _, Some _) =>
                ret (http.Error "Failed to calculate distance"
                       http.StatusInternalServerError)
            | (distance, nearestPoint, None) =>
                ret (http.JSON (VMap
                  (<["lat" := VDouble lat]>
                  (<["lon" := VDouble lon]>
                  (<["result" := VMap
                      (<["distance_to_coast_km" := VDouble distance]>
                      (<["nearest_coast_point" :=
                           match nearestPoint with
                           | Some point => VMap (VDouble <$> point)
                           | None => VNull
                           end]> ∅))]> ∅)))))
            end
        end
    end.

(** *** Landmarks near a point *)

Definition calculateBoundingBox (lat lon radiusMeters : float) : Bounds :=
  let latDelta := (radiusMeters / 111000.0)%float in
  let lonDelta := (radiusMeters / (111000.0 * math_Cos (lat * math_Pi / 180.0)))%float in
  {| MinLat := (lat - latDelta)%float;
     MaxLat := (lat + latDelta)%float;
     MinLon := (lon - lonDelta)%float;
     MaxLon := (lon + lonDelta)%float |}.

Definition calculateDistance (lat1 lon1 lat2 lon2 : float) : float :=
  let R := 6371000%float in
  let dLat := ((lat2 - lat1) * math_Pi / 180.0)%float in
  let dLon := ((lon2 - lon1) * math_Pi / 180.0)%float in
  let a := (math_Sin (dLat / 2) * math_Sin (dLat / 2) +
            math_Cos (lat1 * math_Pi / 180.0) * math_Cos (lat2 * math_Pi / 180.0) *
            math_Sin (dLon / 2) * math_Sin (dLon / 2))%float in
  let c := (2 * math_Atan2 (math_Sqrt a) (math_Sqrt (1 - a)))%float in
  (R * c)%float.

Definition landmarkWithDistance (landmark : Landmark) (distance : float)
    : gmap string Value :=
  <["id" := VString (lm_ID landmark)]>
  (<["name" := VString (lm_Name landmark)]>
  (<["type" := VString (lm_Type landmark)]>
  (<["coordinates" := Coordinates_Value (lm_Coordinates landmark)]>
  (<["precision_radius_meters" := VInt (lm_PrecisionRadiusMeters landmark)]>
  (<["distance_meters" := VInt (int_of_float64 distance)]>
  (<["achievement" := Achievement_Value (lm_Achievement landmark)]>
  (<["visiting_info" := VisitingInfo_Value (lm_VisitingInfo landmark)]>
  (<["short_description" := VString (lm_ShortDescription landmark)]> ∅)))))))).

(** The loop of [getLandmarksNearbyHandler]; it breaks once [limit]
    landmarks are kept, a test made after each document that decodes. *)
Fixpoint nearbyLoop (lat lon radius : float) (limit : Z) (docs : list DocumentSnapshot)
    (landmarks : list (gmap string Value)) : list (gmap string Value) :=
  match docs with
  | [] => landmarks
  | doc :: docs' =>
      match DataTo_Landmark doc with
      | None => nearbyLoop lat lon radius limit docs' landmarks
      | Some landmark =>
          let distance :=
            calculateDistance lat lon (crd_Lat (lm_Coordinates landmark))
              (crd_Lon (lm_Coordinates landmark)) in
          let landmarks :=
            if (distance <=? radius)%float
            then landmarks ++ [landmarkWithDistance landmark distance]
            else landmarks in
          if (limit <=? Z.of_nat (length landmarks))%Z then landmarks
          else nearbyLoop lat lon radius limit docs' landmarks
      end
  end.

Definition nearbyQuery (bounds : Bounds) (limit : Z) : Query :=
  Limit (Where (Where (Where (Collection "landmarks")
    "is_active" OpEq (VBool true))
    "coordinates.lat" OpGe (VDouble (MinLat bounds)))
    "coordinates.lat" OpLe (VDouble (MaxLat bounds)))
    (limit * 2).

Definition getLandmarksNearbyHandler (r : http.Request) : Go (http.Response Value) :=
  match strconv_ParseFloat (http.Get r "lat") with
  | None => ret (http.Error "Invalid lat parameter" http.StatusBadRequest)
  | Some lat =>
      match strconv_ParseFloat (http.Get r "lon") with
      | None => ret (http.Error "Invalid lon parameter" http.StatusBadRequest)
      | Some lon =>
          let radius := getFloatQueryParam r "radius" 1000 in
          let limit := getIntQueryParam r "limit" 20 in
          let bounds := calculateBoundingBox lat lon radius in
          g <- Documents_GetAll (nearbyQuery bounds limit) ;;
          match g with
          | (_, Some _) =>
              ret (http.Error "Failed to get landmarks" http.StatusInternalServerError)
          | (docs, None) =>
              let landmarks := nearbyLoop lat lon radius limit docs [] in
              ret (http.JSON (VMap
                (<["landmarks" := VArray (VMap <$> landmarks)]>
                (<["count" := VInt (Z.of_nat (length landmarks))]> ∅))))
          end
      end
  end.

(** *** Achievement definitions *)

Definition achievementEntry (owner : string) (id : string)
    (precisionRadiusMeters : Z) (a : Achievement) : gmap string Value :=
  <["id" := VString (ach_ID a)]>
  (<["title" := VString (ach_Title a)]>
  (<["description" := VString (ach_Description a)]>
  (<["points" := VInt (ach_Points a)]>
  (<["rarity" := VString (ach_Rarity a)]>
  (<["category" := VString (ach_Category a)]>
  (<[owner := VString id]>
  (<["precision_radius_meters" := VInt precisionRadiusMeters]>
  (<["unlock_message" := VString (ach_UnlockMessage a)]> ∅)))))))).

Fixpoint landmarkAchievementsLoop (docs : list DocumentSnapshot)
    (achievements : list (gmap string Value)) : list (gmap string Value) :=
  match docs with
  | [] => achievements
  | doc :: docs' =>
      match DataTo_Landmark doc with
      | None => landmarkAchievementsLoop docs' achievements
      | Some landmark =>
          landmarkAchievementsLoop docs'
            (achievements ++ [achievementEntry "landmark_id" (lm_ID landmark)
                                (lm_PrecisionRadiusMeters landmark)
                                (lm_Achievement landmark)])
      end
  end.

Fixpoint restaurantAchievementsLoop (docs : list DocumentSnapshot)
    (achievements : list (gmap string Value)) : list (gmap string Value) :=
  match docs with
  | [] => achievements
  | doc :: docs' =>
      match DataTo_Restaurant doc with
      | None => restaurantAchievementsLoop docs' achievements
      | Some restaurant =>
          restaurantAchievementsLoop docs'
            (achievements ++ [achievementEntry "restaurant_id" (rs_ID restaurant)
                                (rs_PrecisionRadiusMeters restaurant)
                                (rs_Achievement restaurant)])
      end
  end.

Definition getAchievementDefinitionsHandler : Go (http.Response Value) :=
  l <- Documents_GetAll (Where (Collection "landmarks") "is_active" OpEq (VBool true)) ;;
  match l with
  | (_, Some _) =>
      ret (http.Error "Failed to get achievements" http.StatusInternalServerError)
  | (landmarkDocs, None) =>
      let achievements := landmarkAchievementsLoop landmarkDocs [] in
      g <- Documents_GetAll
             (Where (Collection "restaurants") "is_active" OpEq (VBool true)) ;;
      let achievements :=
        match g with
        | (restaurantDocs, None) => restaurantAchievementsLoop restaurantDocs achievements
        | (_, Some _) => achievements
        end in
      ret (http.JSON (VMap
        (<["achievements" := VArray (VMap <$> achievements)]>
        (<["count" := VInt (Z.of_nat (length achievements))]> ∅))))
  end.

(** *** Comprehensive location lookup *)

(** One tier of [getLocationLookupHandler]: when the tier has a match,
    its group is appended and its first entity is put in the location
    under the tier's type. *)
Definition lookupTier (type : string) (entities : list (gmap string Value))
    (state : list Value * gmap string Value) : list Value * gmap string Value :=
  let '(boundaries, location) := state in
  match entities with
  | [] => (boundaries, location)
  | first :: _ =>
      (boundaries ++ [VMap (<["type" := VString type]>
                           (<["entities" := VArray (VMap <$> entities)]> ∅))],
       <[type := VMap first]> location)
  end.

(** The loop over [adminCollections] and [adminTypes], index by index. *)
Fixpoint adminLoop (lat lon : float) (levels : list (string * string))
    (state : list Value * gmap string Value) : Go (list Value * gmap string Value) :=
  match levels with
  | [] => ret state
  | (collection, type) :: levels' =>
      adminUnits <- findContainingEntities collection lat lon ;;
      adminLoop lat lon levels' (lookupTier type adminUnits state)
  end.

Definition adminLevels : list (string * string) :=
  [ ("admin_level_1", "state_province"); ("admin_level_2", "county_district");
    ("admin_level_3", "municipality_city"); ("admin_level_4", "ward_village");
    ("admin_level_5", "neighborhood") ].

Definition getLocationLookupHandler (r : http.Request) : Go (http.Response Value) :=
  match strconv_ParseFloat (http.Get r "lat") with
  | None => ret (http.Error "Invalid lat parameter" http.StatusBadRequest)
  | Some lat =>
      match strconv_ParseFloat (http.Get r "lon") with
      | None => ret (http.Error "Invalid lon parameter" http.StatusBadRequest)
      | Some lon =>
          let state : list Value * gmap string Value := ([], ∅) in
          states <- findContainingEntities "sovereign_states" lat lon ;;
          let state := lookupTier "sovereign_state" states state in
          countries <- findContainingEntities "countries" lat lon ;;
          let state := lookupTier "country" countries state in
          units <- findContainingEntities "map_units" lat lon ;;
          let state := lookupTier "map_unit" units state in
          subunits <- findContainingEntities "map_subunits" lat lon ;;
          let '(naturalEarthBoundaries, location) :=
            lookupTier "map_subunit" subunits state in
          g <- adminLoop lat lon adminLevels ([], location) ;;
          let '(gadmBoundaries, location) := g in
          ret (http.JSON (VMap
            (<["lat" := VDouble lat]>
            (<["lon" := VDouble lon]>
            (<["location" := VMap location]>
            (<["natural_earth_boundaries" := VArray naturalEarthBoundaries]>
            (<["gadm_boundaries" := VArray gadmBoundaries]>
            (<["total_boundaries" :=
                 VInt (Z.of_nat (length naturalEarthBoundaries)
                       + Z.of_nat (length gadmBoundaries))]> ∅))))))))
      end
  end.

(** *** Administrative divisions *)

(** The limit of the administrative list endpoints: 100, unless the
    parameter holds a number from 1 to 1000. *)
Definition adminLimit (r : http.Request) : Z :=
  let limit := 100%Z in
  let limitStr := http.Get r "limit" in
  if String.eqb limitStr "" then limit
  else match strconv_Atoi limitStr with
       | Some l => if (0 <? l)%Z && (l <=? 1000)%Z then l else limit
       | None => limit
       end.


End ServiceContinued.

(* ================================================================== *)
(** ** A concrete instance of the packages, and fixtures

    The properties below hold for every instance of [Packages].  This
    one is small and computable; it serves to run the handlers on
    fixtures and to show that the hypotheses of the properties can be
    met.  Its decoders read a reduced syntax: a request body is a list
    of points [lat,lon] or [lat,lon,square_id] separated by [;], with
    whole-number coordinates, and a stored geometry is looked up by
    name. *)

Module fixture.
Import firestore.

Fixpoint split_aux (sep : ascii) (s : string) (cur : string) : list string :=
  match s with
  | EmptyString => [String.rev cur]
  | String c rest =>
      if Ascii.eqb c sep
      then String.rev cur :: split_aux sep rest EmptyString
      else split_aux sep rest (String c cur)
  end.

Definition split (sep : ascii) (s : string) : list string := split_aux sep s EmptyString.

Definition digit (c : ascii) : option Z :=
  let n := (Z.of_nat (nat_of_ascii c) - 48)%Z in
  if (0 <=? n)%Z && (n <=? 9)%Z then Some n else None.

Fixpoint digits (s : string) (acc : Z) : option Z :=
  match s with
  | EmptyString => Some acc
  | String c rest =>
      match digit c with
      | Some d => digits rest (10 * acc + d)%Z
      | None => None
      end
  end.

Definition in_int64 (n : Z) : option Z :=
  if (- 2 ^ 63 <=? n)%Z && (n <? 2 ^ 63)%Z then Some n else None.

(** Decimal integers with an optional sign, within int64. *)
Definition Atoi (s : string) : option Z :=
  match s with
  | EmptyString => None
  | String c rest =>
      if Ascii.eqb c "-"%char
      then match rest with
           | EmptyString => None
           | _ => n ← digits rest 0; in_int64 (- n)
           end
      else if Ascii.eqb c "+"%char
      then match rest with
           | EmptyString => None
           | _ => n ← digits rest 0; in_int64 n
           end
      else n ← digits s 0; in_int64 n
  end.

(** Whole numbers only. *)
(** The whole numbers, and the names strconv reads as NaN and as the
    infinities. *)
Definition ParseFloat (s : string) : option float :=
  if String.eqb s "NaN" then Some PrimFloat.nan
  else if String.eqb s "Inf" || String.eqb s "+Inf" then Some PrimFloat.infinity
  else if String.eqb s "-Inf" then Some PrimFloat.neg_infinity
  else double_of_Z <$> Atoi s.

Definition lower (c : ascii) : ascii :=
  let n := nat_of_ascii c in
  if (65 <=? n)%nat && (n <=? 90)%nat then ascii_of_nat (n + 32) else c.

Fixpoint ToLower (s : string) : string :=
  match s with
  | EmptyString => EmptyString
  | String c rest => String (lower c) (ToLower rest)
  end.

(** Low-order approximations, for small arguments. *)
Definition Sin (x : float) : float := (x - x * x * x / 6)%float.
Definition Cos (x : float) : float := (1 - x * x / 2)%float.
Definition Atan2 (y x : float) : float := (y / x)%float.

(** Even-odd ray casting over the edges of a ring. *)
Fixpoint crossings (p : orb.Point) (a : orb.Point) (rest : list orb.Point)
    (first : orb.Point) (inside : bool) : bool :=
  let edge (b : orb.Point) : bool :=
    let '(px, py) := p in
    let '(ax, ay) := a in
    let '(bx, by') := b in
    negb (Bool.eqb (py <? ay)%float (py <? by')%float)
    && (px <? (bx - ax) * (py - ay) / (by' - ay) + ax)%float in
  match rest with
  | [] => xorb inside (edge first)
  | b :: rest' => crossings p b rest' first (xorb inside (edge b))
  end.

Definition ringContains (ring : orb.Ring) (p : orb.Point) : bool :=
  match ring with
  | [] => false
  | a :: rest => crossings p a rest a false
  end.

(** Inside the outer ring and inside no hole. *)
Definition PolygonContains (poly : orb.Polygon) (p : orb.Point) : bool :=
  match poly with
  | [] => false
  | outer :: holes =>
      ringContains outer p && forallb (fun hole => negb (ringContains hole p)) holes
  end.

(** The triangle (0,0), (4,0), (0,4), in (lon, lat) order. *)
Definition triangle : orb.Polygon :=
  [[(0%float, 0%float); (4%float, 0%float); (0%float, 4%float); (0%float, 0%float)]].

(** The square (10,10) .. (12,12). *)
Definition square : orb.Polygon :=
  [[(10%float, 10%float); (12%float, 10%float); (12%float, 12%float);
    (10%float, 12%float); (10%float, 10%float)]].

Definition UnmarshalGeometry (s : string) : option orb.Geometry :=
  if String.eqb s "triangle" then Some (orb.IsPolygon triangle)
  else if String.eqb s "square" then Some (orb.IsPolygon square)
  else if String.eqb s "triangle+square" then Some (orb.IsMultiPolygon [triangle; square])
  else if String.eqb s "line" then Some (orb.IsOther "orb.LineString")
  else None.

(** Struct decoding: a missing field leaves the zero value, a field of
    another type is an error. *)
Definition field_string (m : gmap string Value) (k : string) : option string :=
  match m !! k with
  | None => Some ""
  | Some (VString s) => Some s
  | Some _ => None
  end.

Definition field_int (m : gmap string Value) (k : string) : option Z :=
  match m !! k with
  | None => Some 0%Z
  | Some (VInt n) => Some n
  | Some _ => None
  end.

Definition field_float (m : gmap string Value) (k : string) : option float :=
  match m !! k with
  | None => Some 0%float
  | Some (VDouble f) => Some f
  | Some (VInt n) => Some (double_of_Z n)
  | Some _ => None
  end.

Definition field_bounds (m : gmap string Value) (k : string) : option Bounds :=
  match m !! k with
  | None => Some {| MinLat := 0; MaxLat := 0; MinLon := 0; MaxLon := 0 |}
  | Some (VMap b) =>
      a ← field_float b "min_lat"; b' ← field_float b "max_lat";
      c ← field_float b "min_lon"; d ← field_float b "max_lon";
      Some {| MinLat := a; MaxLat := b'; MinLon := c; MaxLon := d |}
  | Some _ => None
  end.

Definition decodeSovereignState (doc : DocumentSnapshot) : option SovereignState :=
  let m := Data doc in
  id ← field_string m "id"; name ← field_string m "name";
  official ← field_string m "official_name";
  a2 ← field_string m "iso_alpha2"; a3 ← field_string m "iso_alpha3";
  flag ← field_string m "flag_emoji"; continent ← field_string m "continent";
  bounds ← field_bounds m "bounds"; capital ← field_string m "capital";
  population ← field_int m "population"; area ← field_float m "area_km2";
  Some {| ss_ID := id; ss_Name := name; ss_OfficialName := official;
          ss_ISOAlpha2 := a2; ss_ISOAlpha3 := a3; ss_FlagEmoji := flag;
          ss_Continent := continent; ss_Bounds := bounds; ss_Capital := capital;
          ss_Population := population; ss_AreaKM2 := area |}.

Definition decodeCountry (doc : DocumentSnapshot) : option Country :=
  let m := Data doc in
  id ← field_string m "id"; sid ← field_string m "sovereign_state_id";
  name ← field_string m "name"; official ← field_string m "official_name";
  a2 ← field_string m "iso_alpha2"; a3 ← field_string m "iso_alpha3";
  continent ← field_string m "continent";
  bounds ← field_bounds m "bounds"; capital ← field_string m "capital";
  population ← field_int m "population"; area ← field_float m "area_km2";
  Some {| co_ID := id; co_SovereignStateID := sid; co_Name := name;
          co_OfficialName := official; co_ISOAlpha2 := a2; co_ISOAlpha3 := a3;
          co_Continent := continent; co_Bounds := bounds; co_Capital := capital;
          co_Population := population; co_AreaKM2 := area |}.

Definition decodePointLookup (s : string) : option PointLookup :=
  match split ","%char s with
  | [lat; lon; id] =>
      a ← ParseFloat lat; b ← ParseFloat lon;
      Some {| Lat := a; Lon := b; SquareID := id |}
  | _ => None
  end.

Definition decodeClassifyPoint (s : string) : option ClassifyPoint :=
  match split ","%char s with
  | [lat; lon] =>
      a ← ParseFloat lat; b ← ParseFloat lon;
      Some {| cp_Lat := a; cp_Lon := b |}
  | _ => None
  end.

(** The empty body is the empty list of points. *)
Definition decodeList {A : Type} (item : string -> option A) (body : string)
    : option (list A) :=
  if String.eqb body "" then Some [] else mapM item (split ";"%char body).

Definition Decode_BatchLookupRequest (body : string) : option BatchLookupRequest :=
  (fun ps => {| Points := ps |}) <$> decodeList decodePointLookup body.

Definition Decode_BatchClassifyRequest (body : string) : option BatchClassifyRequest :=
  (fun ps => {| cp_Points := ps |}) <$> decodeList decodeClassifyPoint body.

Definition packages : Packages := {|
  strconv_Atoi := Atoi;
  strconv_ParseFloat := ParseFloat;
  strings_ToLower := ToLower;
  math_Sin := Sin;
  math_Cos := Cos;
  math_Atan2 := Atan2;
  geojson_UnmarshalGeometry := UnmarshalGeometry;
  planar_PolygonContains := PolygonContains;
  DataTo_SovereignState := decodeSovereignState;
  DataTo_Country := decodeCountry;
  json_Decode_BatchLookupRequest := Decode_BatchLookupRequest;
  json_Decode_BatchClassifyRequest := Decode_BatchClassifyRequest
|}.

End fixture.

(** *** Fixture documents and stores *)

Module fixtures.
Import firestore.

Definition boundsValue (minLat maxLat minLon maxLon : float) : Value :=
  VMap (<["min_lat" := VDouble minLat]>
       (<["max_lat" := VDouble maxLat]>
       (<["min_lon" := VDouble minLon]>
       (<["max_lon" := VDouble maxLon]> ∅)))).

(** A polygon-bearing document: an administrative entity, a land polygon
    or a coastline segment. *)
Definition polygonDoc (id geometry : string) (bounds : Value) (active : bool)
    : DocumentSnapshot :=
  {| Ref := id;
     Data := <["id" := VString id]>
            (<["name" := VString id]>
            (<["geometry" := VString geometry]>
            (<["bounds" := bounds]>
            (<["is_active" := VBool active]> ∅)))) |}.

(** The triangle (0,0), (4,0), (0,4) under its bounding square. *)
Definition triangleDoc : DocumentSnapshot :=
  polygonDoc "triangle_land" "triangle" (boundsValue 0 4 0 4) true.

(** The same triangle under bounds that miss it: the bounds are smaller
    than the geometry. *)
Definition misboundedDoc : DocumentSnapshot :=
  polygonDoc "misbounded" "triangle" (boundsValue 2 4 2 4) true.

Definition inactiveDoc : DocumentSnapshot :=
  polygonDoc "retired" "triangle" (boundsValue 0 4 0 4) false.

Definition squareDoc : DocumentSnapshot :=
  polygonDoc "square_land" "square" (boundsValue 10 12 10 12) true.

(** A coastline segment whose bounds have no numbers in them. *)
Definition brokenCoastDoc : DocumentSnapshot :=
  polygonDoc "broken_coast" "line" (VMap ∅) true.

Definition store (collections : list (string * list DocumentSnapshot))
    (faults : list (string * string)) : Client :=
  {| Documents := list_to_map collections; Faults := list_to_map faults |}.

(** Land polygons and coastlines around the triangle. *)
Definition coastalStore : Client :=
  store [("countries", [triangleDoc; inactiveDoc; squareDoc]);
         ("land_polygons", [triangleDoc]);
         ("coastlines", [triangleDoc])] [].

(** Land polygons, and no coastline at all. *)
Definition noCoastStore : Client :=
  store [("land_polygons", [triangleDoc])] [].

(** The land polygons cannot be read; no coastline either. *)
Definition noLandNoCoastStore : Client :=
  store [] [("land_polygons", "unavailable")].

Definition misboundedStore : Client :=
  store [("countries", [misboundedDoc])] [].

Definition downStore : Client :=
  store [("countries", [triangleDoc])] [("countries", "unavailable")].

Definition request (query : list (string * list string)) (body : string) : http.Request :=
  {| http.Query := list_to_map query; http.Body := body |}.

(** A body of [n] copies of the point (1, 1). *)
Fixpoint pointsBody (n : nat) : string :=
  match n with
  | O => ""
  | S O => "1,1"
  | S n' => "1,1;" +:+ pointsBody n'
  end.

(** The request that body decodes to. *)
Definition pointsRequest (n : nat) : BatchClassifyRequest :=
  {| cp_Points := replicate n {| cp_Lat := 1; cp_Lon := 1 |} |}.

Definition sovereignDoc (id name : string) : DocumentSnapshot :=
  {| Ref := id;
     Data := <["id" := VString id]>
            (<["name" := VString name]>
            (<["is_active" := VBool true]> ∅)) |}.

Definition countryDoc (id name sovereign : string) : DocumentSnapshot :=
  {| Ref := id;
     Data := <["id" := VString id]>
            (<["name" := VString name]>
            (<["sovereign_state_id" := VString sovereign]>
            (<["is_active" := VBool true]> ∅))) |}.

Definition catalogStore : Client :=
  store [("sovereign_states", [sovereignDoc "united_kingdom" "United Kingdom";
                               sovereignDoc "france" "France"]);
         ("countries", [countryDoc "united_kingdom" "United Kingdom" "united_kingdom";
                        countryDoc "scotland" "Scotland" "united_kingdom";
                        countryDoc "scotland" "Scotland" "united_kingdom";
                        countryDoc "atlantis" "Atlantis" ""])] [].

(** Two sovereign-state documents under one id. *)
Definition duplicateStore : Client :=
  store [("sovereign_states", [sovereignDoc "france" "France";
                               sovereignDoc "france" "French Republic"])] [].

(** What the catalog examples read of an entry. *)
Definition summary (entry : gmap string Value) : list (option Value) :=
  [entry !! "id"; entry !! "type"; entry !! "is_territory"; entry !! "sovereign_state_name"].

Definition summaries (response : Outcome (http.Response Value)) : list (list (option Value)) :=
  match response with
  | Returned (http.JSON (VMap body)) =>
      match body !! "countries" with
      | Some (VArray entries) =>
          (λ entry, match entry with VMap m => summary m | _ => [] end) <$> entries
      | _ => []
      end
  | _ => []
  end.

End fixtures.

(** *** More of the concrete instance *)

Module fixture_decoders.
Import firestore fixture.

Definition field_map (m : gmap string Value) (k : string) : option (gmap string Value) :=
  match m !! k with
  | None => Some ∅
  | Some (VMap v) => Some v
  | Some _ => None
  end.

Definition decodeCoordinates (m : gmap string Value) : option Coordinates :=
  lat ← field_float m "lat"; lon ← field_float m "lon";
  match m !! "altitude" with
  | None | Some VNull => Some {| crd_Lat := lat; crd_Lon := lon; Altitude := None |}
  | Some (VDouble a) => Some {| crd_Lat := lat; crd_Lon := lon; Altitude := Some a |}
  | Some _ => None
  end.

Definition decodeAchievement (m : gmap string Value) : option Achievement :=
  id ← field_string m "id"; title ← field_string m "title";
  description ← field_string m "description"; points ← field_int m "points";
  rarity ← field_string m "rarity"; category ← field_string m "category";
  unlock ← field_string m "unlock_message";
  Some {| ach_ID := id; ach_Title := title; ach_Description := description;
          ach_Points := points; ach_Rarity := rarity; ach_Category := category;
          ach_UnlockMessage := unlock |}.

(** A map field of a struct: nil when the document has no such field. *)
Definition field_nilable_map (m : gmap string Value) (k : string)
    : option (option (gmap string Value)) :=
  match m !! k with
  | None | Some VNull => Some None
  | Some (VMap v) => Some (Some v)
  | Some _ => None
  end.

Definition decodeVisitingInfo (m : gmap string Value) : option VisitingInfo :=
  hours ← field_nilable_map m "hours"; admission ← field_nilable_map m "admission";
  accessibility ← field_nilable_map m "accessibility";
  Some {| Hours := hours; Admission := admission; Accessibility := accessibility |}.

Definition decodeLandmark (doc : DocumentSnapshot) : option Landmark :=
  let m := Data doc in
  id ← field_string m "id"; name ← field_string m "name"; type ← field_string m "type";
  coordinates ← field_map m "coordinates" ≫= decodeCoordinates;
  radius ← field_int m "precision_radius_meters";
  short ← field_string m "short_description";
  visiting ← field_map m "visiting_info" ≫= decodeVisitingInfo;
  achievement ← field_map m "achievement" ≫= decodeAchievement;
  Some {| lm_ID := id; lm_Name := name; lm_Type := type; lm_Coordinates := coordinates;
          lm_PrecisionRadiusMeters := radius; lm_ShortDescription := short;
          lm_VisitingInfo := visiting; lm_Achievement := achievement |}.

Definition decodeRestaurant (doc : DocumentSnapshot) : option Restaurant :=
  let m := Data doc in
  id ← field_string m "id"; radius ← field_int m "precision_radius_meters";
  achievement ← field_map m "achievement" ≫= decodeAchievement;
  Some {| rs_ID := id; rs_PrecisionRadiusMeters := radius; rs_Achievement := achievement |}.

Definition decodeAdminLevel1 (doc : DocumentSnapshot) : option AdminLevel1 :=
  let m := Data doc in
  id ← field_string m "id"; name ← field_string m "name";
  gid ← field_string m "country_gid"; country ← field_string m "country_name";
  type ← field_string m "admin_type"; type_en ← field_string m "admin_type_en";
  bounds ← field_bounds m "bounds"; geometry ← field_string m "geometry";
  Some {| al_ID := id; al_Name := name; al_CountryGID := gid; al_CountryName := country;
          al_AdminType := type; al_AdminTypeEN := type_en; al_Bounds := bounds;
          al_Geometry := geometry |}.

(** Truncation toward zero of a finite number; 0 otherwise. *)
Definition truncate (x : float) : Z :=
  match Prim2SF x with
  | S754_finite s m e =>
      let magnitude :=
        if (0 <=? e)%Z then (Z.pos m * 2 ^ e)%Z else (Z.pos m / 2 ^ (- e))%Z in
      if s then (- magnitude)%Z else magnitude
  | _ => 0%Z
  end.

Definition decoders : Decoders := {|
  DataTo_Landmark := decodeLandmark;
  DataTo_Restaurant := decodeRestaurant;
  DataTo_AdminLevel1 := decodeAdminLevel1;
  int_of_float64 := truncate
|}.

End fixture_decoders.

Module more_fixtures.
Import firestore fixtures.

Definition incoming (method : string) (header : list (string * list string))
    (query : list (string * list string)) : transport.Incoming :=
  {| transport.Method := method;
     transport.Header := list_to_map header;
     transport.Inner := request query "" |}.

(** A landmark at the given whole-degree coordinates. *)
Definition landmarkDoc (id : string) (lat lon : float) (active : bool) : DocumentSnapshot :=
  {| Ref := id;
     Data := <["id" := VString id]>
            (<["name" := VString id]>
            (<["coordinates" := VMap (<["lat" := VDouble lat]> (<["lon" := VDouble lon]> ∅))]>
            (<["achievement" := VMap (<["id" := VString ("visit_" +:+ id)]>
                                     (<["points" := VInt 10]> ∅))]>
            (<["is_active" := VBool active]> ∅)))) |}.

Definition restaurantDoc (id : string) : DocumentSnapshot :=
  {| Ref := id;
     Data := <["id" := VString id]>
            (<["achievement" := VMap (<["id" := VString ("dine_" +:+ id)]> ∅)]>
            (<["is_active" := VBool true]> ∅)) |}.

(** A landmark whose coordinates are text: it does not decode. *)
Definition brokenLandmarkDoc : DocumentSnapshot :=
  {| Ref := "broken";
     Data := <["id" := VString "broken"]>
            (<["coordinates" := VString "1,1"]>
            (<["is_active" := VBool true]> ∅)) |}.

Definition continentDoc (id continent geometry : string) (active : bool)
    : DocumentSnapshot :=
  {| Ref := id;
     Data := <["id" := VString id]>
            (<["name" := VString id]>
            (<["continent" := VString continent]>
            (<["geometry" := VString geometry]>
            (<["is_active" := VBool active]> ∅)))) |}.

(** Three countries with a geometry, one of them retired, and one
    without. *)
Definition polygonStore : Client :=
  store [("countries", [continentDoc "france" "Europe" "triangle" true;
                        continentDoc "peru" "South America" "square" true;
                        continentDoc "prussia" "Europe" "square" false;
                        continentDoc "monaco" "Europe" "" true])] [].

Definition landmarkStore : Client :=
  store [("landmarks", [landmarkDoc "near" 1 1 true;
                        brokenLandmarkDoc;
                        landmarkDoc "nearer" 1 1 true;
                        landmarkDoc "far" 3 3 true;
                        landmarkDoc "closed" 1 1 false]);
         ("restaurants", [restaurantDoc "bistro"])] [].

(** The landmarks can be read, the restaurants cannot. *)
Definition noRestaurantStore : Client :=
  store [("landmarks", [landmarkDoc "near" 1 1 true])] [("restaurants", "unavailable")].

Definition noLandmarkStore : Client :=
  store [("restaurants", [restaurantDoc "bistro"])] [("landmarks", "unavailable")].

(** Every collection fails. *)
Definition deadStore : Client :=
  store [("countries", [triangleDoc])]
        [("sovereign_states", "unavailable"); ("countries", "unavailable");
         ("map_units", "unavailable"); ("map_subunits", "unavailable");
         ("admin_level_1", "unavailable"); ("admin_level_2", "unavailable");
         ("admin_level_3", "unavailable"); ("admin_level_4", "unavailable");
         ("admin_level_5", "unavailable"); ("land_polygons", "unavailable");
         ("coastlines", "unavailable")].

(** Two coastline segments, centred at (2, 2) and (1, 1). *)
Definition twoCoastStore : Client :=
  store [("coastlines", [polygonDoc "south" "line" (boundsValue 0 4 0 4) true;
                         polygonDoc "north" "line" (boundsValue 0 2 0 2) true])] [].

(** The triangle as a country and as a first-level division. *)
Definition lookupStore : Client :=
  store [("countries", [triangleDoc; polygonDoc "second" "triangle" (boundsValue 0 4 0 4) true]);
         ("admin_level_1", [triangleDoc])] [].

(** A land polygon, and a coastline segment with malformed bounds behind
    a well-formed one. *)
Definition brokenCoastStore : Client :=
  store [("land_polygons", [triangleDoc]);
         ("coastlines", [triangleDoc; brokenCoastDoc])] [].

(** A first-level division of a country. *)
Definition adminDoc (id gid : string) : DocumentSnapshot :=
  {| Ref := id;
     Data := <["id" := VString id]>
            (<["name" := VString id]>
            (<["country_gid" := VString gid]>
            (<["is_active" := VBool true]> ∅))) |}.

Definition adminStore : Client :=
  store [("admin_level_1", [adminDoc "bavaria" "DEU"; adminDoc "brittany" "FRA";
                            adminDoc "saxony" "DEU"])] [].

End more_fixtures.

(* ================================================================== *)
(** ** The vocabulary of the specification *)

Section Vocabulary.
Context `{Packages}.
Import firestore.

(** The documents of a tier collection. *)
Definition tier (c : Client) (collection : string) : list DocumentSnapshot :=
  default [] (Documents c !! collection).

(** [d.is_active]. *)
Definition is_active (d : DocumentSnapshot) : bool :=
  match Data d !! "is_active" with
  | Some (VBool b) => b
  | _ => false
  end.

(** The geometry kernel of the specification, in its words and over the
    library's parser and point-in-polygon test, not over the code of the
    service.

    [parse(geojson_text)]: the geometry a text holds, as its member
    polygons: the one polygon of a [Polygon], the members of a
    [MultiPolygon].  The empty text holds none (EmptyGeometry), nor does
    a text that is no GeoJSON geometry or whose type is neither of the two
    (InvalidGeometry). *)
Definition parse (geojson_text : string) : option (list orb.Polygon) :=
  if bool_decide (geojson_text = "") then None
  else match geojson_UnmarshalGeometry geojson_text with
       | Some (orb.IsPolygon polygon) => Some [polygon]
       | Some (orb.IsMultiPolygon polygons) => Some polygons
       | Some (orb.IsOther _) | None => None
       end.

(** [contains(geometry, lon, lat)]: some member polygon contains the
    point, which is given in (lon, lat) order. *)
Definition contains (geometry : list orb.Polygon) (lon lat : float) : Prop :=
  Exists (λ polygon, planar_PolygonContains polygon (lon, lat) = true) geometry.

#[global] Instance contains_dec (geometry : list orb.Polygon) (lon lat : float) :
  Decision (contains geometry lon lat).
Proof. unfold contains. apply _. Defined.

(** [contains(d.geometry, lon, lat)] for a document: its geometry text
    parses and the geometry contains the point; a document without a
    geometry text, or with one that does not parse, contains no point. *)
Definition geometry_contains (lat lon : float) (d : DocumentSnapshot) : bool :=
  match assert_string (Data d !! "geometry") with
  | Some geojson_text =>
      match parse geojson_text with
      | Some geometry => bool_decide (contains geometry lon lat)
      | None => false
      end
  | None => false
  end.

(** The number stored under a field path of a document. *)
Definition field_number (d : DocumentSnapshot) (path : list string) : option float :=
  lookup_path path (Data d) ≫= number.

(** The closed rectangle [d.bounds] holds the point. *)
Definition bounds_contain (lat lon : float) (d : DocumentSnapshot) : bool :=
  match field_number d ["bounds"; "min_lat"], field_number d ["bounds"; "max_lat"],
        field_number d ["bounds"; "min_lon"], field_number d ["bounds"; "max_lon"] with
  | Some minLat, Some maxLat, Some minLon, Some maxLon =>
      (minLat <=? lat)%float && (lat <=? maxLat)%float
      && (minLon <=? lon)%float && (lon <=? maxLon)%float
  | _, _, _, _ => false
  end.

(** Bounds are a conservative over-approximation of geometry, at the
    point asked about: a point failing the bounds test of an active
    document is not in its geometry. *)
Definition bounds_conservative (docs : list DocumentSnapshot) (lat lon : float) : Prop :=
  ∀ d, d ∈ docs → is_active d = true → geometry_contains lat lon d = true →
       bounds_contain lat lon d = true.

(** The set the specification gives for a tier, in the order of the
    collection. *)
Definition containing (docs : list DocumentSnapshot) (lat lon : float)
    : list (gmap string Value) :=
  Data <$> filter (λ d, is_active d = true ∧ geometry_contains lat lon d = true) docs.

(** The results array of a batch-classify response body. *)
Definition results_of (body : Value) : list Value :=
  match body with
  | VMap m => match m !! "results" with
              | Some (VArray entries) => entries
              | _ => []
              end
  | _ => []
  end.

(** What the entry of one point of a batch-classify request is, against
    the store [c]. *)
Definition entry_for (c : Client) (point : ClassifyPoint) (entry : Value) : Prop :=
  if outOfRange (cp_Lat point) (cp_Lon point)
  then entry = errorEntry "Invalid coordinates"
  else match result (classifyPoint (cp_Lat point) (cp_Lon point)) c with
       | Returned (_, _, Some _) => entry = errorEntry "Classification failed"
       | Returned (isLand, distanceToCoast, None) =>
           entry = classifiedEntry isLand distanceToCoast
       | Panicked _ => False
       end.

(** The classification of a point of a batch panics. *)
Definition classification_panics (c : Client) (point : ClassifyPoint) : Prop :=
  outOfRange (cp_Lat point) (cp_Lon point) = false
  ∧ ∃ msg, result (classifyPoint (cp_Lat point) (cp_Lon point)) c = Panicked msg.

(** The bounds of a document, when it has any, hold their four numbers
    as doubles: what the data model requires of [bounds]. *)
Definition bounds_well_formed (d : DocumentSnapshot) : Prop :=
  match assert_map (Data d !! "bounds") with
  | Some bounds =>
      is_Some (assert_float64 (bounds !! "min_lat"))
      ∧ is_Some (assert_float64 (bounds !! "max_lat"))
      ∧ is_Some (assert_float64 (bounds !! "min_lon"))
      ∧ is_Some (assert_float64 (bounds !! "max_lon"))
  | None => True
  end.

(** The four queries of a resolution, in tier order. *)
Definition tierQueries (lat lon : float) : list Query :=
  [ boundsQuery "sovereign_states" lat lon; boundsQuery "countries" lat lon;
    boundsQuery "map_units" lat lon; boundsQuery "map_subunits" lat lon ].

(** The active documents of a collection: what the query on [is_active]
    alone returns. *)
Definition active (c : Client) (collection : string) : list DocumentSnapshot :=
  filter (λ d, is_active d = true) (tier c collection).

(** The active sovereign states and countries, as decoded; a document
    that does not decode into its struct is skipped. *)
Definition active_sovereign_states (c : Client) : list SovereignState :=
  omap DataTo_SovereignState (active c "sovereign_states").

Definition active_countries (c : Client) : list Country :=
  omap DataTo_Country (active c "countries").

(** The [id] an entry of the bulk catalog carries. *)
Definition entry_id (entry : gmap string Value) : option Value := entry !! "id".

(** "Each country whose id is not already emitted": the countries in
    order, without those whose id is in [seen] or earlier in the list. *)
Fixpoint not_yet_emitted (seen : list string) (countries : list Country) : list Country :=
  match countries with
  | [] => []
  | country :: countries' =>
      if bool_decide (co_ID country ∈ seen)
      then not_yet_emitted seen countries'
      else country :: not_yet_emitted (co_ID country :: seen) countries'
  end.

End Vocabulary.

(** *** Vocabulary for the further endpoints *)

Section MoreVocabulary.
Context `{Packages} `{Decoders}.
Import firestore.

(** The wrapped handler ran and its response was passed on: the same
    queries, and the response of the handler, or its panic. *)
Definition passed_to {A : Type} (served : Go (transport.Written A))
    (next : Go (http.Response A)) (c : Client) : Prop :=
  result served c
  = match result next c with
    | Returned response => Returned (transport.Handled response)
    | Panicked msg => Panicked msg
    end
  ∧ queries served c = queries next c.

(** The origin the CORS header names: the configured one, or the web
    app. *)
Definition allowed_origin (env : gmap string string) : string :=
  match env !! "CORS_ALLOWED_ORIGIN" with
  | Some origin =>
      if bool_decide (origin = "") then "https://statlas-web-app-aleilqeyua-uc.a.run.app"
      else origin
  | None => "https://statlas-web-app-aleilqeyua-uc.a.run.app"
  end.

(** The document stored under an id, when the collection can be read. *)
Definition stored (c : Client) (collection id : string) : option DocumentSnapshot :=
  match Faults c !! collection with
  | Some _ => None
  | None => List.find (λ d, String.eqb (Ref d) id) (tier c collection)
  end.

(** The geometry text of a document; empty when it has none. *)
Definition geometry_text (d : DocumentSnapshot) : string :=
  default "" (assert_string (Data d !! "geometry")).

(** The active documents of a collection that have a geometry. *)
Definition with_geometry (docs : list DocumentSnapshot) : list DocumentSnapshot :=
  filter (λ d, geometry_text d ≠ "") docs.

(** The documents of a continent, by their [continent] field. *)
Definition on_continent (continent : string) (d : DocumentSnapshot) : bool :=
  match Data d !! "continent" with
  | Some (VString name) => bool_decide (name = continent)
  | _ => false
  end.

(** What the resolver returns for a tier (see
    [findContainingEntities_result]). *)
Definition resolved (c : Client) (collection : string) (lat lon : float)
    : list (gmap string Value) :=
  match Faults c !! collection with
  | Some _ => []
  | None =>
      Data <$> filter (λ d, is_active d = true ∧ bounds_contain lat lon d = true
                            ∧ geometry_contains lat lon d = true)
                      (tier c collection)
  end.

(** The rectangle the land test reads from a document: a bounds map
    whose entries that are no doubles count as 0. *)
Definition land_rectangle_holds (lat lon : float) (d : DocumentSnapshot) : bool :=
  match assert_string (Data d !! "geometry"), assert_map (Data d !! "bounds") with
  | Some _, Some bounds =>
      (float64_or_zero (bounds !! "min_lat") <=? lat)%float
      && (lat <=? float64_or_zero (bounds !! "max_lat"))%float
      && (float64_or_zero (bounds !! "min_lon") <=? lon)%float
      && (lon <=? float64_or_zero (bounds !! "max_lon"))%float
  | _, _ => false
  end.

(** A coastline segment is skipped as too far: the point is more than 2
    degrees outside its bounds (entries that are no doubles count as 0).
    A segment without a bounds map is never too far. *)
Definition too_far (lat lon : float) (d : DocumentSnapshot) : bool :=
  match assert_map (Data d !! "bounds") with
  | Some bounds =>
      (lat <? float64_or_zero (bounds !! "min_lat") - 2)%float
      || (float64_or_zero (bounds !! "max_lat") + 2 <? lat)%float
      || (lon <? float64_or_zero (bounds !! "min_lon") - 2)%float
      || (float64_or_zero (bounds !! "max_lon") + 2 <? lon)%float
  | None => false
  end.

(** The centre of the bounds of a coastline segment that is a candidate
    for the point, with its distance: the segment has a bounds map of
    four doubles and is not too far. *)
Definition coast_candidate (lat lon : float) (d : DocumentSnapshot)
    : option (float * float * float) :=
  if too_far lat lon d then None
  else
    bounds ← assert_map (Data d !! "bounds");
    minLat ← assert_float64 (bounds !! "min_lat");
    maxLat ← assert_float64 (bounds !! "max_lat");
    minLon ← assert_float64 (bounds !! "min_lon");
    maxLon ← assert_float64 (bounds !! "max_lon");
    let centerLat := ((minLat + maxLat) / 2)%float in
    let centerLon := ((minLon + maxLon) / 2)%float in
    Some (centerLat, centerLon, haversineDistance lat lon centerLat centerLon).

(** The two reads of a classification. *)
Definition classifyQueries : list Query :=
  [activeQuery "land_polygons"; activeQuery "coastlines"].

(** The landmark entry of a document in a nearby search: the document
    decodes and lies within the radius. *)
Definition nearby_entry (lat lon radius : float) (doc : DocumentSnapshot)
    : option (gmap string Value) :=
  landmark ← DataTo_Landmark doc;
  let distance :=
    calculateDistance lat lon (crd_Lat (lm_Coordinates landmark))
      (crd_Lon (lm_Coordinates landmark)) in
  if (distance <=? radius)%float then Some (landmarkWithDistance landmark distance)
  else None.

Definition landmark_achievement (landmark : Landmark) : gmap string Value :=
  achievementEntry "landmark_id" (lm_ID landmark) (lm_PrecisionRadiusMeters landmark)
    (lm_Achievement landmark).

Definition restaurant_achievement (restaurant : Restaurant) : gmap string Value :=
  achievementEntry "restaurant_id" (rs_ID restaurant) (rs_PrecisionRadiusMeters restaurant)
    (rs_Achievement restaurant).

(** The nine tiers of the location lookup, in the order they are
    queried, each with the type its matches are filed under. *)
Definition lookupTiers : list (string * string) :=
  [ ("sovereign_states", "sovereign_state"); ("countries", "country");
    ("map_units", "map_unit"); ("map_subunits", "map_subunit") ] ++ adminLevels.

(** The names of the mock boundaries, outermost first. *)
Definition mockHierarchy : list string :=
  ["United States"; "New York"; "New York City"; "Manhattan"].

(** The distance loop after the segments [seen]: either nothing is kept
    and the distance is the initial 99999999, or the centre of a
    candidate among them is kept with its distance, which is below the
    initial one; and no candidate among them is strictly nearer. *)
Definition nearest_so_far (lat lon : float) (seen : list DocumentSnapshot)
    (minDistance : float) (closestPoint : option (gmap string float)) : Prop :=
  (closestPoint = None ∧ minDistance = 99999999%float
   ∨ (minDistance <? 99999999)%float = true
     ∧ ∃ d centerLat centerLon,
         d ∈ seen
         ∧ coast_candidate lat lon d = Some (centerLat, centerLon, minDistance)
         ∧ closestPoint = Some (<["lat" := centerLat]> (<["lon" := centerLon]> ∅)))
  ∧ ∀ d centerLat centerLon distance,
      d ∈ seen →
      coast_candidate lat lon d = Some (centerLat, centerLon, distance) →
      (distance <? minDistance)%float = false.

(** A landmark document lies in the latitude band of a bounding box. *)
Definition in_latitude_band (bounds : Bounds) (d : DocumentSnapshot) : bool :=
  match field_number d ["coordinates"; "lat"] with
  | Some v => (MinLat bounds <=? v)%float && (v <=? MaxLat bounds)%float
  | None => false
  end.

(** The location after one more tier: the first entity resolved in the
    tier, when there is one, is filed under the tier's type. *)
Definition located (c : Client) (lat lon : float) (location : gmap string Value)
    (tier : string * string) : gmap string Value :=
  match resolved c tier.1 lat lon with
  | [] => location
  | first :: _ => <[tier.2 := VMap first]> location
  end.

(** The group of a tier in a boundaries list: none when nothing is
    resolved in the tier. *)
Definition group (c : Client) (lat lon : float) (tier : string * string) : list Value :=
  match resolved c tier.1 lat lon with
  | [] => []
  | entities =>
      [VMap (<["type" := VString tier.2]> (<["entities" := VArray (VMap <$> entities)]> ∅))]
  end.

(** What boundaries/containing hands to the encoder for a point. *)
Definition containingBody (c : Client) (lat lon : float) : gmap string Value :=
  let boundaries := concat (group c lat lon <$> take 4 lookupTiers) in
  <["lat" := VDouble lat]>
  (<["lon" := VDouble lon]>
  (<["boundaries" := VArray boundaries]>
  (<["count" := VInt (Z.of_nat (length boundaries))]> ∅))).

(** What the location lookup hands to the encoder for a point. *)
Definition lookupBody (c : Client) (lat lon : float) : gmap string Value :=
  <["lat" := VDouble lat]>
  (<["lon" := VDouble lon]>
  (<["location" := VMap (foldl (located c lat lon) ∅ lookupTiers)]>
  (<["natural_earth_boundaries" := VArray (concat (group c lat lon <$> take 4 lookupTiers))]>
  (<["gadm_boundaries" := VArray (concat (group c lat lon <$> adminLevels))]>
  (<["total_boundaries" :=
       VInt (Z.of_nat (length (concat (group c lat lon <$> take 4 lookupTiers)))
             + Z.of_nat (length (concat (group c lat lon <$> adminLevels))))]> ∅))))).

End MoreVocabulary.

(* ================================================================== *)
(** ** Comparisons of binary64 numbers *)

Lemma SFcompare_antisym (a b : spec_float) (c : comparison) :
  SFcompare a b = Some c → SFcompare b a = Some (CompOpp c).
Proof.
  destruct a as [sa| sa | | sa ma ea], b as [sb | sb | | sb mb eb]; simpl;
    try discriminate; intros [= <-];
    repeat match goal with s : bool |- _ => destruct s end; simpl; try reflexivity.
  - rewrite (Z.compare_antisym ea eb). destruct (ea ?= eb)%Z; simpl; try reflexivity.
    rewrite (Pos.compare_cont_antisym ma mb Eq). reflexivity.
  - rewrite (Z.compare_antisym ea eb). destruct (ea ?= eb)%Z; simpl; try reflexivity.
    rewrite (Pos.compare_cont_antisym ma mb Eq). simpl. reflexivity.
Qed.

(** [x <= y] excludes [y < x]; with a NaN operand both are false. *)
Lemma leb_not_ltb (x y : float) : (x <=? y)%float = true → (y <? x)%float = false.
Proof.
  rewrite leb_spec, ltb_spec. unfold SFleb, SFltb.
  destruct (SFcompare (Prim2SF x) (Prim2SF y)) as [c|] eqn:E; [|discriminate].
  rewrite (SFcompare_antisym _ _ _ E). destruct c; simpl; congruence.
Qed.

Lemma SFcompare_refl (s : spec_float) : s ≠ S754_nan → SFcompare s s = Some Eq.
Proof.
  destruct s as [s|s| |s m e]; cbn; try congruence; intros _.
  - destruct s; reflexivity.
  - destruct s; rewrite Z.compare_refl; cbn;
      change (PosDef.Pos.compare_cont Eq m m) with (Pos.compare m m);
      rewrite Pos.compare_refl; reflexivity.
Qed.

Lemma Prim2SF_nan (x : float) : PrimFloat.is_nan x = true → Prim2SF x = S754_nan.
Proof.
  unfold PrimFloat.is_nan. rewrite FloatAxioms.eqb_spec. unfold SFeqb. intros Hn.
  destruct (Prim2SF x) as [s|s| |s m e] eqn:E; try reflexivity;
    rewrite SFcompare_refl in Hn by discriminate; discriminate.
Qed.

(** No number is below or above NaN. *)
Lemma leb_nan_r (x y : float) : PrimFloat.is_nan x = true → (y <=? x)%float = false.
Proof.
  intros Hn. rewrite leb_spec, (Prim2SF_nan _ Hn). unfold SFleb.
  destruct (Prim2SF y) as [s|s| |s m e]; try destruct s; reflexivity.
Qed.

Lemma leb_nan_l (x y : float) : PrimFloat.is_nan x = true → (x <=? y)%float = false.
Proof. intros Hn. rewrite leb_spec, (Prim2SF_nan _ Hn). reflexivity. Qed.

(* ================================================================== *)
(** ** Computations: what they return and what they send *)

Section Computations.
Context {A B : Type}.
Implicit Types (m : Go A) (k : A → Go B) (c : firestore.Client).

Lemma result_ret (a : A) c : result (ret a) c = Returned a.
Proof. reflexivity. Qed.

Lemma queries_ret (a : A) c : queries (ret a) c = [].
Proof. reflexivity. Qed.

Lemma result_bind m k c :
  result (bind m k) c =
  match result m c with
  | Returned a => result (k a) c
  | Panicked msg => Panicked msg
  end.
Proof.
  unfold result, bind. destruct (m c) as [[a|msg] t1]; simpl; [|reflexivity].
  destruct (k a c); reflexivity.
Qed.

Lemma queries_bind m k c :
  queries (bind m k) c =
  match result m c with
  | Returned a => queries m c ++ queries (k a) c
  | Panicked _ => queries m c
  end.
Proof.
  unfold result, queries, bind. destruct (m c) as [[a|msg] t1]; simpl; [|reflexivity].
  destruct (k a c); reflexivity.
Qed.

End Computations.

Lemma result_GetAll (q : firestore.Query) (c : firestore.Client) :
  result (Documents_GetAll q) c = Returned (firestore.GetAll c q).
Proof. reflexivity. Qed.

Lemma queries_GetAll (q : firestore.Query) (c : firestore.Client) :
  queries (Documents_GetAll q) c = [q].
Proof. reflexivity. Qed.

(** A query without a limit returns all the documents it selects. *)
Lemma GetAll_unlimited (c : firestore.Client) (q : firestore.Query) :
  firestore.MaxResults q = None →
  existsb firestore.refused (firestore.Filters q) = false →
  firestore.GetAll c q =
  match firestore.Faults c !! firestore.From q with
  | Some e => ([], Some e)
  | None => (filter (λ d, firestore.selects q d = true) (tier c (firestore.From q)), None)
  end.
Proof. unfold firestore.GetAll. intros -> ->. reflexivity. Qed.

Lemma result_lift {A : Type} (o : Outcome A) (c : firestore.Client) : result (lift o) c = o.
Proof. reflexivity. Qed.

Lemma queries_lift {A : Type} (o : Outcome A) (c : firestore.Client) : queries (lift o) c = [].
Proof. reflexivity. Qed.

(* ================================================================== *)
(** ** Query parameters (C10) *)

Section QueryParameters.
Context `{Packages}.

(** C10.  Parsing a numeric query parameter is total and yields a number,
    never an error response: when the parameter is absent, or its text
    does not parse as the expected type, the value is the default the
    caller supplied; otherwise it is the parsed number.  This holds for
    [getIntQueryParam] and for [getFloatQueryParam]. *)
Theorem query_param_falls_back_to_default
    (r : http.Request) (param : string) (defaultInt : Z) (defaultFloat : float) :
  (http.Query r !! param = None →
     getIntQueryParam r param defaultInt = defaultInt
     ∧ getFloatQueryParam r param defaultFloat = defaultFloat)
  ∧ (strconv_Atoi (http.Get r param) = None →
     getIntQueryParam r param defaultInt = defaultInt)
  ∧ (strconv_ParseFloat (http.Get r param) = None →
     getFloatQueryParam r param defaultFloat = defaultFloat)
  ∧ (∀ n, http.Get r param ≠ "" → strconv_Atoi (http.Get r param) = Some n →
     getIntQueryParam r param defaultInt = n)
  ∧ (∀ x, http.Get r param ≠ "" → strconv_ParseFloat (http.Get r param) = Some x →
     getFloatQueryParam r param defaultFloat = x).
Proof.
  unfold getIntQueryParam, getFloatQueryParam.
  split; [|split; [|split; [|split]]].
  - unfold http.Get. intros ->. split; reflexivity.
  - intros ->. destruct (String.eqb _ _); reflexivity.
  - intros ->. destruct (String.eqb _ _); reflexivity.
  - intros n Hne ->.
    destruct (String.eqb_spec (http.Get r param) ""); [contradiction|reflexivity].
  - intros x Hne ->.
    destruct (String.eqb_spec (http.Get r param) ""); [contradiction|reflexivity].
Qed.

(** A list endpoint with a [limit]: whatever the parameter holds, the
    handler sends its query, with the default limit of 50 when the
    parameter is absent or does not parse, and it never answers with a
    client error. *)
Lemma list_endpoint_uses_default_limit (r : http.Request) (c : firestore.Client) :
  queries (getSovereignStatesHandler r) c
  = [firestore.Limit (activeQuery "sovereign_states") (getIntQueryParam r "limit" 50)]
  ∧ (strconv_Atoi (http.Get r "limit") = None →
     queries (getSovereignStatesHandler r) c
     = [firestore.Limit (activeQuery "sovereign_states") 50])
  ∧ ∀ msg code,
      result (getSovereignStatesHandler r) c = Returned (http.Error msg code) →
      code = http.StatusInternalServerError.
Proof.
  assert (queries (getSovereignStatesHandler r) c
          = [firestore.Limit (activeQuery "sovereign_states")
               (getIntQueryParam r "limit" 50)]) as Hq.
  { unfold getSovereignStatesHandler. rewrite queries_bind, result_GetAll, queries_GetAll.
    destruct (firestore.GetAll c _) as [docs [err|]]; reflexivity. }
  split; [exact Hq|]. split.
  - intros Hparse. rewrite Hq. unfold getIntQueryParam. rewrite Hparse.
    by destruct (String.eqb _ _).
  - intros msg code. unfold getSovereignStatesHandler. rewrite result_bind, result_GetAll.
    destruct (firestore.GetAll c _) as [docs [err|]]; rewrite result_ret; congruence.
Qed.

End QueryParameters.

Section QueryParameterExamples.
Local Existing Instance fixture.packages.

(** The defaults of the list endpoints, on the fixture instance: no
    [limit], an unparsable [limit], a [limit] of 7. *)
Example limit_absent :
  getIntQueryParam (fixtures.request [] "") "limit" 50 = 50%Z.
Proof. reflexivity. Qed.

Example limit_unparsable :
  getIntQueryParam (fixtures.request [("limit", ["many"])] "") "limit" 50 = 50%Z.
Proof. reflexivity. Qed.

Example limit_given :
  getIntQueryParam (fixtures.request [("limit", ["7"])] "") "limit" 50 = 7%Z.
Proof. reflexivity. Qed.

Lemma query_param_falls_back_to_default_witness :
  getIntQueryParam (fixtures.request [("limit", ["many"])] "") "limit" 50 = 50%Z.
Proof.
  apply (proj1 (proj2 (query_param_falls_back_to_default
                         (fixtures.request [("limit", ["many"])] "") "limit" 50 0))).
  vm_compute. reflexivity.
Defined.

Example radius_unparsable :
  getFloatQueryParam (fixtures.request [("radius", ["1e3x"])] "") "radius" 1000 = 1000%float.
Proof. reflexivity. Qed.

End QueryParameterExamples.

(* ================================================================== *)
(** ** Grid resolution (C5) *)

(** C5.  The grid resolution is a function of the land flag and the
    distance to the coast alone: on land it is "1x1km"; off land it is
    "100x100km" when the distance is greater than 1000 km and "10x10km"
    when the distance is at most 1000 km. *)
Theorem grid_resolution_table (isLand : bool) (distanceToCoast : float) :
  (isLand = true → determineGridResolution isLand distanceToCoast = "1x1km")
  ∧ (isLand = false → (1000 <? distanceToCoast)%float = true →
     determineGridResolution isLand distanceToCoast = "100x100km")
  ∧ (isLand = false → (distanceToCoast <=? 1000)%float = true →
     determineGridResolution isLand distanceToCoast = "10x10km").
Proof.
  unfold determineGridResolution. split; [|split].
  - intros ->. reflexivity.
  - intros -> ->. reflexivity.
  - intros -> Hle. rewrite (leb_not_ltb _ _ Hle). reflexivity.
Qed.

Lemma grid_resolution_table_witness :
  determineGridResolution false 1000 = "10x10km".
Proof.
  apply (proj2 (proj2 (grid_resolution_table false 1000))); reflexivity.
Defined.

Example resolution_on_land : determineGridResolution true 2500 = "1x1km".
Proof. reflexivity. Qed.

Example resolution_deep_ocean : determineGridResolution false 1000.5 = "100x100km".
Proof. reflexivity. Qed.

Example resolution_at_1000 : determineGridResolution false 1000 = "10x10km".
Proof. reflexivity. Qed.

(* ================================================================== *)
(** ** The two-stage resolver (C1) *)

Section Resolver.
Context `{Packages}.
Import firestore.

Lemma filter_ext_elem_of {A : Type} (P Q : A → Prop)
    `{!∀ x, Decision (P x), !∀ x, Decision (Q x)} (l : list A) :
  (∀ x, x ∈ l → (P x ↔ Q x)) → filter P l = filter Q l.
Proof.
  induction l as [|a l IH]; intros Hext; [reflexivity|].
  assert (filter P l = filter Q l) as Htail.
  { apply IH. intros x Hx. apply Hext. by right. }
  pose proof (Hext a (list_elem_of_here a l)) as Ha.
  rewrite !filter_cons, Htail.
  destruct (decide (P a)) as [HP|HP], (decide (Q a)) as [HQ|HQ];
    try reflexivity; tauto.
Qed.

(** The filter on [is_active] selects the active documents. *)
Lemma matches_is_active (d : DocumentSnapshot) :
  matches d {| Path := "is_active"; Operator := OpEq; Operand := VBool true |} = is_active d.
Proof.
  unfold matches, is_active. cbn.
  destruct (Data d !! "is_active") as [[| [|] | | | | |]|]; reflexivity.
Qed.

Lemma matches_le (d : DocumentSnapshot) (a b : string) (x : float) :
  matches d {| Path := a +:+ "." +:+ b; Operator := OpLe; Operand := VDouble x |} =
  match field_number d (split_path (a +:+ "." +:+ b)) with
  | Some v => (v <=? x)%float
  | None => false
  end.
Proof.
  unfold matches, field_number. cbn [Path Operator Operand].
  destruct (lookup_path _ _) as [v|]; [|reflexivity].
  unfold satisfies. cbn. destruct (number v); reflexivity.
Qed.

Lemma matches_ge (d : DocumentSnapshot) (a b : string) (x : float) :
  matches d {| Path := a +:+ "." +:+ b; Operator := OpGe; Operand := VDouble x |} =
  match field_number d (split_path (a +:+ "." +:+ b)) with
  | Some v => (x <=? v)%float
  | None => false
  end.
Proof.
  unfold matches, field_number. cbn [Path Operator Operand].
  destruct (lookup_path _ _) as [v|]; [|reflexivity].
  unfold satisfies. cbn. destruct (number v); reflexivity.
Qed.

(** Stage 1 selects the active documents whose bounds rectangle holds the
    point. *)
Lemma selects_boundsQuery (collection : string) (lat lon : float) (d : DocumentSnapshot) :
  selects (boundsQuery collection lat lon) d = is_active d && bounds_contain lat lon d.
Proof.
  unfold selects, boundsQuery, Where, Collection. cbn [Filters From app forallb].
  rewrite matches_is_active.
  rewrite (matches_le d "bounds" "min_lat"), (matches_ge d "bounds" "max_lat"),
    (matches_le d "bounds" "min_lon"), (matches_ge d "bounds" "max_lon").
  unfold bounds_contain.
  change (split_path ("bounds" +:+ "." +:+ "min_lat")) with ["bounds"; "min_lat"].
  change (split_path ("bounds" +:+ "." +:+ "max_lat")) with ["bounds"; "max_lat"].
  change (split_path ("bounds" +:+ "." +:+ "min_lon")) with ["bounds"; "min_lon"].
  change (split_path ("bounds" +:+ "." +:+ "max_lon")) with ["bounds"; "max_lon"].
  destruct (field_number d ["bounds"; "min_lat"]) as [a|],
    (field_number d ["bounds"; "max_lat"]) as [b|],
    (field_number d ["bounds"; "min_lon"]) as [a'|],
    (field_number d ["bounds"; "max_lon"]) as [b'|];
    rewrite ?andb_true_r, ?andb_false_r, ?andb_assoc; reflexivity.
Qed.

(** The exact stage of the code is the kernel of the specification:
    [isPointInGeometry] answers [contains(parse(text), lon, lat)], and
    [false] for a text that does not parse. *)
Lemma isPointInGeometry_contains (lat lon : float) (geometryJSON : string) :
  isPointInGeometry lat lon geometryJSON =
  match parse geometryJSON with
  | Some geometry => bool_decide (contains geometry lon lat)
  | None => false
  end.
Proof.
  unfold isPointInGeometry, parse, contains.
  destruct (String.eqb_spec geometryJSON "") as [->|Hne].
  - by rewrite bool_decide_eq_true_2.
  - rewrite bool_decide_eq_false_2 by done.
    destruct (geojson_UnmarshalGeometry geometryJSON) as [[polygon|polygons|other]|];
      try reflexivity.
    + destruct (planar_PolygonContains polygon (lon, lat)) eqn:Hin; symmetry.
      * apply bool_decide_eq_true_2. by constructor.
      * apply bool_decide_eq_false_2. intros [Hp|[]%Exists_nil]%Exists_cons. congruence.
    + induction polygons as [|polygon polygons IH]; cbn [existsb].
      * symmetry. apply bool_decide_eq_false_2. by intros ?%Exists_nil.
      * destruct (planar_PolygonContains polygon (lon, lat)) eqn:Hin; cbn [orb].
        -- symmetry. apply bool_decide_eq_true_2. by constructor.
        -- rewrite IH. apply bool_decide_ext. rewrite Exists_cons. split; [tauto|].
           intros [?|?]; [congruence|done].
Qed.

Lemma pointInPolygonLoop_cons (lat lon : float) (doc : DocumentSnapshot)
    (docs : list DocumentSnapshot) (results : list (gmap string Value)) :
  pointInPolygonLoop lat lon (doc :: docs) results =
  pointInPolygonLoop lat lon docs
    (if geometry_contains lat lon doc then results ++ [Data doc] else results).
Proof.
  cbn [pointInPolygonLoop]. unfold geometry_contains.
  destruct (assert_string (Data doc !! "geometry")) as [g|]; [|reflexivity].
  rewrite <- isPointInGeometry_contains.
  destruct (String.eqb_spec g "") as [->|Hne]; cbn [negb andb].
  - unfold isPointInGeometry. reflexivity.
  - by destruct (isPointInGeometry lat lon g).
Qed.

(** Stage 2 keeps, in order, the candidates whose geometry contains the
    point. *)
Lemma pointInPolygonLoop_filter (lat lon : float) (docs : list DocumentSnapshot)
    (results : list (gmap string Value)) :
  pointInPolygonLoop lat lon docs results =
  results ++ (Data <$> filter (λ d, geometry_contains lat lon d = true) docs).
Proof.
  revert results. induction docs as [|doc docs IH]; intros results.
  - cbn [pointInPolygonLoop]. by rewrite filter_nil, app_nil_r.
  - rewrite pointInPolygonLoop_cons, IH, filter_cons.
    destruct (geometry_contains lat lon doc) eqn:Hin.
    + rewrite decide_True by done. by rewrite fmap_cons, <- app_assoc.
    + rewrite decide_False by done. reflexivity.
Qed.

Lemma selects_activeQuery (collection : string) (d : DocumentSnapshot) :
  selects (activeQuery collection) d = is_active d.
Proof.
  unfold selects, activeQuery, Where, Collection. cbn [Filters From app forallb].
  by rewrite matches_is_active, andb_true_r.
Qed.

Lemma GetAll_activeQuery (c : Client) (collection : string) :
  GetAll c (activeQuery collection) =
  match Faults c !! collection with
  | Some err => ([], Some err)
  | None => (active c collection, None)
  end.
Proof.
  rewrite GetAll_unlimited by reflexivity.
  change (From (activeQuery collection)) with collection.
  destruct (Faults c !! collection); [reflexivity|].
  f_equal. apply list_filter_iff. intros d. by rewrite selects_activeQuery.
Qed.

(** The client refuses the bounds query exactly at a NaN coordinate,
    and no bounds rectangle holds such a point. *)
Lemma refused_boundsQuery (collection : string) (lat lon : float) :
  existsb refused (Filters (boundsQuery collection lat lon))
  = PrimFloat.is_nan lat || PrimFloat.is_nan lon.
Proof. cbn. by destruct (PrimFloat.is_nan lat), (PrimFloat.is_nan lon). Qed.

Lemma bounds_contain_nan (lat lon : float) (d : DocumentSnapshot) :
  PrimFloat.is_nan lat || PrimFloat.is_nan lon = true → bounds_contain lat lon d = false.
Proof.
  intros Hnan. unfold bounds_contain.
  destruct (field_number d ["bounds"; "min_lat"]) as [a|]; [|reflexivity].
  destruct (field_number d ["bounds"; "max_lat"]) as [b|]; [|reflexivity].
  destruct (field_number d ["bounds"; "min_lon"]) as [a'|]; [|reflexivity].
  destruct (field_number d ["bounds"; "max_lon"]) as [b'|]; [|reflexivity].
  apply orb_true_iff in Hnan as [Hlat|Hlon].
  - by rewrite (leb_nan_r lat a Hlat).
  - rewrite (leb_nan_r lon a' Hlon). by rewrite andb_false_r.
Qed.

Lemma filter_none {A : Type} (P : A → Prop) `{!∀ x, Decision (P x)} (l : list A) :
  (∀ x, ¬ P x) → filter P l = [].
Proof.
  intros Hnone. induction l as [|a l IH]; [reflexivity|].
  rewrite filter_cons, IH. by rewrite decide_False.
Qed.

(** What [findContainingEntities] returns, whatever the store holds: the
    active documents whose bounds rectangle holds the point and whose
    geometry contains it; nothing when the query fails. *)
Lemma findContainingEntities_result (c : Client) (collection : string) (lat lon : float) :
  result (findContainingEntities collection lat lon) c =
  Returned
    (match Faults c !! collection with
     | Some _ => []
     | None =>
         Data <$> filter (λ d, is_active d = true ∧ bounds_contain lat lon d = true
                               ∧ geometry_contains lat lon d = true)
                         (tier c collection)
     end).
Proof.
  unfold findContainingEntities. rewrite result_bind, result_GetAll.
  destruct (existsb refused (Filters (boundsQuery collection lat lon))) eqn:Hrefused.
  - unfold GetAll. rewrite Hrefused, result_ret. f_equal.
    destruct (Faults c !! collection) as [e|]; [reflexivity|].
    rewrite refused_boundsQuery in Hrefused. rewrite filter_none; [reflexivity|].
    intros d (_ & Hin & _). by rewrite bounds_contain_nan in Hin.
  - rewrite GetAll_unlimited by done.
    change (From (boundsQuery collection lat lon)) with collection.
    destruct (Faults c !! collection) as [e|]; [reflexivity|].
    rewrite result_ret, pointInPolygonLoop_filter, app_nil_l, list_filter_filter.
    do 2 f_equal.
    apply list_filter_iff. intros d. rewrite selects_boundsQuery, andb_true_iff. tauto.
Qed.

(** The bounds index never adds a match: every entity returned is an
    active document of the tier whose geometry contains the point. *)
Lemma bounds_index_only_filters (c : Client) (collection : string) (lat lon : float)
    (entities : list (gmap string Value)) (entity : gmap string Value) :
  result (findContainingEntities collection lat lon) c = Returned entities →
  entity ∈ entities →
  entity ∈ containing (tier c collection) lat lon.
Proof.
  rewrite findContainingEntities_result. intros [= <-].
  destruct (Faults c !! collection); [by intros ?%elem_of_nil|].
  unfold containing. rewrite !list_elem_of_fmap.
  intros (d & -> & Hd). exists d. split; [reflexivity|].
  apply list_elem_of_filter in Hd. apply list_elem_of_filter. tauto.
Qed.

(** C1.  For every point and every tier collection whose query the store
    answers, and whose bounds are conservative at the point (no active
    document's geometry contains the point outside its bounds rectangle:
    the data invariant the two-stage design rests on), the entities the
    two-stage resolver returns are exactly the active documents of the
    tier whose geometry contains the point, in the order of the tier.
    Containment is the specification's ([parse], [contains]): the
    geometry text parses to a Polygon or a MultiPolygon and one of its
    polygons contains the point (lon, lat).  That the exact stage of the
    code computes it is [isPointInGeometry_contains], on which the proof
    rests. *)
Theorem two_stage_resolver_exact (c : Client) (collection : string) (lat lon : float) :
  Faults c !! collection = None →
  bounds_conservative (tier c collection) lat lon →
  result (findContainingEntities collection lat lon) c =
  Returned (containing (tier c collection) lat lon).
Proof.
  intros Hup Hcons. rewrite findContainingEntities_result, Hup.
  unfold containing. do 2 f_equal.
  apply filter_ext_elem_of. intros d Hd. split.
  - tauto.
  - intros [Hact Hgeo]. split; [done|]. split; [|done]. by apply Hcons.
Qed.

End Resolver.

Section ResolverExamples.
Local Existing Instance fixture.packages.
Import firestore fixtures.

Lemma two_stage_resolver_exact_witness :
  result (findContainingEntities "countries" 1 1) coastalStore =
  Returned (containing (tier coastalStore "countries") 1 1).
Proof.
  apply two_stage_resolver_exact.
  - vm_compute. reflexivity.
  - intros d Hd Hactive Hgeometry.
    change (tier coastalStore "countries") with [triangleDoc; inactiveDoc; squareDoc] in Hd.
    repeat (apply elem_of_cons in Hd as [->|Hd]).
    + vm_compute. reflexivity.
    + vm_compute in Hactive. discriminate Hactive.
    + vm_compute in Hgeometry. discriminate Hgeometry.
    + by apply elem_of_nil in Hd.
Defined.

(** At (1, 1) the resolver returns the triangle and nothing else: the
    retired copy is inactive, the square is elsewhere. *)
Example resolver_finds_triangle :
  result (findContainingEntities "countries" 1 1) coastalStore =
  Returned [Data triangleDoc].
Proof. vm_compute. reflexivity. Qed.

(** (3, 3) is inside the bounds of the triangle and outside the triangle:
    a candidate of stage 1 that stage 2 drops. *)
Example resolver_drops_candidate :
  selects (boundsQuery "countries" 3 3) triangleDoc = true
  ∧ result (findContainingEntities "countries" 3 3) coastalStore = Returned [].
Proof. split; vm_compute; reflexivity. Qed.

(** Where the bounds are smaller than the geometry, the resolver misses
    the document; where the store fails, it returns no entity. *)
Example resolver_needs_conservative_bounds :
  result (findContainingEntities "countries" 1 1) misboundedStore = Returned []
  ∧ containing (tier misboundedStore "countries") 1 1 = [Data misboundedDoc].
Proof. split; vm_compute; reflexivity. Qed.

Example resolver_on_failing_store :
  result (findContainingEntities "countries" 1 1) downStore = Returned []
  ∧ containing (tier downStore "countries") 1 1 = [Data triangleDoc].
Proof. split; vm_compute; reflexivity. Qed.

End ResolverExamples.

(* ================================================================== *)
(** ** The land test (C2) *)

Section LandTest.
Import firestore.

(** [isPointOnLand] never panics and sends one query. *)
Lemma result_isPointOnLand (lat lon : float) (c : Client) :
  result (isPointOnLand lat lon) c =
  Returned (match Faults c !! "land_polygons" with
            | Some err => (false, Some err)
            | None => (onLandLoop lat lon (active c "land_polygons"), None)
            end).
Proof.
  unfold isPointOnLand. rewrite result_bind, result_GetAll, GetAll_activeQuery.
  destruct (Faults c !! "land_polygons"); reflexivity.
Qed.

(** The land test reads no geometry: a document whose geometry is any
    text at all answers for every point of its bounds rectangle. *)
Lemma onLandLoop_bounds_only (lat lon minLat maxLat minLon maxLon : float)
    (doc : DocumentSnapshot) (docs : list DocumentSnapshot)
    (geometryJSON : string) (bounds : gmap string Value) :
  Data doc !! "geometry" = Some (VString geometryJSON) →
  Data doc !! "bounds" = Some (VMap bounds) →
  bounds !! "min_lat" = Some (VDouble minLat) →
  bounds !! "max_lat" = Some (VDouble maxLat) →
  bounds !! "min_lon" = Some (VDouble minLon) →
  bounds !! "max_lon" = Some (VDouble maxLon) →
  (minLat <=? lat)%float = true → (lat <=? maxLat)%float = true →
  (minLon <=? lon)%float = true → (lon <=? maxLon)%float = true →
  onLandLoop lat lon (doc :: docs) = true.
Proof.
  intros Hg Hb H1 H2 H3 H4 L1 L2 L3 L4. cbn [onLandLoop].
  rewrite Hg, Hb. cbn [assert_string assert_map].
  rewrite H1, H2, H3, H4. unfold float64_or_zero, default, id. cbn [assert_float64].
  rewrite L1, L2, L3, L4. reflexivity.
Qed.

End LandTest.

Section LandTestExamples.
Local Existing Instance fixture.packages.
Import firestore fixtures.

(** C2, at a failing input.  The claim holds that the land test answers
    [true] exactly when an active land polygon's geometry contains the
    point.  With the triangle (0,0), (4,0), (0,4) as the one land polygon,
    the point (3, 3) lies in its bounding square and outside the triangle:
    no land polygon contains it, and [isPointOnLand] answers [true]. *)
Theorem land_test_answers_for_bounding_box :
  containing (tier coastalStore "land_polygons") 3 3 = []
  ∧ result (isPointOnLand 3 3) coastalStore = Returned (true, None).
Proof. split; vm_compute; reflexivity. Qed.

(** Inside the triangle both agree. *)
Example land_test_inside_triangle :
  containing (tier coastalStore "land_polygons") 1 1 = [Data triangleDoc]
  ∧ result (isPointOnLand 1 1) coastalStore = Returned (true, None).
Proof. split; vm_compute; reflexivity. Qed.

End LandTestExamples.

(* ================================================================== *)
(** ** Single-point classification (C9) *)

Section Classifier.
Context `{Packages}.
Import firestore.

(** [classifyPoint] by cases on its two calls. *)
Lemma result_classifyPoint (lat lon : float) (c : Client) :
  result (classifyPoint lat lon) c =
  match result (isPointOnLand lat lon) c with
  | Panicked msg => Panicked msg
  | Returned (isLand, landErr) =>
      match result (calculateDistanceToCoast lat lon) c with
      | Panicked msg => Panicked msg
      | Returned (distanceToCoast, _, coastErr) =>
          Returned
            match landErr, coastErr with
            | Some _, Some err => (false, 0%float, Some err)
            | Some _, None => ((distanceToCoast <? 1.0)%float, distanceToCoast, None)
            | None, Some _ => (isLand, 10.0%float, None)
            | None, None => (isLand, distanceToCoast, None)
            end
      end
  end.
Proof.
  unfold classifyPoint. rewrite result_bind.
  destruct (result (isPointOnLand lat lon) c) as [[isLand [landErr|]]|msg];
    [| |reflexivity]; rewrite result_bind;
    destruct (result (calculateDistanceToCoast lat lon) c) as [[[d p] [coastErr|]]|msg];
    reflexivity.
Qed.

(** C9.  In single-point classification, when the land-polygon test
    succeeds and the distance-to-coast computation fails, the error is
    not propagated: [classifyPoint] returns the land verdict with the
    distance 10.0 and a nil error, and the classify endpoint answers 200
    with that distance.  So an error of [classifyPoint] (no coast data
    among them) is always the error of the distance computation made
    after the land-polygon test has failed too. *)
Theorem coast_failure_hidden_by_land_verdict (lat lon : float) (c : Client) :
  (∀ isLand distance nearest err,
     result (isPointOnLand lat lon) c = Returned (isLand, None) →
     result (calculateDistanceToCoast lat lon) c = Returned (distance, nearest, Some err) →
     result (classifyPoint lat lon) c = Returned (isLand, 10.0%float, None)
     ∧ ∀ r, http.Get r "lat" ≠ "" → http.Get r "lon" ≠ "" →
         strconv_ParseFloat (http.Get r "lat") = Some lat →
         strconv_ParseFloat (http.Get r "lon") = Some lon →
         outOfRange lat lon = false →
         ∃ body, result (classifyPointHandler r) c = Returned (http.JSON (VMap body))
                 ∧ body !! "result" = Some (classifiedEntry isLand 10.0))
  ∧ (∀ isLand distance err,
     result (classifyPoint lat lon) c = Returned (isLand, distance, Some err) →
     (∃ landErr, result (isPointOnLand lat lon) c = Returned (false, Some landErr))
     ∧ ∃ d nearest,
         result (calculateDistanceToCoast lat lon) c = Returned (d, nearest, Some err)).
Proof.
  split.
  - intros isLand distance nearest err Hland Hcoast.
    assert (result (classifyPoint lat lon) c = Returned (isLand, 10.0%float, None)) as Hc.
    { rewrite result_classifyPoint, Hland, Hcoast. reflexivity. }
    split; [exact Hc|].
    intros r Hlat Hlon Plat Plon Hrange. unfold classifyPointHandler.
    destruct (String.eqb_spec (http.Get r "lat") ""); [contradiction|].
    destruct (String.eqb_spec (http.Get r "lon") ""); [contradiction|].
    cbn [orb]. rewrite Plat, Plon, Hrange, result_bind, Hc, result_ret.
    eexists. split; [reflexivity|].
    rewrite lookup_insert_ne by done. rewrite lookup_insert_ne by done.
    rewrite lookup_insert_eq. reflexivity.
  - intros isLand distance err. rewrite result_classifyPoint, result_isPointOnLand.
    destruct (Faults c !! "land_polygons") as [landErr|];
      destruct (result (calculateDistanceToCoast lat lon) c)
        as [[[d nearest] [coastErr|]]|msg]; try discriminate.
    intros [= <- <- <-]. split; [by exists landErr|]. by exists d, nearest.
Qed.

End Classifier.

Section ClassifierExamples.
Local Existing Instance fixture.packages.
Import firestore fixtures.

Lemma coast_failure_hidden_by_land_verdict_witness :
  result (classifyPoint 1 1) noCoastStore = Returned (true, 10.0%float, None).
Proof.
  apply (proj1 (proj1 (coast_failure_hidden_by_land_verdict 1 1 noCoastStore)
                  true 0%float None "no coastlines found" eq_refl eq_refl)).
Defined.

(** The corners of the valid range are in range. *)
Example corners_in_range :
  outOfRange 90 180 = false ∧ outOfRange (-90) (-180) = false.
Proof. split; reflexivity. Qed.

(** Land polygons without any coastline: the land verdict, 10 km. *)
Example classify_without_coast :
  result (isPointOnLand 1 1) noCoastStore = Returned (true, None)
  ∧ result (calculateDistanceToCoast 1 1) noCoastStore
    = Returned (0%float, None, Some "no coastlines found")
  ∧ result (classifyPoint 1 1) noCoastStore = Returned (true, 10.0%float, None).
Proof. repeat split; vm_compute; reflexivity. Qed.

(** Neither land polygons nor coastlines: the error surfaces. *)
Example classify_without_land_or_coast :
  result (isPointOnLand 1 1) noLandNoCoastStore = Returned (false, Some "unavailable")
  ∧ result (classifyPoint 1 1) noLandNoCoastStore
    = Returned (false, 0%float, Some "no coastlines found")
  ∧ ∃ msg, result (classifyPointHandler (request [("lat", ["1"]); ("lon", ["1"])] ""))
             noLandNoCoastStore
           = Returned (http.Error msg http.StatusInternalServerError).
Proof.
  split; [|split]; [vm_compute; reflexivity..|].
  eexists. vm_compute. reflexivity.
Qed.

End ClassifierExamples.

(* ================================================================== *)
(** ** Bulk enrichment: order (C4) *)

Section BatchLookup.
Context `{Packages}.
Import firestore.

(** The mock boundaries all carry a name and a resolution: the loop over
    them does not panic. *)
Lemma tagsLoop_mock_returns (lat lon : float) :
  ∃ boundaryTags resolution,
    tagsLoop (getMockBoundariesForPoint lat lon) [] "1km"
    = Returned (boundaryTags, resolution).
Proof.
  unfold getMockBoundariesForPoint.
  repeat match goal with
         | |- context [if ?b then _ else _] => destruct b
         end;
    do 2 eexists; vm_compute; reflexivity.
Qed.

(** One point: its enrichment carries its square id. *)
Lemma enrichPoint_returns (point : PointLookup) :
  ∃ result, enrichPoint point = Returned result ∧ se_SquareID result = SquareID point.
Proof.
  unfold enrichPoint.
  destruct (tagsLoop_mock_returns (Lat point) (Lon point)) as (tags & res & ->).
  cbn [obind]. eexists. split; reflexivity.
Qed.

(** The loop appends one enrichment per point, in the order of the
    points. *)
Lemma batchLookupLoop_returns (points : list PointLookup) (results : list SquareEnrichment) :
  ∃ added, batchLookupLoop points results = Returned (results ++ added)
           ∧ se_SquareID <$> added = SquareID <$> points.
Proof.
  revert results. induction points as [|point points IH]; intros results.
  - exists []. cbn. by rewrite app_nil_r.
  - cbn [batchLookupLoop].
    destruct (enrichPoint_returns point) as (result & -> & Hid). cbn [obind].
    destruct (IH (results ++ [result])) as (added & -> & Hids).
    exists (result :: added). split.
    + by rewrite <- app_assoc.
    + rewrite !fmap_cons. by rewrite Hid, Hids.
Qed.

(** A body that decodes is answered with one result per point. *)
Lemma batch_lookup_order_aux
    (r : http.Request) (c : Client) (request : BatchLookupRequest) :
  json_Decode_BatchLookupRequest (http.Body r) = Some request →
  ∃ response,
    result (batchLookupBoundariesHandler r) c = Returned (http.JSON response)
    ∧ length (Results response) = length (Points request).
Proof.
  intros Hdecode. unfold batchLookupBoundariesHandler. rewrite Hdecode.
  destruct (batchLookupLoop_returns (Points request) []) as (added & Hloop & Hids).
  rewrite result_bind, result_lift, Hloop, result_ret, app_nil_l.
  exists {| Results := added |}. split; [reflexivity|]. cbn [Results].
  by rewrite <- (length_fmap se_SquareID), Hids, length_fmap.
Qed.

(** C4.  For every list of points that the body of a batch-lookup request
    decodes to, the response carries a list of results of the same
    length, and the result at every index has the square id of the point
    at that index. *)
Theorem batch_lookup_preserves_order
    (r : http.Request) (c : Client) (request : BatchLookupRequest) :
  json_Decode_BatchLookupRequest (http.Body r) = Some request →
  ∃ response,
    result (batchLookupBoundariesHandler r) c = Returned (http.JSON response)
    ∧ length (Results response) = length (Points request)
    ∧ ∀ i point, Points request !! i = Some point →
        se_SquareID <$> (Results response !! i) = Some (SquareID point).
Proof.
  intros Hdecode. unfold batchLookupBoundariesHandler. rewrite Hdecode.
  destruct (batchLookupLoop_returns (Points request) []) as (added & Hloop & Hids).
  rewrite result_bind, result_lift, Hloop, result_ret, app_nil_l.
  exists {| Results := added |}. cbn [Results]. split; [reflexivity|]. split.
  - by rewrite <- (length_fmap se_SquareID), Hids, length_fmap.
  - intros i point Hi. rewrite <- list_lookup_fmap, Hids, list_lookup_fmap, Hi. reflexivity.
Qed.

End BatchLookup.

Section BatchLookupExamples.
Local Existing Instance fixture.packages.
Import firestore fixtures.

Lemma batch_lookup_preserves_order_witness :
  ∃ response,
    result (batchLookupBoundariesHandler (request [] "41,-74,sq_a;48,2,sq_b")) coastalStore
    = Returned (http.JSON response)
    ∧ length (Results response) = 2
    ∧ ∀ i point,
        [ {| Lat := 41; Lon := -74; SquareID := "sq_a" |};
          {| Lat := 48; Lon := 2; SquareID := "sq_b" |} ] !! i = Some point →
        se_SquareID <$> (Results response !! i) = Some (SquareID point).
Proof.
  apply (batch_lookup_preserves_order (request [] "41,-74,sq_a;48,2,sq_b") coastalStore
           {| Points := [ {| Lat := 41; Lon := -74; SquareID := "sq_a" |};
                          {| Lat := 48; Lon := 2; SquareID := "sq_b" |} ] |}).
  vm_compute. reflexivity.
Defined.

(** New York and Paris: the tags and the resolution of the mock
    boundaries, in input order. *)
Example batch_lookup_two_squares :
  result (batchLookupBoundariesHandler (request [] "41,-74,sq_a;48,2,sq_b")) coastalStore
  = Returned (http.JSON {| Results :=
      [ {| se_SquareID := "sq_a"; BoundaryTags := ["united states"; "new york"];
           Resolution := "100m"; LandmarksNearby := [] |};
        {| se_SquareID := "sq_b"; BoundaryTags := [];
           Resolution := "1km"; LandmarksNearby := [] |} ] |}).
Proof. vm_compute. reflexivity. Qed.

Example batch_lookup_bad_body :
  result (batchLookupBoundariesHandler (request [] "41,-74")) coastalStore
  = Returned (http.Error "Invalid request body" http.StatusBadRequest).
Proof. vm_compute. reflexivity. Qed.

End BatchLookupExamples.

(* ================================================================== *)
(** ** Coordinates on the resolver endpoint (C6) *)

Section Containing.
Context `{Packages}.
Import firestore.

(** The resolver sends its one query and returns, whatever the store
    answers. *)
Lemma findContainingEntities_run (c : Client) (collection : string) (lat lon : float) :
  ∃ entities,
    findContainingEntities collection lat lon c
    = (Returned entities, [boundsQuery collection lat lon]).
Proof.
  unfold findContainingEntities, bind, Documents_GetAll, ret.
  destruct (GetAll c (boundsQuery collection lat lon)) as [docs [err|]];
    eexists; reflexivity.
Qed.

Lemma bind_run {A B : Type} (m : Go A) (k : A → Go B) (c : Client)
    (a : A) (sent : list Query) :
  m c = (Returned a, sent) →
  bind m k c = (fst (k a c), sent ++ snd (k a c)).
Proof. unfold bind. intros ->. destruct (k a c); reflexivity. Qed.

(** C6, as amended.  On the boundaries/containing endpoint a latitude or
    longitude that is missing or does not parse as a number fails with
    status 400 and no resolution is performed (no query is sent).  A pair
    that parses is resolved whatever its values, in range or out of
    range: the four tier queries are sent and the response is a 200 JSON
    body. *)
Theorem containing_rejects_unparsable_only (r : http.Request) (c : Client) :
  (strconv_ParseFloat (http.Get r "lat") = None
   ∨ strconv_ParseFloat (http.Get r "lon") = None →
     (∃ msg, result (getBoundariesContainingHandler r) c
             = Returned (http.Error msg http.StatusBadRequest))
     ∧ queries (getBoundariesContainingHandler r) c = [])
  ∧ (∀ lat lon,
       strconv_ParseFloat (http.Get r "lat") = Some lat →
       strconv_ParseFloat (http.Get r "lon") = Some lon →
       (∃ body, result (getBoundariesContainingHandler r) c = Returned (http.JSON body))
       ∧ queries (getBoundariesContainingHandler r) c = tierQueries lat lon).
Proof.
  unfold getBoundariesContainingHandler. split.
  - intros [Hlat|Hlon].
    + rewrite Hlat. split; [eexists|]; reflexivity.
    + rewrite Hlon. destruct (strconv_ParseFloat (http.Get r "lat"));
        (split; [eexists|]; reflexivity).
  - intros lat lon -> ->. unfold result, queries.
    destruct (findContainingEntities_run c "sovereign_states" lat lon) as [states Hs].
    destruct (findContainingEntities_run c "countries" lat lon) as [countries Hc].
    destruct (findContainingEntities_run c "map_units" lat lon) as [units Hu].
    destruct (findContainingEntities_run c "map_subunits" lat lon) as [subunits Hsu].
    rewrite (bind_run _ _ _ _ _ Hs), (bind_run _ _ _ _ _ Hc),
      (bind_run _ _ _ _ _ Hu), (bind_run _ _ _ _ _ Hsu).
    cbn [fst snd ret]. split; [eexists|]; reflexivity.
Qed.

End Containing.

Section ContainingExamples.
Local Existing Instance fixture.packages.
Import firestore fixtures.

(** C6 fails as stated: latitude 91 is outside [-90, 90], and the
    request is answered 200 after the four tiers were queried. *)
Lemma containing_resolves_out_of_range :
  outOfRange 91 1 = true
  ∧ result (getBoundariesContainingHandler (request [("lat", ["91"]); ("lon", ["1"])] ""))
      coastalStore
    = Returned (http.JSON (VMap
        (<["lat" := VDouble 91]>
        (<["lon" := VDouble 1]>
        (<["boundaries" := VArray []]>
        (<["count" := VInt 0]> ∅))))))
  ∧ queries (getBoundariesContainingHandler (request [("lat", ["91"]); ("lon", ["1"])] ""))
      coastalStore
    = tierQueries 91 1.
Proof. repeat split; vm_compute; reflexivity. Qed.

Lemma containing_rejects_unparsable_only_witness :
  (∃ body,
     result (getBoundariesContainingHandler (request [("lat", ["abc"]); ("lon", ["1"])] ""))
       coastalStore
     = Returned (http.Error body http.StatusBadRequest))
  ∧ queries (getBoundariesContainingHandler (request [("lat", ["abc"]); ("lon", ["1"])] ""))
      coastalStore = [].
Proof.
  apply (proj1 (containing_rejects_unparsable_only
                  (request [("lat", ["abc"]); ("lon", ["1"])] "") coastalStore)).
  left. vm_compute. reflexivity.
Defined.

(** The classify endpoint, beside it, makes the range check. *)
Example classify_rejects_out_of_range :
  (classifyPointHandler (request [("lat", ["91"]); ("lon", ["1"])] "")) coastalStore
  = (Returned (http.Error "Coordinates out of valid range" http.StatusBadRequest), []).
Proof. vm_compute. reflexivity. Qed.

Example containing_rejects_missing_lat :
  (getBoundariesContainingHandler (request [("lon", ["1"])] "")) coastalStore
  = (Returned (http.Error "Invalid lat parameter" http.StatusBadRequest), []).
Proof. vm_compute. reflexivity. Qed.

Example containing_resolves_in_range :
  result (getBoundariesContainingHandler (request [("lat", ["1"]); ("lon", ["1"])] ""))
    coastalStore
  = Returned (http.JSON (VMap
      (<["lat" := VDouble 1]>
      (<["lon" := VDouble 1]>
      (<["boundaries" := VArray
           [VMap (<["type" := VString "country"]>
                 (<["entities" := VArray [VMap (Data triangleDoc)]]> ∅))]]>
      (<["count" := VInt 1]> ∅)))))).
Proof. vm_compute. reflexivity. Qed.

End ContainingExamples.

(* ================================================================== *)
(** ** Batch classification: the cap and the entries (C7, C3) *)

Section BatchClassify.
Context `{Packages}.
Import firestore.

(** The entry of one point. *)
Lemma classifyEntry_outcome (point : ClassifyPoint) (c : Client) :
  match result (classifyEntry point) c with
  | Returned entry => entry_for c point entry
  | Panicked _ => classification_panics c point
  end.
Proof.
  unfold classifyEntry, entry_for, classification_panics.
  destruct (outOfRange (cp_Lat point) (cp_Lon point)); [reflexivity|].
  rewrite result_bind.
  destruct (result (classifyPoint (cp_Lat point) (cp_Lon point)) c)
    as [[[isLand d] [err|]]|msg]; cbn; eauto.
Qed.

(** The loop appends one entry per point, in the order of the points,
    unless the classification of a point panics. *)
Lemma batchClassifyLoop_outcome (points : list ClassifyPoint) (results : list Value)
    (c : Client) :
  match result (batchClassifyLoop points results) c with
  | Returned all =>
      ∃ entries, all = results ++ entries ∧ Forall2 (entry_for c) points entries
  | Panicked _ => ∃ point, point ∈ points ∧ classification_panics c point
  end.
Proof.
  revert results. induction points as [|point points IH]; intros results.
  - cbn. exists []. by rewrite app_nil_r.
  - cbn [batchClassifyLoop]. rewrite result_bind.
    pose proof (classifyEntry_outcome point c) as Hentry.
    destruct (result (classifyEntry point) c) as [entry|msg].
    + specialize (IH (results ++ [entry])).
      destruct (result (batchClassifyLoop points (results ++ [entry])) c) as [all|msg].
      * destruct IH as (entries & -> & Hall). exists (entry :: entries).
        split; [by rewrite <- app_assoc|]. by constructor.
      * destruct IH as (p & Hp & Hpanic). exists p. split; [by right|done].
    + exists point. split; [by left|done].
Qed.

(** A batch within the cap: the response is 200 with one entry per
    point, unless a classification panics. *)
Lemma batchClassifyHandler_within_cap
    (r : http.Request) (c : Client) (request : BatchClassifyRequest) :
  json_Decode_BatchClassifyRequest (http.Body r) = Some request →
  0 < length (cp_Points request) ≤ 1000 →
  match result (batchClassifyHandler r) c with
  | Returned (http.JSON body) =>
      Forall2 (entry_for c) (cp_Points request) (results_of body)
  | Returned (http.Error _ _) => False
  | Panicked _ => ∃ point, point ∈ cp_Points request ∧ classification_panics c point
  end.
Proof.
  intros Hdecode [Hpos Hcap]. unfold batchClassifyHandler. rewrite Hdecode.
  destruct (Nat.eqb_spec (length (cp_Points request)) 0) as [Hz|_]; [lia|].
  destruct (Nat.ltb_spec 1000 (length (cp_Points request))) as [Hgt|_]; [lia|].
  rewrite result_bind.
  pose proof (batchClassifyLoop_outcome (cp_Points request) [] c) as Hloop.
  destruct (result (batchClassifyLoop (cp_Points request) []) c) as [all|msg]; [|exact Hloop].
  destruct Hloop as (entries & -> & Hall). rewrite result_ret. cbn [results_of].
  rewrite lookup_insert_eq. exact Hall.
Qed.

(** Over coastline segments with well-formed bounds the distance loop
    does not panic. *)
Lemma coastLoop_returns (lat lon : float) (docs : list DocumentSnapshot)
    (minDistance : float) (closestPoint : option (gmap string float)) :
  Forall bounds_well_formed docs →
  ∃ state, coastLoop lat lon docs minDistance closestPoint = Returned state.
Proof.
  intros Hwf. revert minDistance closestPoint.
  induction Hwf as [|doc docs Hdoc _ IH]; intros minDistance closestPoint.
  - by eexists.
  - cbn [coastLoop]. unfold bounds_well_formed in Hdoc.
    destruct (assert_map (Data doc !! "bounds")) as [bounds|]; [|apply IH].
    destruct Hdoc as ([a Ha] & [b Hb] & [a' Ha'] & [b' Hb']).
    match goal with |- context [if ?far then _ else _] => destruct far end; [apply IH|].
    assert (∀ x v, assert_float64 x = Some v → must_float64 x = Returned v) as Hmust.
    { intros [[]|] v; cbn; congruence. }
    rewrite (Hmust _ _ Ha), (Hmust _ _ Hb), (Hmust _ _ Ha'), (Hmust _ _ Hb'). cbn [obind].
    match goal with |- context [if ?nearer then _ else _] => destruct nearer end; apply IH.
Qed.

(** So no classification panics when the active coastline segments have
    well-formed bounds. *)
Lemma classifyPoint_returns (lat lon : float) (c : Client) :
  Forall bounds_well_formed (active c "coastlines") →
  ∃ verdict, result (classifyPoint lat lon) c = Returned verdict.
Proof.
  intros Hwf. rewrite result_classifyPoint, result_isPointOnLand.
  assert (∃ d, result (calculateDistanceToCoast lat lon) c = Returned d) as [[[d p] e] ->].
  { unfold calculateDistanceToCoast.
    rewrite result_bind, result_GetAll, GetAll_activeQuery.
    destruct (Faults c !! "coastlines"); [by eexists|].
    rewrite result_bind, result_lift.
    destruct (coastLoop_returns lat lon _ 99999999%float None Hwf) as [[m [p|]] ->];
      by eexists. }
  destruct (Faults c !! "land_polygons"); by eexists.
Qed.

Lemma batch_classify_returns
    (r : http.Request) (c : Client) (request : BatchClassifyRequest) :
  json_Decode_BatchClassifyRequest (http.Body r) = Some request →
  0 < length (cp_Points request) ≤ 1000 →
  Forall bounds_well_formed (active c "coastlines") →
  ∃ body, result (batchClassifyHandler r) c = Returned (http.JSON body)
          ∧ Forall2 (entry_for c) (cp_Points request) (results_of body).
Proof.
  intros Hdecode Hlen Hwf.
  pose proof (batchClassifyHandler_within_cap r c request Hdecode Hlen) as Hin.
  destruct (result (batchClassifyHandler r) c) as [[msg code|body]|msg]; [done|by eexists|].
  destruct Hin as (point & _ & _ & panic & Hpanic).
  destruct (classifyPoint_returns (cp_Lat point) (cp_Lon point) c Hwf) as [v Hv]. congruence.
Qed.

(** C7.  The coastline batch-classify endpoint accepts at most 1000
    points.  A request of exactly 1000 points passes the cap and is
    processed: the response is 200 with the entry of each of the 1000
    points (the only other outcome is a panic inside the classification
    of one of them).  A request of 1001 points or more fails with status
    400, "Too many points (max 1000)", and no point is classified: no
    query is sent. *)
Theorem batch_classify_cap
    (r : http.Request) (c : Client) (request : BatchClassifyRequest) :
  json_Decode_BatchClassifyRequest (http.Body r) = Some request →
  (length (cp_Points request) = 1000 →
     match result (batchClassifyHandler r) c with
     | Returned (http.JSON body) =>
         Forall2 (entry_for c) (cp_Points request) (results_of body)
         ∧ length (results_of body) = 1000
     | Returned (http.Error _ _) => False
     | Panicked _ => ∃ point, point ∈ cp_Points request ∧ classification_panics c point
     end)
  ∧ (1000 < length (cp_Points request) →
     result (batchClassifyHandler r) c
     = Returned (http.Error "Too many points (max 1000)" http.StatusBadRequest)
     ∧ queries (batchClassifyHandler r) c = []).
Proof.
  intros Hdecode. split.
  - intros Hlen.
    pose proof (batchClassifyHandler_within_cap r c request Hdecode) as Hin.
    destruct (result (batchClassifyHandler r) c) as [[msg code|body]|msg];
      try (apply Hin; lia).
    assert (Forall2 (entry_for c) (cp_Points request) (results_of body)) as Hall
      by (apply Hin; lia).
    split; [exact Hall|]. by rewrite <- (Forall2_length _ _ _ Hall).
  - intros Hlen. unfold batchClassifyHandler. rewrite Hdecode.
    destruct (Nat.eqb_spec (length (cp_Points request)) 0) as [Hz|_]; [lia|].
    destruct (Nat.ltb_spec 1000 (length (cp_Points request))) as [_|Hle]; [|lia].
    split; reflexivity.
Qed.

(** C3, as amended.  The boundaries batch-lookup endpoint is all or
    nothing: a body that does not decode fails with status 400, and for
    every other body every point is enriched.  The coastline
    batch-classify endpoint fails as a whole, with status 400, only for a
    body that does not decode, an empty batch and a batch over the cap.
    Every other batch is answered 200 with one entry per point, in the
    order of the points, where a point whose coordinates are out of range
    has the entry [{"error": "Invalid coordinates"}], a point whose
    classification fails has [{"error": "Classification failed"}], and
    the other points have their results; unless the classification of
    one of its points panics, which happens only when an active coastline
    segment has malformed bounds (a bounds map without its four doubles):
    then the handler panics and no response is written.  Over coastline
    segments with well-formed bounds every such batch is answered 200. *)
Theorem batch_failure_modes (r : http.Request) (c : Client) :
  match json_Decode_BatchLookupRequest (http.Body r) with
  | None =>
      result (batchLookupBoundariesHandler r) c
      = Returned (http.Error "Invalid request body" http.StatusBadRequest)
  | Some request =>
      ∃ response,
        result (batchLookupBoundariesHandler r) c = Returned (http.JSON response)
        ∧ length (Results response) = length (Points request)
  end
  ∧ match json_Decode_BatchClassifyRequest (http.Body r) with
    | None =>
        result (batchClassifyHandler r) c
        = Returned (http.Error "Invalid JSON body" http.StatusBadRequest)
    | Some request =>
        if (length (cp_Points request) =? 0)%nat
        then result (batchClassifyHandler r) c
             = Returned (http.Error "No points provided" http.StatusBadRequest)
        else if (1000 <? length (cp_Points request))%nat
        then result (batchClassifyHandler r) c
             = Returned (http.Error "Too many points (max 1000)" http.StatusBadRequest)
        else
          (Forall bounds_well_formed (active c "coastlines") →
           ∃ body,
             result (batchClassifyHandler r) c = Returned (http.JSON body)
             ∧ Forall2 (entry_for c) (cp_Points request) (results_of body))
          ∧ match result (batchClassifyHandler r) c with
            | Returned (http.JSON body) =>
                Forall2 (entry_for c) (cp_Points request) (results_of body)
            | Returned (http.Error _ _) => False
            | Panicked _ =>
                (∃ point, point ∈ cp_Points request ∧ classification_panics c point)
                ∧ ¬ Forall bounds_well_formed (active c "coastlines")
            end
    end.
Proof.
  split.
  - destruct (json_Decode_BatchLookupRequest (http.Body r)) as [request|] eqn:Hdecode.
    + destruct (batch_lookup_order_aux r c request Hdecode) as (response & Hr & Hlen).
      by exists response.
    + unfold batchLookupBoundariesHandler. by rewrite Hdecode.
  - destruct (json_Decode_BatchClassifyRequest (http.Body r)) as [request|] eqn:Hdecode.
    + destruct (Nat.eqb_spec (length (cp_Points request)) 0) as [Hz|Hnz].
      { unfold batchClassifyHandler. rewrite Hdecode.
        by destruct (Nat.eqb_spec (length (cp_Points request)) 0). }
      destruct (Nat.ltb_spec 1000 (length (cp_Points request))) as [Hgt|Hle].
      { unfold batchClassifyHandler. rewrite Hdecode.
        destruct (Nat.eqb_spec (length (cp_Points request)) 0); [done|].
        by destruct (Nat.ltb_spec 1000 (length (cp_Points request))); [|lia]. }
      assert (0 < length (cp_Points request) ≤ 1000) as Hlen by lia.
      pose proof (batch_classify_returns r c request Hdecode Hlen) as Hreturns.
      split; [exact Hreturns|].
      pose proof (batchClassifyHandler_within_cap r c request Hdecode Hlen) as Hin.
      destruct (result (batchClassifyHandler r) c) as [[msg code|body]|msg]; [done..|].
      split; [exact Hin|].
      intros Hwf. by destruct (Hreturns Hwf) as (body & [=] & _).
    + unfold batchClassifyHandler. by rewrite Hdecode.
Qed.

End BatchClassify.

Section BatchClassifyExamples.
Local Existing Instance fixture.packages.
Import firestore fixtures.

Lemma batch_classify_cap_witness :
  (length (cp_Points (pointsRequest 1000)) = 1000 →
     match result (batchClassifyHandler (request [] (pointsBody 1000))) coastalStore with
     | Returned (http.JSON body) =>
         Forall2 (entry_for coastalStore) (cp_Points (pointsRequest 1000)) (results_of body)
         ∧ length (results_of body) = 1000
     | Returned (http.Error _ _) => False
     | Panicked _ =>
         ∃ point, point ∈ cp_Points (pointsRequest 1000)
                  ∧ classification_panics coastalStore point
     end)
  ∧ (1000 < length (cp_Points (pointsRequest 1000)) →
     result (batchClassifyHandler (request [] (pointsBody 1000))) coastalStore
     = Returned (http.Error "Too many points (max 1000)" http.StatusBadRequest)
     ∧ queries (batchClassifyHandler (request [] (pointsBody 1000))) coastalStore = []).
Proof.
  apply (batch_classify_cap (request [] (pointsBody 1000)) coastalStore (pointsRequest 1000)).
  vm_compute. reflexivity.
Defined.

(** Exactly 1000 points: a 200 response with 1000 entries.  One point
    more: status 400 and no query. *)
Example batch_classify_1000 :
  match result (batchClassifyHandler (request [] (pointsBody 1000))) coastalStore with
  | Returned (http.JSON body) => length (results_of body) = 1000
  | _ => False
  end.
Proof. vm_compute. reflexivity. Qed.

Example batch_classify_1001 :
  batchClassifyHandler (request [] (pointsBody 1001)) coastalStore
  = (Returned (http.Error "Too many points (max 1000)" http.StatusBadRequest), []).
Proof. vm_compute. reflexivity. Qed.

Example batch_classify_empty :
  batchClassifyHandler (request [] "") coastalStore
  = (Returned (http.Error "No points provided" http.StatusBadRequest), []).
Proof. vm_compute. reflexivity. Qed.

(** C3 fails as stated: a batch of the point (1, 1) and of a point at
    latitude 95 is answered 200, with the result of the first point next
    to an error entry for the second. *)
Lemma batch_classify_mixes_results_and_errors :
  result (batchClassifyHandler (request [] "1,1;95,0")) noCoastStore
  = Returned (http.JSON (VMap
      (<["results" := VArray [ classifiedEntry true 10.0;
                               errorEntry "Invalid coordinates" ]]>
      (<["count" := VInt 2]> ∅)))).
Proof. vm_compute. reflexivity. Qed.

(** A point whose classification fails has an error entry too. *)
Example batch_classify_failed_point :
  result (batchClassifyHandler (request [] "1,1")) noLandNoCoastStore
  = Returned (http.JSON (VMap
      (<["results" := VArray [ errorEntry "Classification failed" ]]>
      (<["count" := VInt 1]> ∅)))).
Proof. vm_compute. reflexivity. Qed.

(** A coastline segment whose bounds hold no number makes the distance
    computation, and with it the whole request, panic. *)
Example batch_classify_panics :
  ∃ msg, result (batchClassifyHandler (request [] "1,1"))
           (store [("coastlines", [brokenCoastDoc])] []) = Panicked msg.
Proof. eexists. vm_compute. reflexivity. Qed.

End BatchClassifyExamples.

(* ================================================================== *)
(** ** The bulk countries catalog (C8) *)

Section BulkCountries.
Context `{Packages}.
Import firestore.

(** The ids in [seen] matter as a set. *)
Lemma not_yet_emitted_ext (seen seen' : list string) (countries : list Country) :
  (∀ id, id ∈ seen ↔ id ∈ seen') →
  not_yet_emitted seen countries = not_yet_emitted seen' countries.
Proof.
  revert seen seen'. induction countries as [|country countries IH]; intros seen seen' Hext;
    [reflexivity|].
  cbn [not_yet_emitted]. rewrite (bool_decide_ext _ _ (Hext (co_ID country))).
  destruct (bool_decide (co_ID country ∈ seen')); [by apply IH|].
  f_equal. apply IH. intros id. rewrite !elem_of_cons, Hext. tauto.
Qed.

(** The countries that are emitted have ids outside [seen], each once. *)
Lemma not_yet_emitted_fresh (seen : list string) (countries : list Country) :
  NoDup (co_ID <$> not_yet_emitted seen countries)
  ∧ ∀ country, country ∈ not_yet_emitted seen countries →
      (co_ID country ∉ seen) ∧ country ∈ countries.
Proof.
  revert seen. induction countries as [|country countries IH]; intros seen.
  - split; [constructor|]. by intros ? ?%elem_of_nil.
  - cbn [not_yet_emitted]. case_bool_decide as Hseen.
    + destruct (IH seen) as [Hnd Hfresh]. split; [done|].
      intros co Hco. destruct (Hfresh co Hco). split; [done|by right].
    + destruct (IH (co_ID country :: seen)) as [Hnd Hfresh]. split.
      * rewrite fmap_cons. constructor; [|done].
        intros (co & Heq & Hco)%list_elem_of_fmap.
        destruct (Hfresh co Hco) as [Hnot _]. apply Hnot. rewrite Heq. by left.
      * intros co [->|Hco]%elem_of_cons; [split; [done|by left]|].
        destruct (Hfresh co Hco) as [Hnot Hin]. split; [|by right].
        intros Hs. apply Hnot. by right.
Qed.

(** A country is emitted exactly when its id is new and it is the first
    of the list with that id. *)
Lemma not_yet_emitted_first (seen : list string) (countries : list Country) (id : string) :
  id ∉ seen → id ∈ co_ID <$> countries → id ∈ co_ID <$> not_yet_emitted seen countries.
Proof.
  revert seen. induction countries as [|country countries IH]; intros seen Hnew Hin.
  - by apply elem_of_nil in Hin.
  - cbn [not_yet_emitted]. rewrite fmap_cons in Hin.
    destruct (decide (id = co_ID country)) as [->|Hne].
    + rewrite bool_decide_eq_false_2 by done. rewrite fmap_cons. by left.
    + apply elem_of_cons in Hin as [?|Hin]; [done|].
      case_bool_decide.
      * by apply IH.
      * rewrite fmap_cons. right. apply IH; [|done].
        intros [?|?]%elem_of_cons; done.
Qed.

(** The second loop: every decoded sovereign state is marked and
    appended. *)
Lemma sovereignLoop_spec (docs : list DocumentSnapshot)
    (processedEntities : gmap string bool) (result : list (gmap string Value))
    (seen : list string) :
  (∀ id, processed processedEntities id = true ↔ id ∈ seen) →
  ∃ processedEntities',
    sovereignLoop docs processedEntities result
    = (processedEntities', result ++ (sovereignEntry <$> omap DataTo_SovereignState docs))
    ∧ ∀ id, processed processedEntities' id = true
            ↔ id ∈ seen ∨ id ∈ ss_ID <$> omap DataTo_SovereignState docs.
Proof.
  revert processedEntities result seen.
  induction docs as [|doc docs IH]; intros P R seen Hseen.
  - exists P. cbn. rewrite app_nil_r. split; [done|].
    intros id. rewrite Hseen, elem_of_nil. tauto.
  - cbn [sovereignLoop omap list_omap].
    destruct (DataTo_SovereignState doc) as [sovereign|].
    + destruct (IH (<[ss_ID sovereign := true]> P) (R ++ [sovereignEntry sovereign])
                  (ss_ID sovereign :: seen)) as (P' & -> & HP').
      { intros id. unfold processed. rewrite elem_of_cons, <- Hseen.
        destruct (decide (ss_ID sovereign = id)) as [->|Hne].
        - rewrite lookup_insert_eq. cbn. tauto.
        - rewrite lookup_insert_ne by done. unfold processed. split; [tauto|].
          intros [?|?]; [congruence|done]. }
      exists P'. rewrite !fmap_cons, <- app_assoc. split; [done|].
      intros id. rewrite HP', !elem_of_cons. split; [|tauto].
      intros [[->|?]|?]; tauto.
    + by apply IH.
Qed.

(** The third loop: the countries not yet emitted, in order. *)
Lemma countryLoop_spec (sovereignMap : gmap string SovereignState)
    (docs : list DocumentSnapshot)
    (processedEntities : gmap string bool) (result : list (gmap string Value))
    (seen : list string) :
  (∀ id, processed processedEntities id = true ↔ id ∈ seen) →
  snd (countryLoop sovereignMap docs processedEntities result)
  = result ++ (countryEntry sovereignMap <$> not_yet_emitted seen (omap DataTo_Country docs)).
Proof.
  revert processedEntities result seen.
  induction docs as [|doc docs IH]; intros P R seen Hseen.
  - cbn. by rewrite app_nil_r.
  - cbn [countryLoop omap list_omap].
    destruct (DataTo_Country doc) as [country|]; [|by apply IH].
    cbn [not_yet_emitted].
    destruct (processed P (co_ID country)) eqn:Hp.
    + rewrite bool_decide_eq_true_2 by (by apply Hseen). by apply IH.
    + rewrite bool_decide_eq_false_2 by (rewrite <- Hseen; congruence).
      rewrite fmap_cons.
      rewrite (IH _ _ (co_ID country :: seen)); [by rewrite <- app_assoc|].
      intros id. unfold processed. rewrite elem_of_cons, <- Hseen.
      destruct (decide (co_ID country = id)) as [->|Hne].
      * rewrite lookup_insert_eq. cbn. tauto.
      * rewrite lookup_insert_ne by done. unfold processed. split; [tauto|].
        intros [?|?]; [congruence|done].
Qed.

(** The list of the response: the sovereign states, then the countries
    not yet emitted. *)
Lemma bulkCountries_spec (sovereignDocs countryDocs : list DocumentSnapshot) :
  bulkCountries sovereignDocs countryDocs
  = (sovereignEntry <$> omap DataTo_SovereignState sovereignDocs)
    ++ (countryEntry (sovereignMapLoop sovereignDocs ∅)
        <$> not_yet_emitted (ss_ID <$> omap DataTo_SovereignState sovereignDocs)
              (omap DataTo_Country countryDocs)).
Proof.
  unfold bulkCountries.
  destruct (sovereignLoop_spec sovereignDocs ∅ [] []) as (P & -> & HP).
  { intros id. unfold processed. rewrite lookup_empty, elem_of_nil. cbn. split; [done|tauto]. }
  rewrite app_nil_l.
  pose proof (countryLoop_spec (sovereignMapLoop sovereignDocs ∅) countryDocs P
                (sovereignEntry <$> omap DataTo_SovereignState sovereignDocs)
                (ss_ID <$> omap DataTo_SovereignState sovereignDocs)) as Hc.
  destruct (countryLoop _ countryDocs P _) as [P' R']. cbn [snd] in Hc. apply Hc.
  intros id. rewrite HP, elem_of_nil. tauto.
Qed.

(** The map of the first pass holds, under an id, the sovereign state
    with that id, when ids are unique. *)
Lemma sovereignMapLoop_lookup (docs : list DocumentSnapshot)
    (sovereignMap : gmap string SovereignState) (id : string) (s : SovereignState) :
  NoDup (ss_ID <$> omap DataTo_SovereignState docs) →
  sovereignMapLoop docs sovereignMap !! id = Some s
  ↔ (s ∈ omap DataTo_SovereignState docs ∧ ss_ID s = id)
    ∨ ((id ∉ ss_ID <$> omap DataTo_SovereignState docs) ∧ sovereignMap !! id = Some s).
Proof.
  revert sovereignMap. induction docs as [|doc docs IH]; intros m Hnd.
  - cbn. rewrite !elem_of_nil. tauto.
  - cbn [sovereignMapLoop omap list_omap] in *.
    destruct (DataTo_SovereignState doc) as [sovereign|]; [|by apply IH].
    rewrite fmap_cons in Hnd. apply NoDup_cons in Hnd as [Hfresh Hnd].
    rewrite (IH _ Hnd), fmap_cons, !elem_of_cons.
    destruct (decide (ss_ID sovereign = id)) as [<-|Hne].
    + rewrite lookup_insert_eq. split.
      * intros [[Hin Heq]|[_ [= <-]]]; [|tauto].
        exfalso. apply Hfresh. apply list_elem_of_fmap. by exists s.
      * intros [[[->|Hin] Heq]|[Hnot _]]; [tauto| |tauto].
        exfalso. apply Hfresh. apply list_elem_of_fmap. by exists s.
    + rewrite lookup_insert_ne by done. split.
      * intros [[Hin Heq]|[Hnot Hm]]; [tauto|]. right. split; [|done].
        intros [?|?]; [congruence|done].
      * intros [[[->|Hin] Heq]|[Hnot Hm]]; [done|tauto|tauto].
Qed.

Lemma isTerritory_decide (country : Country) :
  isTerritory country
  = bool_decide (co_SovereignStateID country ≠ co_ID country
                 ∧ co_SovereignStateID country ≠ "").
Proof.
  unfold isTerritory.
  destruct (String.eqb_spec (co_SovereignStateID country) (co_ID country)),
    (String.eqb_spec (co_SovereignStateID country) ""); cbn [negb andb];
    symmetry; (apply bool_decide_eq_true_2 || apply bool_decide_eq_false_2); tauto.
Qed.

Lemma entry_ids (sovereignMap : gmap string SovereignState)
    (sovereigns : list SovereignState) (countries : list Country) :
  entry_id <$> ((sovereignEntry <$> sovereigns) ++ (countryEntry sovereignMap <$> countries))
  = (λ id, Some (VString id)) <$> ((ss_ID <$> sovereigns) ++ (co_ID <$> countries)).
Proof.
  rewrite !fmap_app, <- !list_fmap_compose. f_equal; by apply list_fmap_ext.
Qed.

(** C8.  When both collections can be read and the ids of the active
    sovereign states are unique (the data invariant on ids), the bulk
    countries catalog lists all active sovereign states first, each with
    [is_territory = false] and a null [sovereign_state_name]; then every
    active country whose id was not emitted before it, with
    [is_territory] true exactly when its [sovereign_state_id] is neither
    its own id nor empty, and [sovereign_state_name] the name found under
    that id in the map of sovereign states built in the first pass (null
    for a country that is no territory or whose sovereign state is not in
    the map); and no id appears twice in the list. *)
Theorem bulk_catalog_sovereigns_then_new_countries (r : http.Request) (c : Client) :
  Faults c !! "sovereign_states" = None →
  Faults c !! "countries" = None →
  NoDup (ss_ID <$> active_sovereign_states c) →
  ∃ (sovereignMap : gmap string SovereignState) (body : gmap string Value)
    (entries : list (gmap string Value)),
    result (getBulkCountriesHandler r) c = Returned (http.JSON (VMap body))
    ∧ body !! "countries" = Some (VArray (VMap <$> entries))
    ∧ entries
      = (sovereignEntry <$> active_sovereign_states c)
        ++ (countryEntry sovereignMap
            <$> not_yet_emitted (ss_ID <$> active_sovereign_states c) (active_countries c))
    ∧ (∀ id s, sovereignMap !! id = Some s ↔ s ∈ active_sovereign_states c ∧ ss_ID s = id)
    ∧ (∀ sovereign,
         sovereignEntry sovereign !! "is_territory" = Some (VBool false)
         ∧ sovereignEntry sovereign !! "sovereign_state_name" = Some VNull)
    ∧ (∀ country,
         let territory :=
           bool_decide (co_SovereignStateID country ≠ co_ID country
                        ∧ co_SovereignStateID country ≠ "") in
         countryEntry sovereignMap country !! "is_territory" = Some (VBool territory)
         ∧ countryEntry sovereignMap country !! "sovereign_state_name"
           = Some (if territory
                   then match sovereignMap !! co_SovereignStateID country with
                        | Some sovereignState => VString (ss_Name sovereignState)
                        | None => VNull
                        end
                   else VNull))
    ∧ NoDup (entry_id <$> entries).
Proof.
  intros Hs Hc Hnd.
  exists (sovereignMapLoop (active c "sovereign_states") ∅).
  eexists. eexists. split; [|split; [|split; [reflexivity|]]].
  - unfold getBulkCountriesHandler.
    rewrite result_bind, result_GetAll, GetAll_activeQuery, Hs.
    rewrite result_bind, result_GetAll, GetAll_activeQuery, Hc.
    rewrite result_ret. reflexivity.
  - rewrite lookup_insert_eq, bulkCountries_spec. reflexivity.
  - split; [|split; [|split]].
    + intros id s. unfold active_sovereign_states.
      rewrite (sovereignMapLoop_lookup _ _ _ _ Hnd), lookup_empty. split; [|tauto].
      intros [?|[_ ?]]; [done|discriminate].
    + intros sovereign. split; reflexivity.
    + intros country territory. subst territory.
      rewrite <- isTerritory_decide. split; reflexivity.
    + rewrite entry_ids. apply NoDup_fmap_2; [by intros ?? [= ->]|].
      destruct (not_yet_emitted_fresh (ss_ID <$> active_sovereign_states c)
                  (active_countries c)) as [Hnew Hfresh].
      apply NoDup_app. split; [done|]. split; [|done].
      intros id Hid (country & -> & Hcountry)%list_elem_of_fmap.
      by destruct (Hfresh country Hcountry).
Qed.

End BulkCountries.

Section BulkCountriesExamples.
Local Existing Instance fixture.packages.
Import firestore fixtures.

Lemma bulk_catalog_sovereigns_then_new_countries_witness :
  ∃ (sovereignMap : gmap string SovereignState) (body : gmap string Value)
    (entries : list (gmap string Value)),
    result (getBulkCountriesHandler (request [("user_id", ["u1"])] "")) catalogStore
    = Returned (http.JSON (VMap body))
    ∧ body !! "countries" = Some (VArray (VMap <$> entries))
    ∧ entries
      = (sovereignEntry <$> active_sovereign_states catalogStore)
        ++ (countryEntry sovereignMap
            <$> not_yet_emitted (ss_ID <$> active_sovereign_states catalogStore)
                  (active_countries catalogStore))
    ∧ (∀ id s, sovereignMap !! id = Some s
               ↔ s ∈ active_sovereign_states catalogStore ∧ ss_ID s = id)
    ∧ (∀ sovereign,
         sovereignEntry sovereign !! "is_territory" = Some (VBool false)
         ∧ sovereignEntry sovereign !! "sovereign_state_name" = Some VNull)
    ∧ (∀ country,
         let territory :=
           bool_decide (co_SovereignStateID country ≠ co_ID country
                        ∧ co_SovereignStateID country ≠ "") in
         countryEntry sovereignMap country !! "is_territory" = Some (VBool territory)
         ∧ countryEntry sovereignMap country !! "sovereign_state_name"
           = Some (if territory
                   then match sovereignMap !! co_SovereignStateID country with
                        | Some sovereignState => VString (ss_Name sovereignState)
                        | None => VNull
                        end
                   else VNull))
    ∧ NoDup (entry_id <$> entries).
Proof.
  apply (bulk_catalog_sovereigns_then_new_countries
           (request [("user_id", ["u1"])] "") catalogStore).
  - vm_compute. reflexivity.
  - vm_compute. reflexivity.
  - change (ss_ID <$> active_sovereign_states catalogStore)
      with ["united_kingdom"; "france"].
    apply (bool_decide_unpack _). vm_compute. exact I.
Defined.

(** The United Kingdom and France first; then Scotland, a territory of
    the United Kingdom, once, and Atlantis, with no sovereign state.  The
    country document of the United Kingdom is not emitted again. *)
Example bulk_catalog_united_kingdom :
  summaries (result (getBulkCountriesHandler (request [("user_id", ["u1"])] "")) catalogStore)
  = [ [Some (VString "united_kingdom"); Some (VString "sovereign_state");
       Some (VBool false); Some VNull];
      [Some (VString "france"); Some (VString "sovereign_state");
       Some (VBool false); Some VNull];
      [Some (VString "scotland"); Some (VString "country");
       Some (VBool true); Some (VString "United Kingdom")];
      [Some (VString "atlantis"); Some (VString "country");
       Some (VBool false); Some VNull] ].
Proof. vm_compute. reflexivity. Qed.

(** The first loop makes no check: two sovereign-state documents under
    one id are both emitted. *)
Example bulk_catalog_duplicate_sovereign_ids :
  summaries (result (getBulkCountriesHandler (request [] "")) duplicateStore)
  = [ [Some (VString "france"); Some (VString "sovereign_state");
       Some (VBool false); Some VNull];
      [Some (VString "france"); Some (VString "sovereign_state");
       Some (VBool false); Some VNull] ].
Proof. vm_compute. reflexivity. Qed.

End BulkCountriesExamples.

(* ================================================================== *)
(** ** The gate: preflight, service authentication, CORS headers *)

Section Gate.
Context {A : Type}.
Implicit Types (next : http.Request → Go (http.Response A)) (r : transport.Incoming)
  (c : firestore.Client) (env : gmap string string).

Lemma bind_handled (m : Go (http.Response A)) c :
  passed_to (x <- m ;; ret (transport.Handled x)) m c.
Proof.
  unfold passed_to. rewrite result_bind, queries_bind.
  destruct (result m c); [|done]. by rewrite result_ret, queries_ret, app_nil_r.
Qed.

(** An OPTIONS request is answered with a bare 200 by the authentication
    wrapper and by the CORS middleware in front of it, whatever the
    secret and whatever the request carries: the handler is not run and
    no query is sent. *)
Theorem preflight_skips_authentication (serviceSecret : string) next env r c :
  transport.Method r = "OPTIONS" →
  transport.requireServiceAuth serviceSecret next r c
  = (Returned (transport.Bare http.StatusOK), [])
  ∧ ∃ header,
      transport.corsMiddleware env (transport.requireServiceAuth serviceSecret next) r c
      = (Returned (header, transport.Bare http.StatusOK), []).
Proof.
  intros Hm. unfold transport.requireServiceAuth, transport.corsMiddleware.
  rewrite Hm. cbn [String.eqb]. split; [reflexivity|]. eexists. reflexivity.
Qed.

(** With a secret configured, a request that is no preflight reaches the
    handler exactly when its X-Service-Auth header equals the secret;
    every other request is answered 401 and the handler is not run. *)
Theorem service_auth_admits_the_secret_only (serviceSecret : string) next r c :
  transport.Method r ≠ "OPTIONS" →
  serviceSecret ≠ "" →
  (transport.Header_Get r "X-Service-Auth" = serviceSecret →
     passed_to (transport.requireServiceAuth serviceSecret next r)
       (next (transport.Inner r)) c)
  ∧ (transport.Header_Get r "X-Service-Auth" ≠ serviceSecret →
     ∃ msg, transport.requireServiceAuth serviceSecret next r c
            = (Returned (transport.Handled (http.Error msg StatusUnauthorized)), [])).
Proof.
  intros Hm Hs. unfold transport.requireServiceAuth, transport.ConstantTimeCompare.
  destruct (String.eqb_spec (transport.Method r) "OPTIONS"); [done|].
  destruct (String.eqb_spec serviceSecret ""); [done|].
  split.
  - intros ->. destruct (String.eqb_spec serviceSecret ""); [done|].
    rewrite String.eqb_refl. cbn. apply bind_handled.
  - intros Hne.
    destruct (String.eqb_spec (transport.Header_Get r "X-Service-Auth") "");
      [by eexists|].
    destruct (String.eqb_spec (transport.Header_Get r "X-Service-Auth") serviceSecret);
      [done|]. cbn. by eexists.
Qed.

(** With no secret configured, every request that is no preflight
    reaches the handler, whatever its headers. *)
Theorem no_secret_admits_every_request next r c :
  transport.Method r ≠ "OPTIONS" →
  passed_to (transport.requireServiceAuth "" next r) (next (transport.Inner r)) c.
Proof.
  intros Hm. unfold transport.requireServiceAuth.
  destruct (String.eqb_spec (transport.Method r) "OPTIONS"); [done|].
  cbn [String.eqb]. apply bind_handled.
Qed.

(** Whatever is written behind the CORS middleware, a 401 included, goes
    out under the four CORS headers; the origin is the configured one, or
    the web app when none is configured. *)
Theorem cors_headers_on_every_response env
    (next : transport.Incoming → Go (transport.Written A)) r c
    (header : gmap string string) (written : transport.Written A) :
  result (transport.corsMiddleware env next r) c = Returned (header, written) →
  header !! "Access-Control-Allow-Origin" = Some (allowed_origin env)
  ∧ header !! "Access-Control-Allow-Methods" = Some "GET, POST, PUT, DELETE, OPTIONS"
  ∧ header !! "Access-Control-Allow-Headers"
    = Some "Content-Type, Authorization, X-Service-Auth"
  ∧ header !! "Access-Control-Max-Age" = Some "3600".
Proof.
  unfold transport.corsMiddleware.
  assert ((if String.eqb (transport.Getenv env "CORS_ALLOWED_ORIGIN") ""
           then "https://statlas-web-app-aleilqeyua-uc.a.run.app"
           else transport.Getenv env "CORS_ALLOWED_ORIGIN") = allowed_origin env) as ->.
  { unfold transport.Getenv, allowed_origin.
    destruct (env !! "CORS_ALLOWED_ORIGIN") as [origin|]; [|reflexivity]. cbn.
    destruct (String.eqb_spec origin ""); [by rewrite bool_decide_eq_true_2|].
    by rewrite bool_decide_eq_false_2. }
  intros Hr.
  assert (header
          = <["Access-Control-Max-Age" := "3600"]>
            (<["Access-Control-Allow-Headers"
               := "Content-Type, Authorization, X-Service-Auth"]>
            (<["Access-Control-Allow-Methods" := "GET, POST, PUT, DELETE, OPTIONS"]>
            (<["Access-Control-Allow-Origin" := allowed_origin env]> ∅)))) as ->.
  { destruct (String.eqb (transport.Method r) "OPTIONS").
    - rewrite result_ret in Hr. congruence.
    - rewrite result_bind in Hr. destruct (result (next r) c); [|discriminate].
      rewrite result_ret in Hr. congruence. }
  repeat split; reflexivity.
Qed.

End Gate.

Section GateExamples.
Local Existing Instance fixture.packages.
Import firestore fixtures more_fixtures.

Lemma preflight_skips_authentication_witness :
  transport.requireServiceAuth "s3cret" classifyPointHandler (incoming "OPTIONS" [] []) deadStore
  = (Returned (transport.Bare http.StatusOK), [])
  ∧ ∃ header,
      transport.corsMiddleware ∅ (transport.requireServiceAuth "s3cret" classifyPointHandler)
        (incoming "OPTIONS" [] []) deadStore
      = (Returned (header, transport.Bare http.StatusOK), []).
Proof.
  apply (preflight_skips_authentication "s3cret" classifyPointHandler ∅
           (incoming "OPTIONS" [] []) deadStore).
  reflexivity.
Defined.

Lemma service_auth_admits_the_secret_only_witness :
  ∃ msg,
    transport.requireServiceAuth "s3cret" classifyPointHandler
      (incoming "GET" [("X-Service-Auth", ["s3creT"])] [("lat", ["1"]); ("lon", ["1"])])
      coastalStore
    = (Returned (transport.Handled (http.Error msg StatusUnauthorized)), []).
Proof.
  apply (proj2 (service_auth_admits_the_secret_only "s3cret" classifyPointHandler
                  (incoming "GET" [("X-Service-Auth", ["s3creT"])]
                     [("lat", ["1"]); ("lon", ["1"])])
                  coastalStore ltac:(discriminate) ltac:(discriminate))).
  vm_compute. discriminate.
Defined.

Lemma no_secret_admits_every_request_witness :
  passed_to
    (transport.requireServiceAuth "" classifyPointHandler
       (incoming "GET" [] [("lat", ["1"]); ("lon", ["1"])]))
    (classifyPointHandler (fixtures.request [("lat", ["1"]); ("lon", ["1"])] ""))
    coastalStore.
Proof.
  apply (no_secret_admits_every_request classifyPointHandler
           (incoming "GET" [] [("lat", ["1"]); ("lon", ["1"])]) coastalStore).
  discriminate.
Defined.

Lemma cors_headers_on_every_response_witness :
  let header : gmap string string :=
    <["Access-Control-Max-Age" := "3600"]>
    (<["Access-Control-Allow-Headers" := "Content-Type, Authorization, X-Service-Auth"]>
    (<["Access-Control-Allow-Methods" := "GET, POST, PUT, DELETE, OPTIONS"]>
    (<["Access-Control-Allow-Origin" := "https://app.example"]> ∅))) in
  header !! "Access-Control-Allow-Origin"
  = Some (allowed_origin {["CORS_ALLOWED_ORIGIN" := "https://app.example"]})
  ∧ header !! "Access-Control-Allow-Methods" = Some "GET, POST, PUT, DELETE, OPTIONS"
  ∧ header !! "Access-Control-Allow-Headers"
    = Some "Content-Type, Authorization, X-Service-Auth"
  ∧ header !! "Access-Control-Max-Age" = Some "3600".
Proof.
  apply (cors_headers_on_every_response
           {["CORS_ALLOWED_ORIGIN" := "https://app.example"]}
           (transport.requireServiceAuth "s3cret" classifyPointHandler)
           (incoming "GET" [] []) coastalStore _
           (transport.Handled (http.Error "Missing X-Service-Auth header" StatusUnauthorized))).
  vm_compute. reflexivity.
Defined.

(** The secret itself is let through. *)
Example service_auth_with_the_secret :
  result (transport.requireServiceAuth "s3cret" classifyPointHandler
            (incoming "GET" [("X-Service-Auth", ["s3cret"])] [("lat", ["91"]); ("lon", ["1"])]))
    coastalStore
  = Returned (transport.Handled
      (http.Error "Coordinates out of valid range" http.StatusBadRequest)).
Proof. vm_compute. reflexivity. Qed.

End GateExamples.

(* ================================================================== *)
(** ** Polygon endpoints *)

Section Polygons.
Context `{Packages} `{Decoders}.
Import firestore.

(** The loop of the list endpoints keeps, in order, the documents that
    have a geometry. *)
Lemma polygonsLoop_filter (polygon : gmap string Value → string → gmap string Value)
    (docs : list DocumentSnapshot) (allPolygons : list (gmap string Value)) :
  polygonsLoop polygon docs allPolygons =
  allPolygons ++ ((λ d, polygon (Data d) (geometry_text d)) <$> with_geometry docs).
Proof.
  unfold with_geometry. revert allPolygons.
  induction docs as [|doc docs IH]; intros allPolygons.
  - cbn [polygonsLoop]. by rewrite filter_nil, app_nil_r.
  - cbn [polygonsLoop]. rewrite filter_cons.
    pose proof (eq_refl (geometry_text doc)) as Hg. unfold geometry_text at 1 in Hg.
    destruct (assert_string (Data doc !! "geometry")) as [g|];
      unfold default, id in Hg; cbn [from_option] in Hg.
    + destruct (String.eqb_spec g "") as [->|Hne].
      * rewrite decide_False by (intros Hn; by apply Hn). apply IH.
      * rewrite decide_True by congruence.
        by rewrite IH, fmap_cons, <- app_assoc, <- Hg.
    + rewrite decide_False by (intros Hn; by apply Hn). apply IH.
Qed.

Lemma Doc_Get_stored (collection id : string) (c : Client) :
  result (Doc_Get collection id) c =
  Returned match stored c collection id with
           | Some doc => (Some doc, None)
           | None =>
               (None, Some (default "document not found" (Faults c !! collection)))
           end.
Proof.
  unfold result, Doc_Get, stored, tier. cbn [fst].
  destruct (Faults c !! collection); [reflexivity|].
  destruct (find _ _); reflexivity.
Qed.

(** The country-polygon endpoint reads the one document named in the
    path and answers 200 or 404, nothing else: 200 exactly when the
    document is stored, active and has a geometry text, and then with
    that text and with the id of the path.  A store that cannot be read
    is answered 404 as well. *)
Theorem country_polygon_found_or_404 (countryID : string) (c : Client) :
  queries (getCountryPolygonHandler countryID) c = [documentQuery "countries" countryID]
  ∧ match result (getCountryPolygonHandler countryID) c with
    | Returned (http.JSON body) =>
        ∃ doc m,
          stored c "countries" countryID = Some doc
          ∧ is_active doc = true ∧ geometry_text doc ≠ ""
          ∧ body = VMap m
          ∧ m !! "id" = Some (VString countryID)
          ∧ m !! "geometry" = Some (VString (geometry_text doc))
    | Returned (http.Error _ code) =>
        code = StatusNotFound
        ∧ ∀ doc, stored c "countries" countryID = Some doc →
                 is_active doc = true → geometry_text doc = ""
    | Panicked _ => False
    end.
Proof.
  unfold getCountryPolygonHandler. rewrite queries_bind, result_bind, Doc_Get_stored.
  destruct (stored c "countries" countryID) as [doc|] eqn:Hdoc.
  - cbn [queries Doc_Get snd]. unfold is_active, geometry_text.
    destruct (Data doc !! "is_active") as [[| [|] | | | | |]|] eqn:Hactive;
      try (split; [reflexivity|]; split; [reflexivity|];
           intros ? [= <-]; by rewrite Hactive).
    destruct (assert_string (Data doc !! "geometry")) as [g|] eqn:Hg; cbn [default].
    + destruct (String.eqb_spec g "") as [->|Hne].
      * split; [reflexivity|]. split; [reflexivity|]. intros ? [= <-] _. by rewrite Hg.
      * split; [reflexivity|]. rewrite result_ret. cbn beta iota. exists doc. eexists.
        split; [reflexivity|]. split; [by rewrite Hactive|].
        split; [by rewrite Hg|]. rewrite Hg.
        split; [reflexivity|]. split; [by rewrite lookup_insert_eq|].
        rewrite lookup_insert_ne by done. rewrite lookup_insert_ne by done.
        rewrite lookup_insert_ne by done. by rewrite lookup_insert_eq.
    + split; [reflexivity|]. split; [reflexivity|]. intros ? [= <-] _. by rewrite Hg.
  - split; [reflexivity|]. split; [reflexivity|]. intros ? [=].
Qed.

(** The world endpoint lists the active countries that have a geometry,
    in the order of the collection, [count] being their number; it fails
    with 500 when the collection cannot be read. *)
Theorem world_polygons_are_active_with_geometry (c : Client) :
  queries getWorldPolygonsHandler c = [activeQuery "countries"]
  ∧ result getWorldPolygonsHandler c =
    Returned
      match Faults c !! "countries" with
      | Some _ => http.Error "Failed to fetch world data" http.StatusInternalServerError
      | None =>
          let countries := with_geometry (active c "countries") in
          http.JSON (VMap
            (<["world" := VBool true]>
            (<["count" := VInt (Z.of_nat (length countries))]>
            (<["polygons" :=
                 VArray ((λ d, VMap (worldPolygon (Data d) (geometry_text d))) <$> countries)]>
             ∅))))
      end.
Proof.
  unfold getWorldPolygonsHandler. fold (activeQuery "countries").
  rewrite queries_bind, result_bind, result_GetAll, queries_GetAll, GetAll_activeQuery.
  destruct (Faults c !! "countries"); [split; reflexivity|].
  rewrite polygonsLoop_filter, app_nil_l, result_ret, queries_ret.
  rewrite length_fmap, <- list_fmap_compose. split; reflexivity.
Qed.

Lemma matches_continent (continent : string) (d : DocumentSnapshot) :
  matches d {| Path := "continent"; Operator := OpEq; Operand := VString continent |}
  = on_continent continent d.
Proof.
  unfold matches, on_continent. cbn.
  destruct (Data d !! "continent") as [[| | | |s| |]|]; cbn; try reflexivity.
  destruct (String.eqb_spec s continent);
    [by rewrite bool_decide_eq_true_2|by rewrite bool_decide_eq_false_2].
Qed.

(** The continent endpoint lists the active countries whose [continent]
    field is the one of the path and that have a geometry, in the order
    of the collection; a continent without countries is answered 200
    with no polygon and the count 0; it fails with 500 when the
    collection cannot be read. *)
Theorem continent_polygons_select_by_field (continent : string) (c : Client) :
  result (getContinentPolygonsHandler continent) c =
  Returned
    match Faults c !! "countries" with
    | Some _ => http.Error "Failed to fetch continent data" http.StatusInternalServerError
    | None =>
        let countries :=
          with_geometry
            (filter (λ d, on_continent continent d = true) (active c "countries")) in
        http.JSON (VMap
          (<["continent" := VString continent]>
          (<["count" := VInt (Z.of_nat (length countries))]>
          (<["polygons" :=
               VArray ((λ d, VMap (continentPolygon (Data d) (geometry_text d)))
                         <$> countries)]> ∅))))
    end.
Proof.
  unfold getContinentPolygonsHandler.
  rewrite result_bind, result_GetAll, GetAll_unlimited by reflexivity.
  cbn [From Where Collection].
  destruct (Faults c !! "countries"); [reflexivity|].
  rewrite polygonsLoop_filter, app_nil_l, result_ret.
  rewrite length_fmap, <- list_fmap_compose.
  assert (filter (λ d, selects
            (Where (Where (Collection "countries") "is_active" OpEq (VBool true))
               "continent" OpEq (VString continent)) d = true) (tier c "countries")
          = filter (λ d, on_continent continent d = true) (active c "countries"))
    as ->; [|reflexivity].
  unfold active. rewrite list_filter_filter. apply list_filter_iff. intros d.
  unfold selects. cbn [Filters Where Collection app forallb].
  rewrite andb_true_r, andb_true_iff, matches_is_active, matches_continent. tauto.
Qed.

End Polygons.

Section PolygonExamples.
Local Existing Instance fixture.packages.
Local Existing Instance fixture_decoders.decoders.
Import firestore fixtures more_fixtures.

Example country_polygon_inactive :
  result (getCountryPolygonHandler "prussia") polygonStore
  = Returned (http.Error "Country not active" StatusNotFound).
Proof. vm_compute. reflexivity. Qed.

Example country_polygon_store_down :
  result (getCountryPolygonHandler "france") deadStore
  = Returned (http.Error "Country not found" StatusNotFound).
Proof. vm_compute. reflexivity. Qed.

Example continent_without_countries :
  result (getContinentPolygonsHandler "Atlantis") polygonStore
  = Returned (http.JSON (VMap
      (<["continent" := VString "Atlantis"]>
      (<["count" := VInt 0]> (<["polygons" := VArray []]> ∅))))).
Proof. vm_compute. reflexivity. Qed.

End PolygonExamples.

(* ================================================================== *)
(** ** The land test and the distance to the coast *)

Lemma SFcompare_Lt_trans (a b c : spec_float) :
  SFcompare a b = Some Lt → SFcompare b c = Some Lt → SFcompare a c = Some Lt.
Proof.
  destruct a as [sa|sa| |sa ma ea], b as [sb|sb| |sb mb eb], c as [sc|sc| |sc mc ec];
    simpl; try discriminate;
    repeat match goal with s : bool |- _ => destruct s end;
    simpl; try discriminate; try reflexivity;
    change (PosDef.Pos.compare_cont Eq) with Pos.compare;
    destruct (Z.compare_spec ea eb), (Z.compare_spec eb ec), (Z.compare_spec ea ec);
    simpl; try discriminate; try reflexivity; try lia; subst;
    destruct (Pos.compare_spec ma mb), (Pos.compare_spec mb mc), (Pos.compare_spec ma mc);
    simpl; try discriminate; try reflexivity; lia.
Qed.

Lemma ltb_trans (x y z : float) :
  (x <? y)%float = true → (y <? z)%float = true → (x <? z)%float = true.
Proof.
  rewrite !ltb_spec. unfold SFltb.
  destruct (SFcompare (Prim2SF x) (Prim2SF y)) as [[]|] eqn:E1; try discriminate.
  destruct (SFcompare (Prim2SF y) (Prim2SF z)) as [[]|] eqn:E2; try discriminate.
  rewrite (SFcompare_Lt_trans _ _ _ E1 E2). reflexivity.
Qed.

Lemma ltb_irrefl (x : float) : (x <? x)%float = false.
Proof.
  rewrite ltb_spec. unfold SFltb.
  destruct (SFcompare (Prim2SF x) (Prim2SF x)) as [[]|] eqn:E; try reflexivity.
  pose proof (SFcompare_antisym _ _ _ E) as E'. cbn in E'. congruence.
Qed.

Section Coast.
Context `{Packages} `{Decoders}.
Import firestore.

Lemma onLandLoop_existsb (lat lon : float) (docs : list DocumentSnapshot) :
  onLandLoop lat lon docs = existsb (land_rectangle_holds lat lon) docs.
Proof.
  induction docs as [|doc docs IH]; [reflexivity|].
  cbn [onLandLoop existsb]. unfold land_rectangle_holds at 1. rewrite IH.
  destruct (assert_string (Data doc !! "geometry")); [|reflexivity].
  destruct (assert_map (Data doc !! "bounds")); [|reflexivity].
  match goal with |- context [if ?b then _ else _] => destruct b end; reflexivity.
Qed.

(** The land test, for every store: when the land polygons cannot be
    read the verdict is [false] with the store's error; otherwise it is
    [true] exactly when some active land polygon that has a geometry text
    has a bounds rectangle holding the point.  The geometry text itself
    plays no part. *)
Theorem land_test_is_a_rectangle_test (lat lon : float) (c : Client) :
  match Faults c !! "land_polygons" with
  | Some err => result (isPointOnLand lat lon) c = Returned (false, Some err)
  | None =>
      ∃ isLand,
        result (isPointOnLand lat lon) c = Returned (isLand, None)
        ∧ (isLand = true ↔
           ∃ d, d ∈ active c "land_polygons" ∧ land_rectangle_holds lat lon d = true)
  end.
Proof.
  rewrite result_isPointOnLand. destruct (Faults c !! "land_polygons"); [reflexivity|].
  eexists. split; [reflexivity|].
  rewrite onLandLoop_existsb, existsb_exists. setoid_rewrite <- list_elem_of_In. reflexivity.
Qed.

Lemma must_float64_assert (x : option Value) :
  must_float64 x =
  match assert_float64 x with
  | Some v => Returned v
  | None => Panicked "interface conversion: interface {} is not float64"
  end.
Proof. destruct x as [[]|]; reflexivity. Qed.

(** One round of the distance loop: it panics on a segment that is not
    too far and whose bounds are malformed; on any other segment it keeps
    the segment's centre when the segment is a candidate strictly nearer
    than the distance so far. *)
Lemma coastLoop_cons (lat lon : float) (doc : DocumentSnapshot)
    (docs : list DocumentSnapshot) (minDistance : float)
    (closestPoint : option (gmap string float)) :
  (too_far lat lon doc = false ∧ ¬ bounds_well_formed doc
   ∧ ∃ msg, coastLoop lat lon (doc :: docs) minDistance closestPoint = Panicked msg)
  ∨ ((too_far lat lon doc = true ∨ bounds_well_formed doc)
     ∧ coastLoop lat lon (doc :: docs) minDistance closestPoint =
       match coast_candidate lat lon doc with
       | Some (centerLat, centerLon, dist) =>
           if (dist <? minDistance)%float
           then coastLoop lat lon docs dist
                  (Some (<["lat" := centerLat]> (<["lon" := centerLon]> ∅)))
           else coastLoop lat lon docs minDistance closestPoint
       | None => coastLoop lat lon docs minDistance closestPoint
       end).
Proof.
  cbn [coastLoop]. unfold coast_candidate, too_far, bounds_well_formed.
  destruct (assert_map (Data doc !! "bounds")) as [bounds|]; [|right; by split; [right|]].
  match goal with |- context [if ?b then _ else _] => destruct b end;
    [right; by split; [left|]|].
  rewrite !must_float64_assert. cbn [mbind option_bind].
  destruct (assert_float64 (bounds !! "min_lat")) as [minLat|];
    [|left; split; [done|]; split; [by intros ([? [=]] & _)|by eexists]].
  destruct (assert_float64 (bounds !! "max_lat")) as [maxLat|];
    [|left; split; [done|]; split; [by intros (_ & [? [=]] & _)|by eexists]].
  destruct (assert_float64 (bounds !! "min_lon")) as [minLon|];
    [|left; split; [done|]; split; [by intros (_ & _ & [? [=]] & _)|by eexists]].
  destruct (assert_float64 (bounds !! "max_lon")) as [maxLon|];
    [|left; split; [done|]; split; [by intros (_ & _ & _ & [? [=]])|by eexists]].
  right. split; [right; by repeat split|]. reflexivity.
Qed.

Lemma nearest_so_far_snoc (lat lon : float) (seen : list DocumentSnapshot)
    (doc : DocumentSnapshot) (m : float) (cp : option (gmap string float)) :
  nearest_so_far lat lon seen m cp →
  match coast_candidate lat lon doc with
  | Some (centerLat, centerLon, dist) =>
      if (dist <? m)%float
      then nearest_so_far lat lon (seen ++ [doc]) dist
             (Some (<["lat" := centerLat]> (<["lon" := centerLon]> ∅)))
      else nearest_so_far lat lon (seen ++ [doc]) m cp
  | None => nearest_so_far lat lon (seen ++ [doc]) m cp
  end.
Proof.
  intros [Hkept Hmin].
  assert (∀ d, d ∈ seen → d ∈ seen ++ [doc]) as Hin
    by (intros d Hd; apply elem_of_app; by left).
  assert ((cp = None ∧ m = 99999999%float
           ∨ (m <? 99999999)%float = true
             ∧ ∃ d centerLat centerLon,
                 d ∈ seen ++ [doc]
                 ∧ coast_candidate lat lon d = Some (centerLat, centerLon, m)
                 ∧ cp = Some (<["lat" := centerLat]> (<["lon" := centerLon]> ∅))))
    as Hkept'.
  { destruct Hkept as [?|(Hlt & d & a & b & Hd & Hc & Hcp)]; [by left|right].
    split; [done|]. exists d, a, b. auto. }
  destruct (coast_candidate lat lon doc) as [[[centerLat centerLon] dist]|] eqn:Hcand.
  - destruct (dist <? m)%float eqn:Hnearer.
    + split.
      * right. split.
        { destruct Hkept as [[_ ->]|[Hlt _]]; [done|by eapply ltb_trans]. }
        exists doc, centerLat, centerLon. split; [|done].
        apply elem_of_app. right. by apply list_elem_of_singleton.
      * intros d a b dist' [Hd|Hd%list_elem_of_singleton]%elem_of_app Hc.
        -- destruct (dist' <? dist)%float eqn:Hlt; [|reflexivity].
           rewrite <- (Hmin d a b dist' Hd Hc). symmetry. by eapply ltb_trans.
        -- subst d. rewrite Hcand in Hc. injection Hc as <- <- <-. apply ltb_irrefl.
    + split; [exact Hkept'|].
      intros d a b dist' [Hd|Hd%list_elem_of_singleton]%elem_of_app Hc; [by eapply Hmin|].
      subst d. rewrite Hcand in Hc. by injection Hc as <- <- <-.
  - split; [exact Hkept'|].
    intros d a b dist' [Hd|Hd%list_elem_of_singleton]%elem_of_app Hc; [by eapply Hmin|].
    subst d. congruence.
Qed.

Lemma coastLoop_nearest (lat lon : float) (docs seen : list DocumentSnapshot)
    (m m' : float) (cp cp' : option (gmap string float)) :
  nearest_so_far lat lon seen m cp →
  coastLoop lat lon docs m cp = Returned (m', cp') →
  nearest_so_far lat lon (seen ++ docs) m' cp'.
Proof.
  revert seen m cp. induction docs as [|doc docs IH]; intros seen m cp Hinv.
  - cbn [coastLoop]. intros [= <- <-]. by rewrite app_nil_r.
  - replace (seen ++ doc :: docs) with ((seen ++ [doc]) ++ docs)
      by (by rewrite <- app_assoc).
    pose proof (nearest_so_far_snoc lat lon seen doc m cp Hinv) as Hstep.
    destruct (coastLoop_cons lat lon doc docs m cp) as [(_ & _ & msg & ->)|[_ ->]];
      [discriminate|].
    destruct (coast_candidate lat lon doc) as [[[centerLat centerLon] dist]|].
    + destruct (dist <? m)%float; by apply IH.
    + by apply IH.
Qed.

Lemma result_calculateDistanceToCoast (lat lon : float) (c : Client) :
  result (calculateDistanceToCoast lat lon) c =
  match Faults c !! "coastlines" with
  | Some err => Returned (0%float, None, Some err)
  | None =>
      match coastLoop lat lon (active c "coastlines") 99999999%float None with
      | Returned (_, None) => Returned (0%float, None, Some "no coastlines found")
      | Returned (minDistance, Some closestPoint) =>
          Returned (minDistance, Some closestPoint, None)
      | Panicked msg => Panicked msg
      end
  end.
Proof.
  unfold calculateDistanceToCoast. rewrite result_bind, result_GetAll, GetAll_activeQuery.
  destruct (Faults c !! "coastlines"); [reflexivity|].
  rewrite result_bind, result_lift.
  destruct (coastLoop _ _ _ _ _) as [[m [p|]]|]; reflexivity.
Qed.

(** The distance to the coast, when one is returned, is the distance to
    the centre of the bounds of an active coastline segment that is a
    candidate (not more than 2 degrees outside its bounds), that centre
    is the nearest point returned, and no candidate's centre is strictly
    nearer.  The distance is to the centre of a rectangle, not to the
    line.  When the store answers and the error is returned, no
    candidate is within the initial 99999999 km. *)
Theorem nearest_coast_is_nearest_centre (lat lon : float) (c : Client) :
  (∀ distance nearest,
     result (calculateDistanceToCoast lat lon) c = Returned (distance, Some nearest, None) →
     (∃ d centerLat centerLon,
        d ∈ active c "coastlines"
        ∧ coast_candidate lat lon d = Some (centerLat, centerLon, distance)
        ∧ nearest = <["lat" := centerLat]> (<["lon" := centerLon]> ∅))
     ∧ ∀ d centerLat centerLon distance',
         d ∈ active c "coastlines" →
         coast_candidate lat lon d = Some (centerLat, centerLon, distance') →
         (distance' <? distance)%float = false)
  ∧ (∀ distance nearest err,
       Faults c !! "coastlines" = None →
       result (calculateDistanceToCoast lat lon) c = Returned (distance, nearest, Some err) →
       err = "no coastlines found"
       ∧ ∀ d centerLat centerLon distance',
           d ∈ active c "coastlines" →
           coast_candidate lat lon d = Some (centerLat, centerLon, distance') →
           (distance' <? 99999999)%float = false).
Proof.
  assert (nearest_so_far lat lon [] 99999999%float None) as Hinit.
  { split; [by left|]. by intros ? ? ? ? ?%elem_of_nil. }
  rewrite result_calculateDistanceToCoast. split.
  - intros distance nearest.
    destruct (Faults c !! "coastlines"); [discriminate|].
    destruct (coastLoop _ _ _ _ _) as [[m [p|]]|] eqn:Hloop; try discriminate.
    intros [= <- <-].
    destruct (coastLoop_nearest _ _ _ _ _ _ _ _ Hinit Hloop) as [Hkept Hmin].
    split; [|exact Hmin].
    destruct Hkept as [[[=] _]|(_ & d & a & b & Hd & Hc & [= ->])]. by exists d, a, b.
  - intros distance nearest err ->.
    destruct (coastLoop _ _ _ _ _) as [[m [p|]]|] eqn:Hloop; try discriminate.
    intros [= <- <- <-]. split; [reflexivity|].
    destruct (coastLoop_nearest _ _ _ _ _ _ _ _ Hinit Hloop) as [Hkept Hmin].
    destruct Hkept as [[_ ->]|(_ & d & a & b & _ & _ & [=])]. exact Hmin.
Qed.

End Coast.

(* ================================================================== *)
(** ** Classification and the coastline endpoints *)

Section Classification.
Context `{Packages} `{Decoders}.
Import firestore.

Lemma coastLoop_all_far (lat lon : float) (docs : list DocumentSnapshot)
    (m : float) (cp : option (gmap string float)) :
  Forall (λ d, too_far lat lon d = true) docs →
  coastLoop lat lon docs m cp = Returned (m, cp).
Proof.
  induction 1 as [|doc docs Hfar _ IH]; [reflexivity|].
  destruct (coastLoop_cons lat lon doc docs m cp) as [(Hnear & _)|[_ ->]]; [congruence|].
  unfold coast_candidate. rewrite Hfar. exact IH.
Qed.

Lemma coastLoop_panics (lat lon : float) (docs : list DocumentSnapshot)
    (d : DocumentSnapshot) (m : float) (cp : option (gmap string float)) :
  d ∈ docs → too_far lat lon d = false → ¬ bounds_well_formed d →
  ∃ msg, coastLoop lat lon docs m cp = Panicked msg.
Proof.
  intros Hd Hnear Hbad. revert m cp.
  induction docs as [|doc docs IH]; intros m cp; [by apply elem_of_nil in Hd|].
  destruct (coastLoop_cons lat lon doc docs m cp) as [(_ & _ & Hpanic)|[Hok ->]];
    [exact Hpanic|].
  assert (d ∈ docs) as Hin.
  { apply elem_of_cons in Hd as [->|Hd]; [|exact Hd]. destruct Hok; [congruence|done]. }
  destruct (coast_candidate lat lon doc) as [[[a b] dist]|]; [|by apply IH].
  destruct (dist <? m)%float; by apply IH.
Qed.

Lemma queries_calculateDistanceToCoast (lat lon : float) (c : Client) :
  queries (calculateDistanceToCoast lat lon) c = [activeQuery "coastlines"].
Proof.
  unfold calculateDistanceToCoast. rewrite queries_bind, result_GetAll, queries_GetAll.
  destruct (GetAll c _) as [docs [err|]]; [reflexivity|].
  rewrite queries_bind, result_lift, queries_lift.
  destruct (coastLoop _ _ _ _ _) as [[m [p|]]|]; reflexivity.
Qed.

Lemma queries_isPointOnLand (lat lon : float) (c : Client) :
  queries (isPointOnLand lat lon) c = [activeQuery "land_polygons"].
Proof.
  unfold isPointOnLand. rewrite queries_bind, result_GetAll, queries_GetAll.
  destruct (GetAll c _) as [docs [err|]]; reflexivity.
Qed.

(** Every classification reads the active land polygons and then the
    active coastlines, both in full, whatever the point and the store. *)
Lemma queries_classifyPoint (lat lon : float) (c : Client) :
  queries (classifyPoint lat lon) c = classifyQueries.
Proof.
  unfold classifyPoint. rewrite queries_bind, queries_isPointOnLand, result_isPointOnLand.
  destruct (Faults c !! "land_polygons");
    rewrite queries_bind, queries_calculateDistanceToCoast;
    destruct (result (calculateDistanceToCoast lat lon) c) as [[[d p] [e|]]|];
    reflexivity.
Qed.

(** A point more than 2 degrees outside the bounds of every active
    coastline segment is classified with the distance 10.0, for want of
    a candidate: it is never given the resolution 100x100km, however far
    from the coast it lies. *)
Theorem far_from_every_coast_is_ten_km (lat lon : float) (c : Client) :
  Faults c !! "land_polygons" = None →
  Forall (λ d, too_far lat lon d = true) (active c "coastlines") →
  ∃ isLand,
    result (classifyPoint lat lon) c = Returned (isLand, 10.0%float, None)
    ∧ determineGridResolution isLand 10.0 = (if isLand then "1x1km" else "10x10km").
Proof.
  intros Hland Hfar.
  rewrite result_classifyPoint, result_isPointOnLand, Hland,
    result_calculateDistanceToCoast.
  destruct (Faults c !! "coastlines"); [by eexists|].
  rewrite (coastLoop_all_far _ _ _ _ _ Hfar). eexists. split; [reflexivity|].
  by destruct (onLandLoop _ _ _).
Qed.

(** A single active coastline segment whose bounds map lacks one of its
    four numbers as a double makes the classification of every point
    that is not too far from it panic: no response is written. *)
Theorem malformed_coast_bounds_panic (lat lon : float) (c : Client) (d : DocumentSnapshot) :
  Faults c !! "coastlines" = None →
  d ∈ active c "coastlines" →
  too_far lat lon d = false →
  ¬ bounds_well_formed d →
  ∃ msg, result (calculateDistanceToCoast lat lon) c = Panicked msg
         ∧ result (classifyPoint lat lon) c = Panicked msg.
Proof.
  intros Hup Hd Hnear Hbad.
  destruct (coastLoop_panics lat lon _ d 99999999%float None Hd Hnear Hbad) as [msg Hmsg].
  exists msg.
  assert (result (calculateDistanceToCoast lat lon) c = Panicked msg) as Hcoast
    by (by rewrite result_calculateDistanceToCoast, Hup, Hmsg).
  split; [exact Hcoast|].
  rewrite result_classifyPoint, result_isPointOnLand, Hcoast.
  by destruct (Faults c !! "land_polygons").
Qed.

(** The classify endpoint checks the range before it reads anything: a
    pair out of range is answered 400 without a query, a pair in range
    costs the two reads of a classification. *)
Theorem classify_reads_only_in_range (r : http.Request) (c : Client) (lat lon : float) :
  http.Get r "lat" ≠ "" → http.Get r "lon" ≠ "" →
  strconv_ParseFloat (http.Get r "lat") = Some lat →
  strconv_ParseFloat (http.Get r "lon") = Some lon →
  if outOfRange lat lon
  then classifyPointHandler r c
       = (Returned (http.Error "Coordinates out of valid range" http.StatusBadRequest), [])
  else queries (classifyPointHandler r) c = classifyQueries.
Proof.
  intros Hlat Hlon Plat Plon. unfold classifyPointHandler.
  destruct (String.eqb_spec (http.Get r "lat") ""); [contradiction|].
  destruct (String.eqb_spec (http.Get r "lon") ""); [contradiction|].
  cbn [orb]. rewrite Plat, Plon.
  destruct (outOfRange lat lon); [reflexivity|].
  rewrite queries_bind, queries_classifyPoint.
  destruct (result (classifyPoint lat lon) c) as [[[isLand d] [e|]]|]; reflexivity.
Qed.

Lemma classifyEntry_run (point : ClassifyPoint) (c : Client) :
  Forall bounds_well_formed (active c "coastlines") →
  ∃ entry,
    classifyEntry point c
    = (Returned entry,
       if outOfRange (cp_Lat point) (cp_Lon point) then [] else classifyQueries).
Proof.
  intros Hwf. unfold classifyEntry.
  destruct (outOfRange (cp_Lat point) (cp_Lon point)); [by eexists|].
  destruct (classifyPoint_returns (cp_Lat point) (cp_Lon point) c Hwf) as [v Hv].
  pose proof (queries_classifyPoint (cp_Lat point) (cp_Lon point) c) as Hq.
  unfold result, queries in Hv, Hq.
  destruct (classifyPoint (cp_Lat point) (cp_Lon point) c) as [o sent] eqn:Hrun.
  cbn [fst snd] in Hv, Hq. subst o sent.
  rewrite (bind_run _ _ _ _ _ Hrun).
  destruct v as [[isLand d] [e|]]; cbn [ret fst snd]; rewrite app_nil_r; by eexists.
Qed.

Lemma batchClassifyLoop_queries (points : list ClassifyPoint) (results : list Value)
    (c : Client) :
  Forall bounds_well_formed (active c "coastlines") →
  queries (batchClassifyLoop points results) c =
  concat ((λ point, if outOfRange (cp_Lat point) (cp_Lon point) then []
                    else classifyQueries) <$> points).
Proof.
  intros Hwf. revert results. induction points as [|point points IH]; intros results.
  - reflexivity.
  - cbn [batchClassifyLoop]. destruct (classifyEntry_run point c Hwf) as [entry Hrun].
    unfold queries. rewrite (bind_run _ _ _ _ _ Hrun). cbn [snd fmap list_fmap concat].
    f_equal. apply IH.
Qed.

(** The batch-classify endpoint classifies its points one by one: every
    point in range costs the two full reads again, a point out of range
    costs none.  A batch of n points in range reads each of the two
    collections n times. *)
Theorem batch_classify_reads_per_point
    (r : http.Request) (c : Client) (request : BatchClassifyRequest) :
  json_Decode_BatchClassifyRequest (http.Body r) = Some request →
  0 < length (cp_Points request) ≤ 1000 →
  Forall bounds_well_formed (active c "coastlines") →
  queries (batchClassifyHandler r) c =
  concat ((λ point, if outOfRange (cp_Lat point) (cp_Lon point) then []
                    else classifyQueries) <$> cp_Points request).
Proof.
  intros Hdecode [Hpos Hcap] Hwf. unfold batchClassifyHandler. rewrite Hdecode.
  destruct (Nat.eqb_spec (length (cp_Points request)) 0) as [Hz|_]; [lia|].
  destruct (Nat.ltb_spec 1000 (length (cp_Points request))) as [Hgt|_]; [lia|].
  rewrite queries_bind, batchClassifyLoop_queries by done.
  destruct (result (batchClassifyLoop (cp_Points request) []) c); [|reflexivity].
  by rewrite queries_ret, app_nil_r.
Qed.

(** The distance endpoint beside it has no range check: every pair that
    parses costs the read of the coastlines.  Its answer is the distance
    with the nearest centre, or 500 when there is none to give; far from
    every segment (where the classify endpoint answers 200 with the
    distance 10.0) that is a 500. *)
Theorem distance_endpoint_has_no_range_check
    (r : http.Request) (c : Client) (lat lon : float) :
  http.Get r "lat" ≠ "" → http.Get r "lon" ≠ "" →
  strconv_ParseFloat (http.Get r "lat") = Some lat →
  strconv_ParseFloat (http.Get r "lon") = Some lon →
  queries (distanceToCoastHandler r) c = [activeQuery "coastlines"]
  ∧ (Forall (λ d, too_far lat lon d = true) (active c "coastlines") →
     result (distanceToCoastHandler r) c
     = Returned (http.Error "Failed to calculate distance" http.StatusInternalServerError))
  ∧ (∀ distance nearest,
       result (calculateDistanceToCoast lat lon) c = Returned (distance, Some nearest, None) →
       ∃ body,
         result (distanceToCoastHandler r) c = Returned (http.JSON (VMap body))
         ∧ body !! "result"
           = Some (VMap (<["distance_to_coast_km" := VDouble distance]>
                        (<["nearest_coast_point" := VMap (VDouble <$> nearest)]> ∅)))).
Proof.
  intros Hlat Hlon Plat Plon. unfold distanceToCoastHandler.
  destruct (String.eqb_spec (http.Get r "lat") ""); [contradiction|].
  destruct (String.eqb_spec (http.Get r "lon") ""); [contradiction|].
  cbn [orb]. rewrite Plat, Plon. split; [|split].
  - rewrite queries_bind, queries_calculateDistanceToCoast.
    destruct (result (calculateDistanceToCoast lat lon) c) as [[[d p] [e|]]|]; reflexivity.
  - intros Hfar. rewrite result_bind, result_calculateDistanceToCoast.
    destruct (Faults c !! "coastlines"); [reflexivity|].
    by rewrite (coastLoop_all_far _ _ _ _ _ Hfar).
  - intros distance nearest Hd. rewrite result_bind, Hd, result_ret.
    eexists. split; [reflexivity|].
    rewrite lookup_insert_ne by done. rewrite lookup_insert_ne by done.
    by rewrite lookup_insert_eq.
Qed.

End Classification.

Section ClassificationExamples.
Local Existing Instance fixture.packages.
Local Existing Instance fixture_decoders.decoders.
Import firestore fixtures more_fixtures.

(** Of the segments centred at (2, 2) and (1, 1), the second is nearest
    to (1, 1). *)
Example nearest_of_two_segments :
  ∃ distance,
    result (calculateDistanceToCoast 1 1) twoCoastStore
    = Returned (distance, Some (<["lat" := 1%float]> (<["lon" := 1%float]> ∅)), None).
Proof. eexists. vm_compute. reflexivity. Qed.

Lemma far_from_every_coast_is_ten_km_witness :
  ∃ isLand,
    result (classifyPoint 50 50) coastalStore = Returned (isLand, 10.0%float, None)
    ∧ determineGridResolution isLand 10.0 = (if isLand then "1x1km" else "10x10km").
Proof.
  apply (far_from_every_coast_is_ten_km 50 50 coastalStore).
  - vm_compute. reflexivity.
  - vm_compute. repeat constructor.
Defined.

Lemma malformed_coast_bounds_panic_witness :
  ∃ msg, result (calculateDistanceToCoast 1 1) brokenCoastStore = Panicked msg
         ∧ result (classifyPoint 1 1) brokenCoastStore = Panicked msg.
Proof.
  apply (malformed_coast_bounds_panic 1 1 brokenCoastStore brokenCoastDoc).
  - vm_compute. reflexivity.
  - vm_compute. repeat constructor.
  - vm_compute. reflexivity.
  - vm_compute. intros ([x Hx] & _). discriminate Hx.
Defined.

Lemma classify_reads_only_in_range_witness :
  classifyPointHandler (request [("lat", ["91"]); ("lon", ["1"])] "") coastalStore
  = (Returned (http.Error "Coordinates out of valid range" http.StatusBadRequest), []).
Proof.
  apply (classify_reads_only_in_range (request [("lat", ["91"]); ("lon", ["1"])] "")
           coastalStore 91 1); vm_compute; (reflexivity || discriminate).
Defined.

Lemma batch_classify_reads_per_point_witness :
  queries (batchClassifyHandler (request [] "1,1;91,1;2,2")) coastalStore
  = classifyQueries ++ classifyQueries.
Proof.
  apply (batch_classify_reads_per_point (request [] "1,1;91,1;2,2") coastalStore
           {| cp_Points := [ {| cp_Lat := 1; cp_Lon := 1 |}; {| cp_Lat := 91; cp_Lon := 1 |};
                             {| cp_Lat := 2; cp_Lon := 2 |} ] |}).
  - vm_compute. reflexivity.
  - vm_compute. lia.
  - vm_compute. repeat constructor; by eexists.
Defined.

Lemma distance_endpoint_has_no_range_check_witness :
  queries (distanceToCoastHandler (request [("lat", ["91"]); ("lon", ["1"])] "")) coastalStore
  = [activeQuery "coastlines"].
Proof.
  apply (distance_endpoint_has_no_range_check
           (request [("lat", ["91"]); ("lon", ["1"])] "") coastalStore 91 1);
    vm_compute; (reflexivity || discriminate).
Defined.

Example distance_endpoint_far_from_coast :
  result (distanceToCoastHandler (request [("lat", ["50"]); ("lon", ["50"])] "")) coastalStore
  = Returned (http.Error "Failed to calculate distance" http.StatusInternalServerError)
  ∧ ∃ body,
      result (classifyPointHandler (request [("lat", ["50"]); ("lon", ["50"])] "")) coastalStore
      = Returned (http.JSON body).
Proof. split; [|eexists]; vm_compute; reflexivity. Qed.

End ClassificationExamples.

(* ================================================================== *)
(** ** Landmarks near a point, achievements, administrative lists *)

Section Landmarks.
Context `{Packages} `{Decoders}.
Import firestore.

Lemma omap_cons_nearby (lat lon radius : float) (doc : DocumentSnapshot)
    (docs : list DocumentSnapshot) :
  omap (nearby_entry lat lon radius) (doc :: docs) =
  match nearby_entry lat lon radius doc with
  | Some entry => entry :: omap (nearby_entry lat lon radius) docs
  | None => omap (nearby_entry lat lon radius) docs
  end.
Proof. reflexivity. Qed.

(** The loop with its break, for a limit not yet reached: the first
    [limit] landmarks within the radius. *)
Lemma nearbyLoop_take (lat lon radius : float) (limit : Z) (docs : list DocumentSnapshot)
    (landmarks : list (gmap string Value)) :
  (Z.of_nat (length landmarks) < limit)%Z →
  nearbyLoop lat lon radius limit docs landmarks =
  take (Z.to_nat limit) (landmarks ++ omap (nearby_entry lat lon radius) docs).
Proof.
  revert landmarks. induction docs as [|doc docs IH]; intros landmarks Hroom.
  - cbn [nearbyLoop omap list_omap]. rewrite app_nil_r, take_ge; [done|lia].
  - cbn [nearbyLoop]. rewrite omap_cons_nearby. unfold nearby_entry at 1.
    destruct (DataTo_Landmark doc) as [landmark|]; cbn [mbind option_bind];
      [|by apply IH].
    destruct (_ <=? radius)%float.
    + set (entry := landmarkWithDistance _ _).
      assert (landmarks ++ entry :: omap (nearby_entry lat lon radius) docs
              = (landmarks ++ [entry]) ++ omap (nearby_entry lat lon radius) docs) as ->
        by (by rewrite <- app_assoc).
      rewrite length_app. cbn [length].
      destruct (Z.leb_spec limit (Z.of_nat (length landmarks + 1))) as [Hfull|Hless].
      * rewrite take_app_le by (rewrite length_app; cbn [length]; lia).
        rewrite take_ge; [done|]. rewrite length_app. cbn [length]. lia.
      * apply IH. rewrite length_app. cbn [length]. lia.
    + destruct (Z.leb_spec limit (Z.of_nat (length landmarks))); [lia|]. by apply IH.
Qed.

Lemma selects_nearbyQuery (bounds : Bounds) (limit : Z) (d : DocumentSnapshot) :
  selects (nearbyQuery bounds limit) d = is_active d && in_latitude_band bounds d.
Proof.
  unfold selects, nearbyQuery, Limit, Where, Collection. cbn [Filters From app forallb].
  rewrite matches_is_active.
  rewrite (matches_ge d "coordinates" "lat"), (matches_le d "coordinates" "lat").
  unfold in_latitude_band.
  change (split_path ("coordinates" +:+ "." +:+ "lat")) with ["coordinates"; "lat"].
  destruct (field_number d ["coordinates"; "lat"]);
    rewrite ?andb_true_r, ?andb_false_r; reflexivity.
Qed.

Lemma refused_nearbyQuery (bounds : Bounds) (limit : Z) :
  existsb refused (Filters (nearbyQuery bounds limit))
  = PrimFloat.is_nan (MinLat bounds) || PrimFloat.is_nan (MaxLat bounds).
Proof.
  cbn. by destruct (PrimFloat.is_nan (MinLat bounds)), (PrimFloat.is_nan (MaxLat bounds)).
Qed.

(** The nearby search, for a limit from 1 to below 2^30 (where doubling
    it neither overflows nor exceeds the 32 bits of a store limit).
    When a bound of the latitude band is NaN (a NaN latitude or radius
    gives such bounds) the store client refuses the query and the answer
    is 500.  Otherwise, when the landmarks can be read, the candidates
    are the first 2 * limit active landmarks of the latitude band of the
    bounding box (the longitude is not part of the query), and the
    handler hands to the encoder, in that order, the first [limit] of
    them that decode and lie within the radius, each with its distance.
    A landmark within the radius that is not among the first 2 * limit
    candidates is not found. *)
Theorem nearby_landmarks_from_first_candidates
    (r : http.Request) (c : Client) (lat lon : float) :
  strconv_ParseFloat (http.Get r "lat") = Some lat →
  strconv_ParseFloat (http.Get r "lon") = Some lon →
  (1 ≤ getIntQueryParam r "limit" 20 < 2 ^ 30)%Z →
  let radius := getFloatQueryParam r "radius" 1000 in
  let limit := getIntQueryParam r "limit" 20 in
  let bounds := calculateBoundingBox lat lon radius in
  (PrimFloat.is_nan (MinLat bounds) || PrimFloat.is_nan (MaxLat bounds) = true →
   result (getLandmarksNearbyHandler r) c
   = Returned (http.Error "Failed to get landmarks" http.StatusInternalServerError))
  ∧ (PrimFloat.is_nan (MinLat bounds) || PrimFloat.is_nan (MaxLat bounds) = false →
     Faults c !! "landmarks" = None →
     let candidates :=
       take (Z.to_nat (limit * 2))
         (filter (λ d, in_latitude_band bounds d = true) (active c "landmarks")) in
     let landmarks := take (Z.to_nat limit) (omap (nearby_entry lat lon radius) candidates) in
     result (getLandmarksNearbyHandler r) c
     = Returned (http.JSON (VMap
         (<["landmarks" := VArray (VMap <$> landmarks)]>
         (<["count" := VInt (Z.of_nat (length landmarks))]> ∅))))
     ∧ (length landmarks ≤ Z.to_nat limit)%nat).
Proof.
  intros Plat Plon Hlimit radius limit bounds.
  unfold getLandmarksNearbyHandler. rewrite Plat, Plon.
  fold radius limit bounds. rewrite result_bind, result_GetAll. unfold GetAll.
  rewrite refused_nearbyQuery. split.
  - intros ->. reflexivity.
  - intros -> Hup.
    split; [|rewrite length_take; lia].
    change (From (nearbyQuery _ _)) with "landmarks". rewrite Hup.
    change (MaxResults (nearbyQuery bounds limit)) with (Some (limit * 2)%Z).
    cbn beta iota.
    destruct (Z.ltb_spec (limit * 2) 0) as [Hneg|_]; [subst limit; lia|].
    rewrite result_ret, nearbyLoop_take by (cbn; subst limit; lia). rewrite app_nil_l.
    assert (filter (λ d, selects (nearbyQuery bounds limit) d = true)
              (default [] (Documents c !! "landmarks"))
            = filter (λ d, in_latitude_band bounds d = true) (active c "landmarks"))
      as ->; [|reflexivity].
    unfold active, tier. rewrite list_filter_filter. apply list_filter_iff. intros d.
    rewrite selects_nearbyQuery, andb_true_iff. tauto.
Qed.

Lemma landmarkAchievementsLoop_fmap (docs : list DocumentSnapshot)
    (achievements : list (gmap string Value)) :
  landmarkAchievementsLoop docs achievements =
  achievements ++ (landmark_achievement <$> omap DataTo_Landmark docs).
Proof.
  revert achievements. induction docs as [|doc docs IH]; intros achievements.
  - cbn. by rewrite app_nil_r.
  - cbn [landmarkAchievementsLoop omap list_omap].
    destruct (DataTo_Landmark doc); [|apply IH].
    by rewrite IH, fmap_cons, <- app_assoc.
Qed.

Lemma restaurantAchievementsLoop_fmap (docs : list DocumentSnapshot)
    (achievements : list (gmap string Value)) :
  restaurantAchievementsLoop docs achievements =
  achievements ++ (restaurant_achievement <$> omap DataTo_Restaurant docs).
Proof.
  revert achievements. induction docs as [|doc docs IH]; intros achievements.
  - cbn. by rewrite app_nil_r.
  - cbn [restaurantAchievementsLoop omap list_omap].
    destruct (DataTo_Restaurant doc); [|apply IH].
    by rewrite IH, fmap_cons, <- app_assoc.
Qed.

(** The achievement definitions: the achievements of the active
    landmarks, then those of the active restaurants, documents that do
    not decode left out.  The two collections are not treated alike: when
    the landmarks cannot be read the answer is 500, when the restaurants
    cannot be read the answer is 200 with the landmark achievements
    alone. *)
Theorem achievements_list_landmarks_then_restaurants (c : Client) :
  result getAchievementDefinitionsHandler c =
  Returned
    match Faults c !! "landmarks" with
    | Some _ => http.Error "Failed to get achievements" http.StatusInternalServerError
    | None =>
        let achievements :=
          (landmark_achievement <$> omap DataTo_Landmark (active c "landmarks"))
          ++ match Faults c !! "restaurants" with
             | Some _ => []
             | None => restaurant_achievement <$> omap DataTo_Restaurant (active c "restaurants")
             end in
        http.JSON (VMap
          (<["achievements" := VArray (VMap <$> achievements)]>
          (<["count" := VInt (Z.of_nat (length achievements))]> ∅)))
    end.
Proof.
  unfold getAchievementDefinitionsHandler.
  fold (activeQuery "landmarks") (activeQuery "restaurants").
  rewrite result_bind, result_GetAll, GetAll_activeQuery.
  destruct (Faults c !! "landmarks"); [reflexivity|].
  rewrite result_bind, result_GetAll, GetAll_activeQuery.
  destruct (Faults c !! "restaurants"); rewrite result_ret.
  - by rewrite landmarkAchievementsLoop_fmap, app_nil_l, app_nil_r.
  - by rewrite restaurantAchievementsLoop_fmap, landmarkAchievementsLoop_fmap, app_nil_l.
Qed.



End Landmarks.

Section LandmarkExamples.
Local Existing Instance fixture.packages.
Local Existing Instance fixture_decoders.decoders.
Import firestore fixtures more_fixtures.

Lemma nearby_landmarks_from_first_candidates_witness :
  let r := request [("lat", ["1"]); ("lon", ["1"]); ("limit", ["1"])] "" in
  let radius := getFloatQueryParam r "radius" 1000 in
  let limit := getIntQueryParam r "limit" 20 in
  let candidates :=
    take (Z.to_nat (limit * 2))
      (filter (λ d, in_latitude_band (calculateBoundingBox 1 1 radius) d = true)
         (active landmarkStore "landmarks")) in
  let landmarks := take (Z.to_nat limit) (omap (nearby_entry 1 1 radius) candidates) in
  result (getLandmarksNearbyHandler r) landmarkStore
  = Returned (http.JSON (VMap
      (<["landmarks" := VArray (VMap <$> landmarks)]>
      (<["count" := VInt (Z.of_nat (length landmarks))]> ∅))))
  ∧ (length landmarks ≤ Z.to_nat limit)%nat.
Proof.
  refine (proj2 (nearby_landmarks_from_first_candidates
                   (request [("lat", ["1"]); ("lon", ["1"]); ("limit", ["1"])] "")
                   landmarkStore 1 1 _ _ _) _ _).
  - vm_compute. reflexivity.
  - vm_compute. reflexivity.
  - change (getIntQueryParam _ "limit" 20) with 1%Z. lia.
  - vm_compute. reflexivity.
  - vm_compute. reflexivity.
Defined.

(** A latitude that parses as NaN is answered 500: the client refuses
    the comparison with NaN. *)
Example nearby_landmarks_at_nan :
  result (getLandmarksNearbyHandler (request [("lat", ["NaN"]); ("lon", ["1"])] ""))
    landmarkStore
  = Returned (http.Error "Failed to get landmarks" http.StatusInternalServerError).
Proof. vm_compute. reflexivity. Qed.

(** With the limit 1 the second landmark at the same place is left
    out. *)
Example nearby_landmarks_limit_1 :
  ∃ entry,
    result (getLandmarksNearbyHandler
              (request [("lat", ["1"]); ("lon", ["1"]); ("limit", ["1"])] "")) landmarkStore
    = Returned (http.JSON (VMap
        (<["landmarks" := VArray [VMap entry]]> (<["count" := VInt 1]> ∅))))
    ∧ entry !! "id" = Some (VString "near").
Proof. eexists. split; vm_compute; reflexivity. Qed.

Example achievements_without_restaurants :
  ∃ entry,
    result getAchievementDefinitionsHandler noRestaurantStore
    = Returned (http.JSON (VMap
        (<["achievements" := VArray [VMap entry]]> (<["count" := VInt 1]> ∅))))
    ∧ entry !! "landmark_id" = Some (VString "near").
Proof. eexists. split; vm_compute; reflexivity. Qed.

Example achievements_without_landmarks :
  result getAchievementDefinitionsHandler noLandmarkStore
  = Returned (http.Error "Failed to get achievements" http.StatusInternalServerError).
Proof. vm_compute. reflexivity. Qed.

Example admin_limit_out_of_bounds :
  adminLimit (request [("limit", ["1001"])] "") = 100%Z
  ∧ adminLimit (request [("limit", ["0"])] "") = 100%Z
  ∧ adminLimit (request [("limit", ["1000"])] "") = 1000%Z.
Proof. vm_compute. repeat split; reflexivity. Qed.

End LandmarkExamples.

(* ================================================================== *)
(** ** What the encoder writes *)

Lemma encodable_scalar (v : Value) :
  match v with VNull | VBool _ | VInt _ | VString _ => True | _ => False end →
  encodable v.
Proof. intros Hv Hun. by destruct Hun. Qed.

Lemma encodable_double (f : float) : PrimFloat.is_finite f = true → encodable (VDouble f).
Proof. intros Hf Hun. inversion Hun. congruence. Qed.

Lemma encodable_array (vs : list Value) : Forall encodable vs → encodable (VArray vs).
Proof.
  intros Hvs Hun. inversion Hun as [|vs' v Hin Hv|]; subst.
  by apply (proj1 (Forall_forall _ _) Hvs v Hin).
Qed.

Lemma encodable_empty : encodable (VMap ∅).
Proof. intros Hun. inversion Hun as [| |m k v Hk Hv]; subst. by rewrite lookup_empty in Hk. Qed.

Lemma encodable_insert (k : string) (v : Value) (m : gmap string Value) :
  encodable v → encodable (VMap m) → encodable (VMap (<[k := v]> m)).
Proof.
  intros Hv Hm Hun. inversion Hun as [| |m' k' v' Hk Hv']; subst.
  apply lookup_insert_Some in Hk as [[_ <-]|[_ Hk]]; [done|].
  apply Hm. by econstructor.
Qed.

Ltac encodable_map :=
  repeat first
    [ apply encodable_insert
    | apply encodable_empty
    | apply encodable_scalar; exact I
    | apply encodable_double; (assumption || reflexivity) ].

Lemma finite_within_encodable (depth : nat) (v : Value) :
  finite_within depth v = true → encodable v.
Proof.
  revert v. induction depth as [|depth IH]; intros v; [discriminate|].
  intros Hv Hun. destruct Hun as [f Hf|vs v Hin Hun|m k v Hk Hun]; cbn in Hv.
  - congruence.
  - apply (IH v); [|exact Hun].
    apply (proj1 (forallb_forall _ _) Hv). by apply list_elem_of_In.
  - apply (IH v); [|exact Hun].
    apply (proj1 (forallb_forall _ _) Hv). apply list_elem_of_In.
    apply list_elem_of_fmap. exists (k, v). split; [done|].
    by apply elem_of_map_to_list.
Qed.

(* ================================================================== *)
(** ** Boundaries of a point, tier by tier *)

Section Tiers.
Context `{Packages} `{Decoders}.
Import firestore.

(** One resolution, as a run: its query, and what it resolves. *)
Lemma findContainingEntities_resolved (c : Client) (collection : string) (lat lon : float) :
  findContainingEntities collection lat lon c
  = (Returned (resolved c collection lat lon), [boundsQuery collection lat lon]).
Proof.
  destruct (findContainingEntities_run c collection lat lon) as [entities Hrun].
  pose proof (findContainingEntities_result c collection lat lon) as Hres.
  unfold result in Hres. rewrite Hrun in Hres. cbn [fst] in Hres.
  injection Hres as ->. exact Hrun.
Qed.

Lemma appendTier_group (c : Client) (lat lon : float) (boundaries : list Value)
    (collection type : string) :
  appendTier boundaries type (resolved c collection lat lon)
  = boundaries ++ group c lat lon (collection, type).
Proof.
  unfold appendTier, group. cbn [fst snd].
  destruct (resolved c collection lat lon); cbn; [by rewrite app_nil_r|reflexivity].
Qed.

Lemma lookupTier_group (c : Client) (lat lon : float) (boundaries : list Value)
    (location : gmap string Value) (collection type : string) :
  lookupTier type (resolved c collection lat lon) (boundaries, location)
  = (boundaries ++ group c lat lon (collection, type),
     located c lat lon location (collection, type)).
Proof.
  unfold lookupTier, group, located. cbn [fst snd].
  destruct (resolved c collection lat lon); [by rewrite app_nil_r|reflexivity].
Qed.

Lemma adminLoop_run (c : Client) (lat lon : float) (levels : list (string * string))
    (boundaries : list Value) (location : gmap string Value) :
  adminLoop lat lon levels (boundaries, location) c
  = (Returned (boundaries ++ concat (group c lat lon <$> levels),
               foldl (located c lat lon) location levels),
     (λ tier, boundsQuery tier.1 lat lon) <$> levels).
Proof.
  revert boundaries location.
  induction levels as [|[collection type] levels IH]; intros boundaries location.
  - cbn. by rewrite app_nil_r.
  - cbn [adminLoop].
    rewrite (bind_run _ _ _ _ _ (findContainingEntities_resolved c collection lat lon)).
    rewrite lookupTier_group, IH. cbn [fst snd fmap list_fmap concat foldl app].
    by rewrite <- app_assoc.
Qed.

Lemma foldl_located_other (c : Client) (lat lon : float) (tiers : list (string * string))
    (location : gmap string Value) (type : string) :
  type ∉ tiers.*2 →
  foldl (located c lat lon) location tiers !! type = location !! type.
Proof.
  revert location. induction tiers as [|[collection type'] tiers IH]; intros location Hnot;
    [reflexivity|].
  rewrite fmap_cons in Hnot. apply not_elem_of_cons in Hnot as [Hne Hnot].
  cbn [foldl]. rewrite IH by done. unfold located. cbn [fst snd].
  destruct (resolved c collection lat lon); [reflexivity|].
  by rewrite lookup_insert_ne.
Qed.

Lemma foldl_located_lookup (c : Client) (lat lon : float) (tiers : list (string * string))
    (location : gmap string Value) (collection type : string) :
  NoDup tiers.*2 → (collection, type) ∈ tiers →
  foldl (located c lat lon) location tiers !! type
  = match head (resolved c collection lat lon) with
    | Some first => Some (VMap first)
    | None => location !! type
    end.
Proof.
  revert location. induction tiers as [|[collection' type'] tiers IH];
    intros location Hnd Hin; [by apply elem_of_nil in Hin|].
  rewrite fmap_cons in Hnd. apply NoDup_cons in Hnd as [Hfresh Hnd].
  cbn [foldl]. apply elem_of_cons in Hin as [[= <- <-]|Hin].
  - rewrite foldl_located_other by done. unfold located. cbn [fst snd].
    destruct (resolved c collection lat lon); [reflexivity|].
    by rewrite lookup_insert_eq.
  - rewrite IH by done. destruct (head _); [reflexivity|].
    unfold located. cbn [fst snd].
    destruct (resolved c collection' lat lon); [reflexivity|].
    rewrite lookup_insert_ne; [reflexivity|].
    intros ->. apply Hfresh. apply list_elem_of_fmap. by exists (collection, type).
Qed.

Lemma getBoundariesContainingHandler_result
    (r : http.Request) (c : Client) (lat lon : float) :
  strconv_ParseFloat (http.Get r "lat") = Some lat →
  strconv_ParseFloat (http.Get r "lon") = Some lon →
  result (getBoundariesContainingHandler r) c
  = Returned (http.JSON (VMap
      (<["lat" := VDouble lat]>
      (<["lon" := VDouble lon]>
      (<["boundaries" := VArray (concat (group c lat lon <$> take 4 lookupTiers))]>
      (<["count" :=
           VInt (Z.of_nat (length (concat (group c lat lon <$> take 4 lookupTiers))))]>
       ∅)))))).
Proof.
  intros Plat Plon. unfold getBoundariesContainingHandler, result. rewrite Plat, Plon.
  rewrite (bind_run _ _ _ _ _ (findContainingEntities_resolved c "sovereign_states" lat lon)),
    (bind_run _ _ _ _ _ (findContainingEntities_resolved c "countries" lat lon)),
    (bind_run _ _ _ _ _ (findContainingEntities_resolved c "map_units" lat lon)),
    (bind_run _ _ _ _ _ (findContainingEntities_resolved c "map_subunits" lat lon)).
  rewrite !appendTier_group. cbn [fst snd ret take lookupTiers app fmap list_fmap concat].
  rewrite app_nil_r, !app_assoc. reflexivity.
Qed.

Lemma getLocationLookupHandler_run (r : http.Request) (c : Client) (lat lon : float) :
  strconv_ParseFloat (http.Get r "lat") = Some lat →
  strconv_ParseFloat (http.Get r "lon") = Some lon →
  getLocationLookupHandler r c
  = (Returned (http.JSON (VMap
       (<["lat" := VDouble lat]>
       (<["lon" := VDouble lon]>
       (<["location" := VMap (foldl (located c lat lon) ∅ lookupTiers)]>
       (<["natural_earth_boundaries" :=
            VArray (concat (group c lat lon <$> take 4 lookupTiers))]>
       (<["gadm_boundaries" := VArray (concat (group c lat lon <$> adminLevels))]>
       (<["total_boundaries" :=
            VInt (Z.of_nat (length (concat (group c lat lon <$> take 4 lookupTiers)))
                  + Z.of_nat (length (concat (group c lat lon <$> adminLevels))))]>
        ∅)))))))),
     (λ tier, boundsQuery tier.1 lat lon) <$> lookupTiers).
Proof.
  intros Plat Plon. unfold getLocationLookupHandler. rewrite Plat, Plon.
  rewrite (bind_run _ _ _ _ _ (findContainingEntities_resolved c "sovereign_states" lat lon)),
    (bind_run _ _ _ _ _ (findContainingEntities_resolved c "countries" lat lon)),
    (bind_run _ _ _ _ _ (findContainingEntities_resolved c "map_units" lat lon)),
    (bind_run _ _ _ _ _ (findContainingEntities_resolved c "map_subunits" lat lon)).
  rewrite !lookupTier_group.
  rewrite (bind_run _ _ _ _ _ (adminLoop_run c lat lon adminLevels [] _)).
  cbn [fst snd ret take lookupTiers app fmap list_fmap concat foldl].
  rewrite !app_nil_r, !app_assoc. reflexivity.
Qed.

(** *** What the encoder writes of these bodies *)

Lemma encodable_groups (c : Client) (lat lon : float) (tiers : list (string * string)) :
  (∀ tier entity, tier ∈ tiers → entity ∈ resolved c tier.1 lat lon →
                  encodable (VMap entity)) →
  Forall encodable (concat (group c lat lon <$> tiers)).
Proof.
  intros Hentities. apply Forall_concat, Forall_fmap, Forall_forall.
  intros tier Htier. cbn. unfold group.
  pose proof (Hentities tier) as Htier_entities.
  destruct (resolved c tier.1 lat lon) as [|first rest]; [constructor|].
  constructor; [|constructor]. encodable_map.
  apply encodable_array, Forall_fmap, Forall_forall. intros entity Hentity. by apply Htier_entities.
Qed.

Lemma encodable_located (c : Client) (lat lon : float) (tiers : list (string * string))
    (location : gmap string Value) :
  encodable (VMap location) →
  (∀ tier entity, tier ∈ tiers → entity ∈ resolved c tier.1 lat lon →
                  encodable (VMap entity)) →
  encodable (VMap (foldl (located c lat lon) location tiers)).
Proof.
  revert location. induction tiers as [|tier tiers IH]; intros location Hlocation Hentities;
    [exact Hlocation|].
  cbn [foldl]. apply IH; [|intros t e Ht; apply Hentities; by right].
  unfold located. pose proof (Hentities tier) as Htier.
  destruct (resolved c tier.1 lat lon) as [|first rest]; [exact Hlocation|].
  apply encodable_insert; [|exact Hlocation]. apply Htier; by left.
Qed.

(** At a finite point, over entities that hold no NaN or infinity, the
    body of boundaries/containing is one the encoder writes. *)
Lemma containingBody_encodable (c : Client) (lat lon : float) :
  PrimFloat.is_finite lat = true → PrimFloat.is_finite lon = true →
  (∀ tier entity, tier ∈ take 4 lookupTiers → entity ∈ resolved c tier.1 lat lon →
                  encodable (VMap entity)) →
  encodable (VMap (containingBody c lat lon)).
Proof.
  intros Hlat Hlon Hentities. unfold containingBody. encodable_map.
  by apply encodable_array, encodable_groups.
Qed.

Lemma lookupBody_encodable (c : Client) (lat lon : float) :
  PrimFloat.is_finite lat = true → PrimFloat.is_finite lon = true →
  (∀ tier entity, tier ∈ lookupTiers → entity ∈ resolved c tier.1 lat lon →
                  encodable (VMap entity)) →
  encodable (VMap (lookupBody c lat lon)).
Proof.
  intros Hlat Hlon Hentities. unfold lookupBody. encodable_map.
  - apply encodable_located; [apply encodable_empty|exact Hentities].
  - apply encodable_array, encodable_groups. intros tier entity Htier.
    apply Hentities. apply elem_of_app. by left.
  - apply encodable_array, encodable_groups. intros tier entity Htier.
    apply Hentities. apply elem_of_app. by right.
Qed.

(** At a NaN or an infinity both bodies hold it, and nothing is
    written. *)
Lemma bodies_unencodable (c : Client) (lat lon : float) :
  PrimFloat.is_finite lat = false ∨ PrimFloat.is_finite lon = false →
  unencodable (VMap (containingBody c lat lon)) ∧ unencodable (VMap (lookupBody c lat lon)).
Proof.
  unfold containingBody, lookupBody. intros [Hlat|Hlon]; split.
  - apply (unencodable_map _ "lat" (VDouble lat)); [by rewrite lookup_insert_eq|].
    by constructor.
  - apply (unencodable_map _ "lat" (VDouble lat)); [by rewrite lookup_insert_eq|].
    by constructor.
  - apply (unencodable_map _ "lon" (VDouble lon));
      [rewrite lookup_insert_ne by done; by rewrite lookup_insert_eq|].
    by constructor.
  - apply (unencodable_map _ "lon" (VDouble lon));
      [rewrite lookup_insert_ne by done; by rewrite lookup_insert_eq|].
    by constructor.
Qed.

(** At a finite point, over entities that hold no NaN or infinity: the
    boundaries of the point are the groups of the four tiers that
    resolve to something, in tier order, and [count] is the number of
    groups; the encoder writes that body.  A tier whose query fails
    resolves to nothing: when no tier can be read the answer is the 200
    of a point that lies in no boundary, with no boundary in the list
    (the nil slice, which the encoder writes as null) and the count 0. *)
Theorem containing_hides_store_failures (r : http.Request) (c : Client) (lat lon : float) :
  strconv_ParseFloat (http.Get r "lat") = Some lat →
  strconv_ParseFloat (http.Get r "lon") = Some lon →
  PrimFloat.is_finite lat = true →
  PrimFloat.is_finite lon = true →
  (∀ tier entity, tier ∈ take 4 lookupTiers → entity ∈ resolved c tier.1 lat lon →
                  encodable (VMap entity)) →
  (let boundaries := concat (group c lat lon <$> take 4 lookupTiers) in
   let body :=
     VMap (<["lat" := VDouble lat]>
          (<["lon" := VDouble lon]>
          (<["boundaries" := VArray boundaries]>
          (<["count" := VInt (Z.of_nat (length boundaries))]> ∅)))) in
   result (getBoundariesContainingHandler r) c = Returned (http.JSON body)
   ∧ encodable body)
  ∧ ((∀ tier, tier ∈ take 4 lookupTiers → is_Some (Faults c !! tier.1)) →
     result (getBoundariesContainingHandler r) c
     = Returned (http.JSON (VMap
         (<["lat" := VDouble lat]>
         (<["lon" := VDouble lon]>
         (<["boundaries" := VArray []]>
         (<["count" := VInt 0]> ∅))))))).
Proof.
  intros Plat Plon Hlat Hlon Hentities.
  pose proof (getBoundariesContainingHandler_result r c lat lon Plat Plon) as Hbody.
  split; [split; [exact Hbody|by apply containingBody_encodable]|].
  intros Hdown. rewrite Hbody.
  assert (concat (group c lat lon <$> take 4 lookupTiers) = []) as ->; [|reflexivity].
  assert (∀ tier, tier ∈ take 4 lookupTiers → group c lat lon tier = []) as Hnone.
  { intros tier [e He]%Hdown. unfold group, resolved. by rewrite He. }
  cbn [take lookupTiers app fmap list_fmap concat].
  rewrite !Hnone; [reflexivity|cbn; set_solver..].
Qed.

(** At a finite point, over entities that hold no NaN or infinity: the
    location lookup resolves the nine tiers in their order, the four
    Natural Earth tiers and then the five administrative levels, one
    query each.  The location files under each tier's type the first
    entity the tier resolves to, and nothing for a tier that resolves to
    nothing; the two boundary lists hold the groups of the tiers that
    resolve to something, and [total_boundaries] is their number.  The
    answer is a 200 whatever the store does, and the encoder writes the
    body. *)
Theorem location_lookup_files_first_match (r : http.Request) (c : Client) (lat lon : float) :
  strconv_ParseFloat (http.Get r "lat") = Some lat →
  strconv_ParseFloat (http.Get r "lon") = Some lon →
  PrimFloat.is_finite lat = true →
  PrimFloat.is_finite lon = true →
  (∀ tier entity, tier ∈ lookupTiers → entity ∈ resolved c tier.1 lat lon →
                  encodable (VMap entity)) →
  queries (getLocationLookupHandler r) c = (λ tier, boundsQuery tier.1 lat lon) <$> lookupTiers
  ∧ ∃ body location,
      result (getLocationLookupHandler r) c = Returned (http.JSON (VMap body))
      ∧ encodable (VMap body)
      ∧ body !! "location" = Some (VMap location)
      ∧ (∀ collection type,
           (collection, type) ∈ lookupTiers →
           location !! type = VMap <$> head (resolved c collection lat lon))
      ∧ body !! "natural_earth_boundaries"
        = Some (VArray (concat (group c lat lon <$> take 4 lookupTiers)))
      ∧ body !! "gadm_boundaries" = Some (VArray (concat (group c lat lon <$> adminLevels)))
      ∧ body !! "total_boundaries"
        = Some (VInt (Z.of_nat (length (concat (group c lat lon <$> lookupTiers))))).
Proof.
  intros Plat Plon Hlat Hlon Hentities.
  pose proof (getLocationLookupHandler_run r c lat lon Plat Plon) as Hrun.
  unfold queries, result. rewrite Hrun. cbn [fst snd]. split; [reflexivity|].
  exists (lookupBody c lat lon), (foldl (located c lat lon) ∅ lookupTiers).
  split; [reflexivity|]. split; [by apply lookupBody_encodable|].
  unfold lookupBody. split; [|split; [|split; [|split]]].
  - rewrite lookup_insert_ne by done. rewrite lookup_insert_ne by done.
    by rewrite lookup_insert_eq.
  - intros collection type Hin.
    rewrite (foldl_located_lookup c lat lon lookupTiers ∅ collection type); [|..|exact Hin].
    + by destruct (head _).
    + apply (bool_decide_unpack _). vm_compute. exact I.
  - do 3 (rewrite lookup_insert_ne by done). by rewrite lookup_insert_eq.
  - do 4 (rewrite lookup_insert_ne by done). by rewrite lookup_insert_eq.
  - do 5 (rewrite lookup_insert_ne by done). rewrite lookup_insert_eq.
    do 2 f_equal. rewrite <- Nat2Z.inj_add, <- length_app, <- concat_app, <- fmap_app.
    reflexivity.
Qed.

(** The two endpoints agree on a point that some Natural Earth tier
    resolves: at a finite point, over entities that hold no NaN or
    infinity, both bodies are written, and the Natural Earth boundaries
    of the location lookup are the boundaries of boundaries/containing,
    a list that is not empty.  (For a point no tier resolves the first
    list is the nil slice, written null, and the second the empty slice,
    written as an empty array: the case is left out.) *)
Theorem lookup_agrees_with_containing (r r' : http.Request) (c : Client) (lat lon : float) :
  strconv_ParseFloat (http.Get r "lat") = Some lat →
  strconv_ParseFloat (http.Get r "lon") = Some lon →
  strconv_ParseFloat (http.Get r' "lat") = Some lat →
  strconv_ParseFloat (http.Get r' "lon") = Some lon →
  PrimFloat.is_finite lat = true →
  PrimFloat.is_finite lon = true →
  (∀ tier entity, tier ∈ lookupTiers → entity ∈ resolved c tier.1 lat lon →
                  encodable (VMap entity)) →
  (∃ tier, tier ∈ take 4 lookupTiers ∧ resolved c tier.1 lat lon ≠ []) →
  ∃ body body' boundaries,
    result (getBoundariesContainingHandler r) c = Returned (http.JSON (VMap body))
    ∧ result (getLocationLookupHandler r') c = Returned (http.JSON (VMap body'))
    ∧ encodable (VMap body) ∧ encodable (VMap body')
    ∧ boundaries ≠ []
    ∧ body !! "boundaries" = Some (VArray boundaries)
    ∧ body' !! "natural_earth_boundaries" = Some (VArray boundaries).
Proof.
  intros Plat Plon Plat' Plon' Hlat Hlon Hentities (tier & Htier & Hresolved).
  rewrite (getBoundariesContainingHandler_result r c lat lon Plat Plon).
  unfold result at 1. rewrite (getLocationLookupHandler_run r' c lat lon Plat' Plon').
  cbn [fst].
  exists (containingBody c lat lon), (lookupBody c lat lon),
    (concat (group c lat lon <$> take 4 lookupTiers)).
  split; [reflexivity|]. split; [reflexivity|].
  split; [apply containingBody_encodable; [done..|]|].
  { intros t e Ht. apply Hentities. apply elem_of_app. by left. }
  split; [by apply lookupBody_encodable|]. split; [|split].
  - intros Hnone.
    assert (group c lat lon tier = []) as Hgroup.
    { apply (proj1 (Forall_forall (λ l, l = []) _)
               (proj1 (concat_nil_Forall _) Hnone)).
      apply list_elem_of_fmap. by exists tier. }
    unfold group in Hgroup. by destruct (resolved c tier.1 lat lon).
  - unfold containingBody. do 2 (rewrite lookup_insert_ne by done).
    by rewrite lookup_insert_eq.
  - unfold lookupBody. do 3 (rewrite lookup_insert_ne by done).
    by rewrite lookup_insert_eq.
Qed.

Lemma assert_float64_Some (x : option Value) (v : float) :
  assert_float64 x = Some v → x = Some (VDouble v).
Proof. destruct x as [[]|]; cbn; congruence. Qed.

(** The land test errs on one side only.  Where the exact test of the
    resolver finds an active land polygon (its bounds, four doubles,
    hold the point and its geometry contains it), the land test answers
    land: a point is never taken for ocean because of the missing
    geometry test. *)
Theorem land_test_never_misses_land (lat lon : float) (c : Client) (d : DocumentSnapshot) :
  Faults c !! "land_polygons" = None →
  d ∈ tier c "land_polygons" →
  is_active d = true →
  bounds_well_formed d →
  bounds_contain lat lon d = true →
  geometry_contains lat lon d = true →
  result (isPointOnLand lat lon) c = Returned (true, None).
Proof.
  intros Hup Hd Hactive Hwf Hbounds Hgeometry.
  rewrite result_isPointOnLand, Hup, onLandLoop_existsb. do 2 f_equal.
  apply existsb_exists. exists d. split.
  - apply list_elem_of_In. apply list_elem_of_filter. by split.
  - unfold land_rectangle_holds. unfold geometry_contains in Hgeometry.
    destruct (assert_string (Data d !! "geometry")); [|discriminate].
    unfold bounds_contain, field_number in Hbounds. cbn [lookup_path] in Hbounds.
    unfold bounds_well_formed in Hwf.
    destruct (Data d !! "bounds") as [[| | | | | |bounds]|]; try discriminate.
    cbn [assert_map] in Hwf |- *.
    destruct Hwf as ([a Ha] & [b Hb] & [a' Ha'] & [b' Hb']).
    unfold float64_or_zero. rewrite Ha, Hb, Ha', Hb'.
    rewrite (assert_float64_Some _ _ Ha), (assert_float64_Some _ _ Hb),
      (assert_float64_Some _ _ Ha'), (assert_float64_Some _ _ Hb') in Hbounds.
    exact Hbounds.
Qed.

End Tiers.

Section TierExamples.
Local Existing Instance fixture.packages.
Local Existing Instance fixture_decoders.decoders.
Import firestore fixtures more_fixtures.

(** The entities a concrete store resolves are checked one by one. *)
Local Ltac entities_encodable :=
  let tier := fresh "tier" in
  let entity := fresh "entity" in
  let Htier := fresh "Htier" in
  let Hentity := fresh "Hentity" in
  intros tier entity Htier Hentity; cbn in Htier;
  repeat (apply elem_of_cons in Htier as [->|Htier];
          [vm_compute in Hentity;
           repeat (apply elem_of_cons in Hentity as [->|Hentity];
                   [apply (finite_within_encodable 4); vm_compute; reflexivity|]);
           by apply elem_of_nil in Hentity|]);
  by apply elem_of_nil in Htier.

Lemma containing_hides_store_failures_witness :
  result (getBoundariesContainingHandler (request [("lat", ["1"]); ("lon", ["1"])] "")) deadStore
  = Returned (http.JSON (VMap
      (<["lat" := VDouble 1]>
      (<["lon" := VDouble 1]>
      (<["boundaries" := VArray []]>
      (<["count" := VInt 0]> ∅)))))).
Proof.
  refine (proj2 (containing_hides_store_failures
                   (request [("lat", ["1"]); ("lon", ["1"])] "") deadStore 1 1 _ _ _ _ _) _).
  - vm_compute. reflexivity.
  - vm_compute. reflexivity.
  - vm_compute. reflexivity.
  - vm_compute. reflexivity.
  - entities_encodable.
  - intros tier Hin. cbn in Hin.
    repeat (apply elem_of_cons in Hin as [->|Hin]; [by eexists|]).
    by apply elem_of_nil in Hin.
Defined.

Lemma location_lookup_files_first_match_witness :
  queries (getLocationLookupHandler (request [("lat", ["1"]); ("lon", ["1"])] "")) lookupStore
  = (λ tier, boundsQuery tier.1 1 1) <$> lookupTiers.
Proof.
  refine (proj1 (location_lookup_files_first_match
                   (request [("lat", ["1"]); ("lon", ["1"])] "") lookupStore 1 1 _ _ _ _ _)).
  - vm_compute. reflexivity.
  - vm_compute. reflexivity.
  - vm_compute. reflexivity.
  - vm_compute. reflexivity.
  - entities_encodable.
Defined.

Lemma lookup_agrees_with_containing_witness :
  ∃ body body' boundaries,
    result (getBoundariesContainingHandler (request [("lat", ["1"]); ("lon", ["1"])] ""))
      lookupStore = Returned (http.JSON (VMap body))
    ∧ result (getLocationLookupHandler
                (request [("lon", ["1"]); ("lat", ["1"]); ("limit", ["5"])] ""))
        lookupStore = Returned (http.JSON (VMap body'))
    ∧ encodable (VMap body) ∧ encodable (VMap body')
    ∧ boundaries ≠ []
    ∧ body !! "boundaries" = Some (VArray boundaries)
    ∧ body' !! "natural_earth_boundaries" = Some (VArray boundaries).
Proof.
  apply (lookup_agrees_with_containing
           (request [("lat", ["1"]); ("lon", ["1"])] "")
           (request [("lon", ["1"]); ("lat", ["1"]); ("limit", ["5"])] "") lookupStore 1 1).
  - vm_compute. reflexivity.
  - vm_compute. reflexivity.
  - vm_compute. reflexivity.
  - vm_compute. reflexivity.
  - vm_compute. reflexivity.
  - vm_compute. reflexivity.
  - entities_encodable.
  - exists ("countries", "country"). split; [cbn; set_solver|]. vm_compute. discriminate.
Defined.

(** At a NaN latitude the handler still ends in its call of the
    encoder, with a body the encoder refuses: a 200 without a body. *)
Example containing_at_nan :
  ∃ body,
    result (getBoundariesContainingHandler (request [("lat", ["NaN"]); ("lon", ["1"])] ""))
      lookupStore = Returned (http.JSON body)
    ∧ unencodable body.
Proof.
  eexists. split; [vm_compute; reflexivity|].
  apply (unencodable_map _ "lat" (VDouble PrimFloat.nan)); [vm_compute; reflexivity|].
  by constructor.
Qed.

Lemma land_test_never_misses_land_witness :
  result (isPointOnLand 1 1) coastalStore = Returned (true, None).
Proof.
  apply (land_test_never_misses_land 1 1 coastalStore triangleDoc).
  - vm_compute. reflexivity.
  - vm_compute. repeat constructor.
  - vm_compute. reflexivity.
  - vm_compute. repeat split; by eexists.
  - vm_compute. reflexivity.
  - vm_compute. reflexivity.
Defined.

(** Of the two countries that contain (1, 1), the first is the country of
    the location. *)
Example location_lookup_first_country :
  ∃ body location,
    result (getLocationLookupHandler (request [("lat", ["1"]); ("lon", ["1"])] "")) lookupStore
    = Returned (http.JSON (VMap body))
    ∧ body !! "location" = Some (VMap location)
    ∧ location !! "country" = Some (VMap (Data triangleDoc))
    ∧ location !! "state_province" = Some (VMap (Data triangleDoc))
    ∧ location !! "sovereign_state" = None
    ∧ body !! "total_boundaries" = Some (VInt 2).
Proof. eexists _, _. repeat split; vm_compute; reflexivity. Qed.

End TierExamples.

(* ================================================================== *)
(** ** The bulk catalog, continued *)

Section Catalog.
Context `{Packages}.
Import firestore.

(** The catalog covers every id: an id is the id of an entry exactly
    when it is the id of an active sovereign state or of an active
    country, duplicated ids included; [total_count] is the number of
    entries and [visited_count] is always 0. *)
Theorem bulk_catalog_covers_every_id (r : http.Request) (c : Client) :
  Faults c !! "sovereign_states" = None →
  Faults c !! "countries" = None →
  ∃ (body : gmap string Value) (entries : list (gmap string Value)),
    result (getBulkCountriesHandler r) c = Returned (http.JSON (VMap body))
    ∧ body !! "countries" = Some (VArray (VMap <$> entries))
    ∧ body !! "total_count" = Some (VInt (Z.of_nat (length entries)))
    ∧ body !! "visited_count" = Some (VInt 0)
    ∧ ∀ id, Some (VString id) ∈ entry_id <$> entries
            ↔ id ∈ ss_ID <$> active_sovereign_states c
              ∨ id ∈ co_ID <$> active_countries c.
Proof.
  intros Hs Hc. eexists _, _. split; [|split; [|split; [|split]]].
  - unfold getBulkCountriesHandler.
    rewrite result_bind, result_GetAll, GetAll_activeQuery, Hs.
    rewrite result_bind, result_GetAll, GetAll_activeQuery, Hc.
    rewrite result_ret. reflexivity.
  - by rewrite lookup_insert_eq.
  - do 3 (rewrite lookup_insert_ne by done). by rewrite lookup_insert_eq.
  - do 2 (rewrite lookup_insert_ne by done). by rewrite lookup_insert_eq.
  - intros id. rewrite bulkCountries_spec, entry_ids.
    fold (active_sovereign_states c) (active_countries c).
    rewrite list_elem_of_fmap. split.
    + intros (id' & [= <-] & [Hin|Hin]%elem_of_app); [by left|right].
      apply list_elem_of_fmap in Hin as (country & -> & Hcountry).
      destruct (not_yet_emitted_fresh (ss_ID <$> active_sovereign_states c)
                  (active_countries c)) as [_ Hfresh].
      apply list_elem_of_fmap. exists country. split; [done|].
      by destruct (Hfresh country Hcountry).
    + intros Hid. exists id. split; [done|]. apply elem_of_app.
      destruct (decide (id ∈ ss_ID <$> active_sovereign_states c)) as [Hin|Hnew];
        [by left|right].
      destruct Hid as [Hin|Hin]; [done|]. by apply not_yet_emitted_first.
Qed.

(** The catalog is all or nothing: when the sovereign states cannot be
    read the answer is 500 and the countries are not read; when the
    countries cannot be read the answer is 500 after both reads. *)
Theorem bulk_catalog_is_all_or_nothing (r : http.Request) (c : Client) :
  (is_Some (Faults c !! "sovereign_states") →
   getBulkCountriesHandler r c
   = (Returned (http.Error "Failed to get sovereign states" http.StatusInternalServerError),
      [activeQuery "sovereign_states"]))
  ∧ (Faults c !! "sovereign_states" = None → is_Some (Faults c !! "countries") →
     getBulkCountriesHandler r c
     = (Returned (http.Error "Failed to get countries" http.StatusInternalServerError),
        [activeQuery "sovereign_states"; activeQuery "countries"])).
Proof.
  unfold getBulkCountriesHandler, bind, Documents_GetAll. rewrite GetAll_activeQuery.
  split.
  - intros [e ->]. reflexivity.
  - intros -> [e He]. cbn beta iota. rewrite GetAll_activeQuery, He. reflexivity.
Qed.

End Catalog.

Section CatalogExamples.
Local Existing Instance fixture.packages.
Import firestore fixtures more_fixtures.

Lemma bulk_catalog_covers_every_id_witness :
  ∃ (body : gmap string Value) (entries : list (gmap string Value)),
    result (getBulkCountriesHandler (request [] "")) duplicateStore
    = Returned (http.JSON (VMap body))
    ∧ body !! "countries" = Some (VArray (VMap <$> entries))
    ∧ body !! "total_count" = Some (VInt (Z.of_nat (length entries)))
    ∧ body !! "visited_count" = Some (VInt 0)
    ∧ ∀ id, Some (VString id) ∈ entry_id <$> entries
            ↔ id ∈ ss_ID <$> active_sovereign_states duplicateStore
              ∨ id ∈ co_ID <$> active_countries duplicateStore.
Proof.
  apply (bulk_catalog_covers_every_id (request [] "") duplicateStore);
    vm_compute; reflexivity.
Defined.

Example bulk_catalog_store_down :
  getBulkCountriesHandler (request [] "") deadStore
  = (Returned (http.Error "Failed to get sovereign states" http.StatusInternalServerError),
     [activeQuery "sovereign_states"]).
Proof. vm_compute. reflexivity. Qed.

End CatalogExamples.

(* ================================================================== *)
(** ** The batch lookup, continued *)

Section Enrichment.
Context `{Packages}.

Local Ltac mock_case n :=
  eexists _, n; split; [vm_compute; reflexivity|];
  split; [lia|]; split; [reflexivity|]; split; [reflexivity|];
  split; [auto|]; intros; (lia || reflexivity).

(** What an enrichment of the batch lookup holds: the lower-cased names
    of the first [n] mock boundaries, the resolution that goes with
    their number, and no landmarks or the three of New York. *)
Lemma enrichPoint_mock (point : PointLookup) :
  ∃ enrichment n,
    enrichPoint point = Returned enrichment
    ∧ (n ≤ 4)%nat
    ∧ BoundaryTags enrichment = strings_ToLower <$> take n mockHierarchy
    ∧ Resolution enrichment = (if (2 <=? n)%nat then "100m" else "1km")
    ∧ (LandmarksNearby enrichment = []
       ∨ LandmarksNearby enrichment
         = ["statue_of_liberty"; "empire_state_building"; "central_park"])
    ∧ ((3 ≤ n)%nat →
       LandmarksNearby enrichment
       = ["statue_of_liberty"; "empire_state_building"; "central_park"]).
Proof.
  unfold enrichPoint, getMockBoundariesForPoint, getMockLandmarksForPoint.
  destruct ((25.0 <=? Lat point)%float && (Lat point <=? 49.0)%float
            && (-125.0 <=? Lon point)%float && (Lon point <=? -66.0)%float).
  2:{ destruct (_ && _ && _ && _); mock_case 0%nat. }
  destruct ((40.4 <=? Lat point)%float && (Lat point <=? 45.0)%float
            && (-79.8 <=? Lon point)%float && (Lon point <=? -71.8)%float).
  2:{ destruct (_ && _ && _ && _); mock_case 1%nat. }
  destruct ((40.4 <=? Lat point)%float && (Lat point <=? 40.9)%float
            && (-74.3 <=? Lon point)%float && (Lon point <=? -73.7)%float).
  2:{ mock_case 2%nat. }
  destruct ((40.68 <=? Lat point)%float && (Lat point <=? 40.88)%float
            && (-74.05 <=? Lon point)%float && (Lon point <=? -73.90)%float).
  - mock_case 4%nat.
  - mock_case 3%nat.
Qed.

Lemma batchLookupLoop_mock (P : SquareEnrichment → Prop) (points : list PointLookup)
    (results all : list SquareEnrichment) :
  (∀ point enrichment, enrichPoint point = Returned enrichment → P enrichment) →
  Forall P results →
  batchLookupLoop points results = Returned all →
  Forall P all.
Proof.
  intros Hpoint. revert results. induction points as [|point points IH]; intros results Hres.
  - cbn. by intros [= <-].
  - cbn [batchLookupLoop]. destruct (enrichPoint point) as [e|] eqn:He; [|discriminate].
    cbn [obind]. apply IH. apply Forall_app. split; [done|].
    constructor; [by eapply Hpoint|constructor].
Qed.

(** The batch lookup does not resolve anything: it reads no collection
    (its answer is the same against every store), and every enrichment
    is mock data, the names of the first n boundaries of the fixed
    hierarchy United States, New York, New York City, Manhattan in lower
    case, with the resolution 100m from two boundaries on and 1km
    below. *)
Theorem batch_lookup_is_mock_data (r : http.Request) (c c' : firestore.Client) :
  batchLookupBoundariesHandler r c = batchLookupBoundariesHandler r c'
  ∧ queries (batchLookupBoundariesHandler r) c = []
  ∧ ∀ response enrichment,
      result (batchLookupBoundariesHandler r) c = Returned (http.JSON response) →
      enrichment ∈ Results response →
      ∃ n, (n ≤ 4)%nat
           ∧ BoundaryTags enrichment = strings_ToLower <$> take n mockHierarchy
           ∧ Resolution enrichment = (if (2 <=? n)%nat then "100m" else "1km")
           ∧ ((3 ≤ n)%nat →
              LandmarksNearby enrichment
              = ["statue_of_liberty"; "empire_state_building"; "central_park"]).
Proof.
  split.
  { unfold batchLookupBoundariesHandler, bind, lift, ret.
    destruct (json_Decode_BatchLookupRequest (http.Body r)); [|reflexivity].
    destruct (batchLookupLoop _ _); reflexivity. }
  unfold batchLookupBoundariesHandler.
  destruct (json_Decode_BatchLookupRequest (http.Body r)) as [request|];
    [|split; [reflexivity|]; by intros ? ? [=]].
  rewrite queries_bind, result_bind, result_lift, queries_lift.
  destruct (batchLookupLoop (Points request) []) as [all|] eqn:Hloop;
    [|split; [reflexivity|]; by intros ? ? [=]].
  rewrite result_ret, queries_ret. split; [reflexivity|].
  intros response enrichment [= <-] Hin. cbn [Results] in Hin.
  revert enrichment Hin. apply Forall_forall.
  eapply batchLookupLoop_mock; [|constructor|exact Hloop].
  intros point enrichment He.
  destruct (enrichPoint_mock point) as (e & n & He' & Hn & Htags & Hres & _ & Hmarks).
  rewrite He in He'. injection He' as <-. by exists n.
Qed.

End Enrichment.

Section EnrichmentExamples.
Local Existing Instance fixture.packages.
Import firestore fixtures more_fixtures.

(** A square in Manhattan. *)
Example batch_lookup_manhattan :
  enrichPoint {| Lat := 40.75; Lon := -73.98; SquareID := "sq" |}
  = Returned {| se_SquareID := "sq";
                BoundaryTags := ["united states"; "new york"; "new york city"; "manhattan"];
                Resolution := "100m";
                LandmarksNearby :=
                  ["statue_of_liberty"; "empire_state_building"; "central_park"] |}.
Proof. vm_compute. reflexivity. Qed.

End EnrichmentExamples.
